(** * The IT invoice generator: prediction with fallback, totals, synthesizer

    A shallow embedding of [train_it_model.py] (class [ITInvoicePredictor]),
    of the predictor, the totals calculator and the session state of the
    form of [it_invoice_app.py] (classes [SimpleInvoicePredictor],
    [ProfessionalITInvoiceGenerator], function [main]) and of the record
    generator of [create_it_dataset.py].

    Conventions of the embedding.
    - Python values are a fragment of the dynamic universe: [None], [str],
      [int], [float] and lists of strings (the one unhashable kind).
    - A finite [float] is represented by the rational it denotes; [inf],
      [-inf] and [nan] are kept, since comparisons treat them specially.
      The results of float arithmetic and of the conversion of an int are
      rounded to the nearest double (53 bits, ties to even, subnormal
      numbers), and what exceeds the doubles is an infinity or an
      OverflowError, as Python has it.  Comparisons are exact, as they
      are in Python between an int and a float.  The sign of zero is not
      modelled; [round(x, 2)] and [random.uniform] are represented by the
      decimal and the real number they stand for.
    - A Python exception is a [Raise e]; [try/except] is a [match] on it.
    - Files, pandas, joblib and the random forests are the environment:
      a [world] of files, and the fitting procedures as section variables. *)

From Stdlib Require Import ZArith QArith Qabs Qpower Qround String Ascii List Bool Lia Lqa.
From Stdlib Require Import DecimalString.
From stdpp Require Import gmap strings.

Local Open Scope string_scope.

(** ** Python values, exceptions and the operators the sources use *)

Module Py.

Inductive float :=
| Fin (q : Q)
| PosInf
| NegInf
| NaN.

Inductive value :=
| VNone
| VStr (s : string)
| VInt (n : Z)
| VFloat (x : float)
| VList (l : list string).

(** The exception classes that occur; [NotFittedError] is sklearn's, a
    subclass of [ValueError].  All of them derive from [Exception]. *)
Inductive exn :=
| TypeError
| ValueError
| KeyError
| AttributeError
| ZeroDivisionError
| OverflowError
| FileNotFoundError
| OSError
| NotFittedError
| RuntimeError.

Inductive result (A : Type) :=
| Ok (a : A)
| Raise (e : exn).
Arguments Ok {A} a.
Arguments Raise {A} e.

#[global] Instance result_ret : MRet result := fun _ a => Ok a.
#[global] Instance result_bind : MBind result := fun _ _ k r =>
  match r with
  | Ok a => k a
  | Raise e => Raise e
  end.

#[global] Instance result_fmap : FMap result := fun _ _ f r =>
  match r with
  | Ok a => Ok (f a)
  | Raise e => Raise e
  end.

Arguments result_bind _ _ _ !_ /.
Arguments result_fmap _ _ _ !_ /.

(** [except ValueError] also catches the subclasses of [ValueError]. *)
Definition is_ValueError (e : exn) : bool :=
  match e with
  | ValueError | NotFittedError => true
  | _ => false
  end.

(** *** Floats *)

Definition Qzero (q : Q) : bool := (Qnum q =? 0)%Z.
Definition Qneg (q : Q) : bool := (Qnum q <? 0)%Z.
Definition Qltb (a b : Q) : bool := (Qnum a * QDen b <? Qnum b * QDen a)%Z.

(** IEEE comparison: anything against [nan] is false. *)
Definition flt (a b : float) : bool :=
  match a, b with
  | NaN, _ | _, NaN => false
  | Fin x, Fin y => Qltb x y
  | NegInf, NegInf => false
  | NegInf, _ => true
  | _, PosInf => match a with PosInf => false | _ => true end
  | _, _ => false
  end.

Definition feq (a b : float) : bool :=
  match a, b with
  | Fin x, Fin y => Qeq_bool x y
  | PosInf, PosInf | NegInf, NegInf => true
  | _, _ => false
  end.

Definition fneg (a : float) : float :=
  match a with
  | Fin q => Fin (- q)
  | PosInf => NegInf
  | NegInf => PosInf
  | NaN => NaN
  end.

(** Nearest integer, ties to even. *)
Definition round_half_even (q : Q) : Z :=
  let n := Qnum q in
  let d := Z.pos (Qden q) in
  let fl := (n / d)%Z in
  let r := (n mod d)%Z in
  match (2 * r ?= d)%Z with
  | Lt => fl
  | Gt => (fl + 1)%Z
  | Eq => if Z.even fl then fl else (fl + 1)%Z
  end.

(** [floor(log2 q)] of a positive rational. *)
Definition ilog2 (q : Q) : Z :=
  let k := (Z.log2 (Qnum q) - Z.log2 (Z.pos (Qden q)))%Z in
  if Qle_bool (2 ^ k) q then k else (k - 1)%Z.

(** The multiple of the spacing nearest to a positive rational, ties to
    even: the spacing leaves 53 significant bits, and is 2^-1074 among
    the subnormal numbers. *)
Definition round_mag (a : Q) : Q :=
  let e := Z.max (-1074) (ilog2 a - 52) in
  (inject_Z (round_half_even (a * 2 ^ (- e))) * 2 ^ e)%Q.

(** The double nearest to a rational; beyond the largest double, an
    infinity. *)
Definition round64 (q : Q) : float :=
  if Qzero q then Fin 0
  else
    let r := round_mag (Qabs q) in
    if Qle_bool (2 ^ 1024) r then (if Qneg q then NegInf else PosInf)
    else Fin (Qred (if Qneg q then - r else r)).

Definition fadd (a b : float) : float :=
  match a, b with
  | NaN, _ | _, NaN => NaN
  | Fin x, Fin y => round64 (x + y)
  | PosInf, NegInf | NegInf, PosInf => NaN
  | PosInf, _ | _, PosInf => PosInf
  | NegInf, _ | _, NegInf => NegInf
  end.

Definition fsub (a b : float) : float := fadd a (fneg b).

(** The sign of a product with an infinity. *)
Definition inf_times (positive : bool) (q : Q) : float :=
  if Qzero q then NaN
  else if xorb positive (Qneg q) then PosInf else NegInf.

Definition fmul (a b : float) : float :=
  match a, b with
  | NaN, _ | _, NaN => NaN
  | Fin x, Fin y => round64 (x * y)
  | PosInf, Fin q | Fin q, PosInf => inf_times true q
  | NegInf, Fin q | Fin q, NegInf => inf_times false q
  | PosInf, PosInf | NegInf, NegInf => PosInf
  | PosInf, NegInf | NegInf, PosInf => NegInf
  end.

(** Python's float division raises on a zero divisor instead of
    returning an infinity; a quotient beyond the doubles is an
    infinity. *)
Definition fdiv (a b : float) : result float :=
  match a, b with
  | _, Fin y =>
      if Qzero y then Raise ZeroDivisionError
      else match a with
           | Fin x => Ok (round64 (x / y))
           | PosInf => Ok (if Qneg y then NegInf else PosInf)
           | NegInf => Ok (if Qneg y then PosInf else NegInf)
           | NaN => Ok NaN
           end
  | NaN, _ | _, NaN => Ok NaN
  | Fin _, _ => Ok (Fin 0)
  | _, _ => Ok NaN
  end.

(** The value of an int, for the comparisons: they are exact. *)
Definition of_int (n : Z) : float := Fin (inject_Z n).

(** [float(n)], as the arithmetic converts an int operand: the nearest
    double, and an OverflowError when that is not finite. *)
Definition float_of_int (n : Z) : result float :=
  match round64 (inject_Z n) with
  | Fin q => Ok (Fin q)
  | _ => Raise OverflowError
  end.

(** *** Numbers among the values *)

Definition as_float (v : value) : option float :=
  match v with
  | VInt n => Some (of_int n)
  | VFloat x => Some x
  | _ => None
  end.

Definition is_number (v : value) : bool :=
  match v with
  | VInt _ | VFloat _ => true
  | _ => false
  end.

(** The operand of a float operation. *)
Definition to_float (v : value) : option (result float) :=
  match v with
  | VInt n => Some (float_of_int n)
  | VFloat x => Some (Ok x)
  | _ => None
  end.

(** [hash(v)] succeeds on everything but a list. *)
Definition hashable (v : value) : bool :=
  match v with
  | VList _ => false
  | _ => true
  end.

Fixpoint list_ltb (a b : list string) : bool :=
  match a, b with
  | _, [] => false
  | [], _ :: _ => true
  | x :: a', y :: b' =>
      if String.ltb x y then true
      else if String.eqb x y then list_ltb a' b' else false
  end.

(** [a < b]: numbers compare by value (an int against a float exactly),
    strings and lists lexicographically, anything else is a TypeError. *)
Definition py_lt (a b : value) : result bool :=
  match a, b with
  | VStr s, VStr t => Ok (String.ltb s t)
  | VList l, VList m => Ok (list_ltb l m)
  | VInt x, VInt y => Ok (x <? y)%Z
  | _, _ =>
      match as_float a, as_float b with
      | Some x, Some y => Ok (flt x y)
      | _, _ => Raise TypeError
      end
  end.

(** [a > b] is [b < a] for these types. *)
Definition py_gt (a b : value) : result bool := py_lt b a.

(** [a == b] never raises; values of different kinds are unequal. *)
Definition py_eq (a b : value) : bool :=
  match a, b with
  | VNone, VNone => true
  | VStr s, VStr t => String.eqb s t
  | VList l, VList m => if decide (l = m) then true else false
  | VInt x, VInt y => (x =? y)%Z
  | _, _ =>
      match as_float a, as_float b with
      | Some x, Some y => feq x y
      | _, _ => false
      end
  end.

(** [v in [s1, s2, ...]] for a list of string literals. *)
Definition py_in (v : value) (l : list string) : bool :=
  existsb (fun s => py_eq v (VStr s)) l.

(** [max(a, b)] and [min(a, b)] of two arguments: the first is kept
    unless the second is strictly better. *)
Definition py_max (a b : value) : result value :=
  better ← py_gt b a; Ok (if (better : bool) then b else a).

Definition py_min (a b : value) : result value :=
  better ← py_lt b a; Ok (if (better : bool) then b else a).

Fixpoint str_repeat (s : string) (n : nat) : string :=
  match n with
  | O => ""
  | S k => s ++ str_repeat s k
  end.

Fixpoint list_repeat (l : list string) (n : nat) : list string :=
  match n with
  | O => []
  | S k => l ++ list_repeat l k
  end.

Definition py_add (a b : value) : result value :=
  match a, b with
  | VInt x, VInt y => Ok (VInt (x + y))
  | VStr s, VStr t => Ok (VStr (s ++ t))
  | VList l, VList m => Ok (VList (l ++ m))
  | _, _ =>
      match to_float a, to_float b with
      | Some x, Some y => x ← x; y ← y; Ok (VFloat (fadd x y))
      | _, _ => Raise TypeError
      end
  end.

Definition py_sub (a b : value) : result value :=
  match a, b with
  | VInt x, VInt y => Ok (VInt (x - y))
  | _, _ =>
      match to_float a, to_float b with
      | Some x, Some y => x ← x; y ← y; Ok (VFloat (fsub x y))
      | _, _ => Raise TypeError
      end
  end.

(** [a * b]; a sequence times an int repeats the sequence. *)
Definition py_mul (a b : value) : result value :=
  match a, b with
  | VInt x, VInt y => Ok (VInt (x * y))
  | VStr s, VInt n | VInt n, VStr s => Ok (VStr (str_repeat s (Z.to_nat n)))
  | VList l, VInt n | VInt n, VList l => Ok (VList (list_repeat l (Z.to_nat n)))
  | _, _ =>
      match to_float a, to_float b with
      | Some x, Some y => x ← x; y ← y; Ok (VFloat (fmul x y))
      | _, _ => Raise TypeError
      end
  end.

(** True division [a / b]: always a float.  Of two ints it is the
    exact quotient rounded once, an OverflowError when that is beyond
    the doubles; otherwise an int operand is converted first. *)
Definition py_div (a b : value) : result value :=
  match a, b with
  | VInt x, VInt y =>
      if (y =? 0)%Z then Raise ZeroDivisionError
      else match round64 (inject_Z x / inject_Z y) with
           | Fin q => Ok (VFloat (Fin q))
           | _ => Raise OverflowError
           end
  | _, _ =>
      match to_float a, to_float b with
      | Some x, Some y => x ← x; y ← y; r ← fdiv x y; Ok (VFloat r)
      | _, _ => Raise TypeError
      end
  end.

(** *** [round(x, 2)] and the format [{x:,.2f}] *)

Definition Qround2 (q : Q) : Q := Qmake (round_half_even (q * 100)) 100.

(** [round(v, 2)]: an int is returned as it is, a float is rounded to
    hundredths, [inf] and [nan] are returned unchanged. *)
Definition py_round2 (v : value) : result value :=
  match v with
  | VInt n => Ok (VInt n)
  | VFloat (Fin q) => Ok (VFloat (Fin (Qround2 q)))
  | VFloat x => Ok (VFloat x)
  | _ => Raise TypeError
  end.

Definition digits (n : Z) : string :=
  NilZero.string_of_uint (N.to_uint (Z.to_N n)).

(** Groups of three digits from the right, separated by commas. *)
Fixpoint group3 (rev_digits : list ascii) (k : nat) (acc : list ascii) : list ascii :=
  match rev_digits with
  | [] => acc
  | c :: rest =>
      match k with
      | 3%nat => group3 rest 1 (c :: ","%char :: acc)
      | _ => group3 rest (S k) (c :: acc)
      end
  end.

Definition with_commas (s : string) : string :=
  string_of_list_ascii (group3 (rev (list_ascii_of_string s)) 0 []).

Definition two_digits (n : Z) : string :=
  if (n <? 10)%Z then "0" ++ digits n else digits n.

Definition format_Q (q : Q) : string :=
  let cents := round_half_even (Qabs q * 100) in
  (if Qneg q then "-" else "")
    ++ with_commas (digits (cents / 100)) ++ "." ++ two_digits (cents mod 100).

Definition format_float (x : float) : string :=
  match x with
  | Fin q => format_Q q
  | PosInf => "inf"
  | NegInf => "-inf"
  | NaN => "nan"
  end.

(** [format(v, ',.2f')]: defined on numbers only; an int is converted
    to a float first. *)
Definition py_format_comma_2f (v : value) : result string :=
  match v with
  | VInt n => x ← float_of_int n; Ok (format_float x)
  | VFloat x => Ok (format_float x)
  | VStr _ => Raise ValueError
  | _ => Raise TypeError
  end.

(** *** Dictionaries with string keys *)

(** [d.get(key, default)]: hashing the key comes first. *)
Definition dict_get {A} (d : gmap string A) (key : value) (default : A) : result A :=
  match key with
  | VList _ => Raise TypeError
  | VStr s => Ok (match d !! s with Some x => x | None => default end)
  | _ => Ok default
  end.

(** [d[key]] for a literal string key. *)
Definition dict_item {A} (d : gmap string A) (key : string) : result A :=
  match d !! key with
  | Some x => Ok x
  | None => Raise KeyError
  end.

End Py.

Import Py.

(** ** The parts of scikit-learn, pandas and joblib the sources rely on *)

Module Sklearn.

(** A [LabelEncoder]: fresh from the constructor, or fitted with its
    sorted array of distinct labels [classes_]. *)
Inductive encoder :=
| Unfitted
| Fitted (classes_ : list string).

Fixpoint insert_sorted (s : string) (l : list string) : list string :=
  match l with
  | [] => [s]
  | x :: rest =>
      if String.eqb s x then l
      else if String.ltb s x then s :: l
      else x :: insert_sorted s rest
  end.

(** [np.unique]: the distinct labels in increasing order. *)
Definition unique_sorted (l : list string) : list string :=
  foldr insert_sorted [] l.

Fixpoint index_of (s : string) (l : list string) : option Z :=
  match l with
  | [] => None
  | x :: rest =>
      if String.eqb s x then Some 0%Z
      else Z.succ <$> index_of s rest
  end.

(** The label [enc.transform([v])] looks up: the array [[v]] has to be
    one-dimensional, and a 1 x 1 array (a list of one element as [v]) is
    ravelled to its element. *)
Definition label_of (v : value) : option value :=
  match v with
  | VList [s] => Some (VStr s)
  | VList _ => None
  | _ => Some v
  end.

(** [enc.transform([v])[0]]: the position of the label in [classes_];
    an unfitted encoder raises NotFittedError, and a label outside
    [classes_] (of any type) or an array of another shape raises
    ValueError. *)
Definition transform (enc : encoder) (v : value) : result Z :=
  match enc with
  | Unfitted => Raise NotFittedError
  | Fitted classes =>
      match label_of v with
      | Some (VStr s) =>
          match index_of s classes with
          | Some i => Ok i
          | None => Raise ValueError
          end
      | _ => Raise ValueError
      end
  end.

Definition as_string (v : value) : option string :=
  match v with
  | VStr s => Some s
  | _ => None
  end.

(** [LabelEncoder().fit_transform(column)] on a column of strings, as the
    four categorical columns of the dataset are.  A column with a cell
    that is not a string makes it raise TypeError, as scikit-learn does
    for a column that mixes strings and numbers.  Scikit-learn also
    accepts a column of numbers only, and missing values ([None],
    [nan]) among strings, which become classes after the strings:
    these columns are outside the embedding, which answers TypeError
    for them too. *)
Definition fit_transform (column : list value) : result (encoder * list value) :=
  match mapM as_string column with
  | None => Raise TypeError
  | Some labels =>
      let classes := unique_sorted labels in
      Ok (Fitted classes,
          (fun s => VInt (default 0%Z (index_of s classes))) <$> labels)
  end.

(** A fitted estimator, seen through the one expression the predictor
    applies to it: [float(m.predict(X)[0])] for a regressor and
    [int(m.predict(X)[0])] for the classifier, on the one-row frame [X]
    given as its row of ten cells.  Any exception of that expression is
    the [Raise]. *)
Definition regressor := list value -> result float.
Definition classifier := list value -> result Z.

(** An estimator that was constructed but never fitted. *)
Definition unfitted_regressor : regressor := fun _ => Raise NotFittedError.
Definition unfitted_classifier : classifier := fun _ => Raise NotFittedError.

End Sklearn.

(** The environment: the files on disk. *)

Module World.

(** A table as pandas holds it: column name to the column's cells. *)
Abbreviation dataframe := (gmap string (list value)).

(** What [joblib.load] returns for an artifact file: a dictionary in
    which each of the four keys may be missing. *)
Record model_data := {
  md_discount_model : option Sklearn.regressor;
  md_tax_model : option Sklearn.regressor;
  md_docs_model : option Sklearn.classifier;
  md_encoders : option (gmap string Sklearn.encoder)
}.

(** A file is unreadable for its reader, or has a content. *)
Inductive file (A : Type) :=
| Corrupt
| Content (a : A).
Arguments Corrupt {A}.
Arguments Content {A} a.

Record world := {
  csv_files : gmap string (file dataframe);
  joblib_files : gmap string (file model_data);
  read_only : bool
}.

Definition read {A} (files : gmap string (file A)) (filename : string) : result A :=
  match files !! filename with
  | None => Raise FileNotFoundError
  | Some Corrupt => Raise RuntimeError
  | Some (Content a) => Ok a
  end.

(** [pd.read_csv(filename)] *)
Definition read_csv (w : world) (filename : string) : result dataframe :=
  read (csv_files w) filename.

(** [joblib.load(filename)] *)
Definition joblib_load (w : world) (filename : string) : result model_data :=
  read (joblib_files w) filename.

(** [joblib.dump(data, filename)]: replaces the file, unless the disk
    refuses the write. *)
Definition joblib_dump (w : world) (data : model_data) (filename : string) : result world :=
  if read_only w then Raise OSError
  else Ok {| csv_files := csv_files w;
             joblib_files := <[filename := Content data]> (joblib_files w);
             read_only := read_only w |}.

End World.

(** The suggestion both predictors return: a dictionary with these five
    keys. *)
Record bundle := {
  discount : value;
  tax_rate : value;
  documentation_complexity : string;
  payment_terms : string;
  service_notes : string
}.

(** ** [train_it_model.py]: class [ITInvoicePredictor] *)

Module ITInvoicePredictor.
Import Sklearn World.

(** The attributes of an instance.  The three model attributes do not
    exist until they are first assigned. *)
Record predictor := {
  models_loaded : bool;
  dataset_loaded : bool;
  dataset : option dataframe;
  encoders : gmap string encoder;
  discount_model : option regressor;
  tax_model : option regressor;
  docs_model : option classifier
}.

Definition __init__ : predictor :=
  {| models_loaded := false; dataset_loaded := false; dataset := None;
     encoders := ∅; discount_model := None; tax_model := None;
     docs_model := None |}.

(** A method body: it reads and assigns attributes of [self] and
    returns or raises; the assignments made before a raise stay. *)
Definition M (A : Type) : Type := predictor -> result A * predictor.

#[global] Instance M_ret : MRet M := fun _ a self => (Ok a, self).
#[global] Instance M_bind : MBind M := fun _ _ k m self =>
  match m self with
  | (Ok a, self') => k a self'
  | (Raise e, self') => (Raise e, self')
  end.
#[global] Instance M_fmap : FMap M := fun _ _ f m self =>
  match m self with
  | (Ok a, self') => (Ok (f a), self')
  | (Raise e, self') => (Raise e, self')
  end.

Definition lift {A} (r : result A) : M A := fun self => (r, self).
Definition gets {A} (f : predictor -> A) : M A := fun self => (Ok (f self), self).
Definition modify (f : predictor -> predictor) : M unit := fun self => (Ok tt, f self).

(** [try: body except Exception as e: handler] *)
Definition try_except {A} (body : M A) (handler : exn -> M A) : M A := fun self =>
  match body self with
  | (Ok a, self') => (Ok a, self')
  | (Raise e, self') => handler e self'
  end.

(** [self.name], an AttributeError while the attribute does not exist. *)
Definition attr {A} (f : predictor -> option A) : M A := fun self =>
  (match f self with Some a => Ok a | None => Raise AttributeError end, self).

Definition set_models_loaded (b : bool) : M unit := modify (fun p =>
  {| models_loaded := b; dataset_loaded := dataset_loaded p; dataset := dataset p;
     encoders := encoders p; discount_model := discount_model p;
     tax_model := tax_model p; docs_model := docs_model p |}).
Definition set_dataset_loaded (b : bool) : M unit := modify (fun p =>
  {| models_loaded := models_loaded p; dataset_loaded := b; dataset := dataset p;
     encoders := encoders p; discount_model := discount_model p;
     tax_model := tax_model p; docs_model := docs_model p |}).
Definition set_dataset (d : dataframe) : M unit := modify (fun p =>
  {| models_loaded := models_loaded p; dataset_loaded := dataset_loaded p;
     dataset := Some d; encoders := encoders p; discount_model := discount_model p;
     tax_model := tax_model p; docs_model := docs_model p |}).
Definition set_encoders (e : gmap string encoder) : M unit := modify (fun p =>
  {| models_loaded := models_loaded p; dataset_loaded := dataset_loaded p;
     dataset := dataset p; encoders := e; discount_model := discount_model p;
     tax_model := tax_model p; docs_model := docs_model p |}).
Definition set_discount_model (m : regressor) : M unit := modify (fun p =>
  {| models_loaded := models_loaded p; dataset_loaded := dataset_loaded p;
     dataset := dataset p; encoders := encoders p; discount_model := Some m;
     tax_model := tax_model p; docs_model := docs_model p |}).
Definition set_tax_model (m : regressor) : M unit := modify (fun p =>
  {| models_loaded := models_loaded p; dataset_loaded := dataset_loaded p;
     dataset := dataset p; encoders := encoders p; discount_model := discount_model p;
     tax_model := Some m; docs_model := docs_model p |}).
Definition set_docs_model (m : classifier) : M unit := modify (fun p =>
  {| models_loaded := models_loaded p; dataset_loaded := dataset_loaded p;
     dataset := dataset p; encoders := encoders p; discount_model := discount_model p;
     tax_model := tax_model p; docs_model := Some m |}).

Definition categorical_cols : list string :=
  ["service_category"; "client_industry"; "country"; "project_type"].

(** [required_cols] of [prepare_features_for_prediction]. *)
Definition required_cols : list string :=
  ["service_category"; "client_industry"; "country"; "project_type";
   "total_amount"; "total_hours"; "num_services"; "amount_per_hour";
   "is_large_project"; "is_enterprise_client"].

(** [feature_cols] of [train_models]. *)
Definition feature_cols : list string :=
  categorical_cols ++ ["total_amount"; "total_hours"; "num_services";
                       "amount_per_hour"; "is_large_project"; "is_enterprise_client"].

Definition payment_terms_map : gmap string string :=
  <["Fixed Price" := "50% Advance, 50% on Completion"]>
  (<["Time & Materials" := "Net 30"]>
  (<["Retainer" := "Monthly in Advance"]>
  (<["Support Contract" := "Quarterly in Advance"]> ∅))).

Definition service_notes_map : gmap string string :=
  <["Software Development" := "Includes code documentation, testing, and deployment support."]>
  (<["Cloud Services" := "Includes architecture design, security configuration, and monitoring."]>
  (<["Cybersecurity" := "Includes security assessment, vulnerability scanning, and compliance reports."]>
  (<["IT Consulting" := "Comprehensive analysis, strategy recommendations, and implementation guidance."]> ∅))).

Definition default_dataset_file : string := "it_invoice_dataset.csv".
Definition default_models_file : string := "it_invoice_models.joblib".

Definition load_dataset (w : world) (filename : string) : M bool :=
  try_except
    (df ← lift (read_csv w filename);
     set_dataset df;;
     set_dataset_loaded true;;
     mret true)
    (fun _ => mret false).

(** The loop over [categorical_cols] of [prepare_features_for_prediction],
    one column: the value is encoded when an encoder for the column
    exists, and 0 is stored when the encoder raises a ValueError or does
    not exist. *)
Definition encode_column (encs : gmap string encoder) (input_dict : gmap string value)
    (input_df : gmap string value) (col : string) : result (gmap string value) :=
  match encs !! col, input_df !! col with
  | Some enc, Some _ =>
      match v ← dict_item input_dict col; transform enc v with
      | Ok code => Ok (<[col := VInt code]> input_df)
      | Raise e =>
          if is_ValueError e then Ok (<[col := VInt 0]> input_df)
          else Raise e
      end
  | _, _ => Ok (<[col := VInt 0]> input_df)
  end.

Fixpoint for_each {S} (f : S -> string -> result S) (cols : list string) (s : S) : result S :=
  match cols with
  | [] => Ok s
  | col :: rest => s' ← f s col; for_each f rest s'
  end.

Definition fill_missing (input_df : gmap string value) (col : string) : gmap string value :=
  match input_df !! col with
  | Some _ => input_df
  | None => <[col := VInt 0]> input_df
  end.

(** The body of the [try] of [prepare_features_for_prediction]; the
    one-row frame is the mapping from column name to its cell, and the
    result is the row in the order of [required_cols]. *)
Definition prepare_features_try (encs : gmap string encoder)
    (input_dict : gmap string value) : result (list value) :=
  let input_df := input_dict in
  input_df ← for_each (encode_column encs input_dict) categorical_cols input_df;
  total_amount ← dict_item input_dict "total_amount";
  total_hours ← dict_item input_dict "total_hours";
  hours ← py_max total_hours (VInt 1);
  amount_per_hour ← py_div total_amount hours;
  let input_df := <["amount_per_hour" := amount_per_hour]> input_df in
  total_amount ← dict_item input_dict "total_amount";
  large ← py_gt total_amount (VInt 20000);
  let input_df := <["is_large_project" := VInt (if (large : bool) then 1 else 0)]> input_df in
  client_industry ← dict_item input_dict "client_industry";
  let enterprise := py_in client_industry ["Finance"; "Healthcare"] in
  let input_df := <["is_enterprise_client" := VInt (if enterprise then 1 else 0)]> input_df in
  let input_df := foldl fill_missing input_df required_cols in
  mapM (dict_item input_df) required_cols.

(** [None] is returned when anything in the body raised. *)
Definition prepare_features_for_prediction (self : predictor)
    (input_dict : gmap string value) : option (list value) :=
  match prepare_features_try (encoders self) input_dict with
  | Ok X => Some X
  | Raise _ => None
  end.

Section Methods.

(** Python's [repr], used by [str] on a value that is not a string. *)
Variable py_repr : value -> string.

(** [RandomForestRegressor(n_estimators=50, random_state=42,
    max_depth=10).fit(X, y)] and the same for the classifier: with the
    seed fixed, functions of the feature columns [X] and the label
    column [y]; they may raise. *)
Variable fit_regressor : list (list value) -> list value -> result regressor.
Variable fit_classifier : list (list value) -> list value -> result classifier.

(** [str(v)], as an f-string applies it to a replacement field. *)
Definition py_str (v : value) : string :=
  match v with
  | VStr s => s
  | _ => py_repr v
  end.

(** The loop over [categorical_cols] of [train_models]: a fresh encoder
    is stored first, then fitted on the column. *)
Fixpoint fit_encoders (cols : list string) (X : dataframe) : M dataframe :=
  match cols with
  | [] => mret X
  | col :: rest =>
      encs ← gets encoders;
      set_encoders (<[col := Unfitted]> encs);;
      column ← lift (dict_item X col);
      fitted ← lift (fit_transform column);
      encs ← gets encoders;
      set_encoders (<[col := fitted.1]> encs);;
      fit_encoders rest (<[col := fitted.2]> X)
  end.

Definition train_models (w : world) : M bool :=
  ok ← load_dataset w default_dataset_file;
  if negb ok then mret false
  else
    try_except
      (data ← attr dataset;
       X ← fit_encoders categorical_cols data;
       X ← lift (mapM (dict_item X) feature_cols);
       set_discount_model unfitted_regressor;;
       set_tax_model unfitted_regressor;;
       set_docs_model unfitted_classifier;;
       y ← lift (dict_item data "discount");
       m ← lift (fit_regressor X y);
       set_discount_model m;;
       y ← lift (dict_item data "tax_rate");
       m ← lift (fit_regressor X y);
       set_tax_model m;;
       y ← lift (dict_item data "needs_detailed_docs");
       m ← lift (fit_classifier X y);
       set_docs_model m;;
       set_models_loaded true;;
       mret true)
      (fun _ => mret false).

(** [model_data[key]] on the loaded dictionary. *)
Definition md_item {A} (entry : option A) : result A :=
  match entry with
  | Some a => Ok a
  | None => Raise KeyError
  end.

Definition load_models (w : world) (filename : string) : M bool :=
  try_except
    (model_data ← lift (joblib_load w filename);
     m ← lift (md_item (md_discount_model model_data));
     set_discount_model m;;
     m ← lift (md_item (md_tax_model model_data));
     set_tax_model m;;
     m ← lift (md_item (md_docs_model model_data));
     set_docs_model m;;
     set_encoders (default ∅ (md_encoders model_data));;
     set_models_loaded true;;
     mret true)
    (fun _ => train_models w).

(** [save_models] also changes the disk: it returns the new world. *)
Definition save_models (w : world) (filename : string) (self : predictor)
    : result bool * predictor * world :=
  let trained :=
    (loaded ← gets models_loaded;
     if (loaded : bool) then mret true else train_models w) self in
  match trained with
  | (Raise e, self) => (Raise e, self, w)
  | (Ok false, self) => (Ok false, self, w)
  | (Ok true, self) =>
      let dumped :=
        discount_model ← from_option Ok (Raise AttributeError) (discount_model self);
        tax_model ← from_option Ok (Raise AttributeError) (tax_model self);
        docs_model ← from_option Ok (Raise AttributeError) (docs_model self);
        let model_data :=
          {| md_discount_model := Some discount_model;
             md_tax_model := Some tax_model;
             md_docs_model := Some docs_model;
             md_encoders := Some (encoders self) |} in
        joblib_dump w model_data filename in
      match dumped with
      | Ok w' => (Ok true, self, w')
      | Raise _ => (Ok false, self, w)
      end
  end.

Definition _get_smart_defaults (service_category client_industry project_type
    total_amount : value) : result bundle :=
  discount ←
    (gt ← py_gt total_amount (VInt 20000);
     if (gt : bool) then Ok (VFloat (Fin 10.0))
     else
       gt ← py_gt total_amount (VInt 10000);
       if (gt : bool) then Ok (VFloat (Fin 5.0))
       else
         gt ← py_gt total_amount (VInt 5000);
         Ok (if (gt : bool) then VFloat (Fin 2.0) else VFloat (Fin 0.0)));
  let tax_rate := VFloat (Fin 8.5) in
  doc_complexity ←
    (gt ← py_gt total_amount (VInt 15000);
     if (gt : bool) then Ok "High"
     else
       gt ← py_gt total_amount (VInt 5000);
       Ok (if (gt : bool) then "Medium" else "Low"));
  payment_terms ← dict_get payment_terms_map project_type "Net 30";
  amount ← py_format_comma_2f total_amount;
  let service_notes :=
    "Professional " ++ py_str service_category ++ " services for "
      ++ py_str client_industry ++ " sector. Total project value: $" ++ amount in
  Ok {| discount := discount; tax_rate := tax_rate;
        documentation_complexity := doc_complexity;
        payment_terms := payment_terms; service_notes := service_notes |}.

(** How the [try] statement of [predict] ends when nothing was raised:
    with a [return] inside it, or by falling through to the code after
    it with the three local variables set. *)
Inductive try_exit :=
| Returned (b : bundle)
| Inferred (discount tax_rate : value) (doc_complexity : string).

(** [predict] from "Prepare input data" to the end of the [try]. *)
Definition predict_loaded (service_category client_industry country project_type
    total_amount total_hours num_services : value) : M try_exit :=
  let input_dict : gmap string value :=
    <["service_category" := service_category]>
    (<["client_industry" := client_industry]>
    (<["country" := country]>
    (<["project_type" := project_type]>
    (<["total_amount" := total_amount]>
    (<["total_hours" := total_hours]>
    (<["num_services" := num_services]> ∅)))))) in
  X_pred ← gets (fun self => prepare_features_for_prediction self input_dict);
  loaded ← gets models_loaded;
  match X_pred, (loaded : bool) with
  | Some X_pred, true =>
      m ← attr discount_model;
      discount ← lift (m X_pred);
      m ← attr tax_model;
      tax_rate ← lift (m X_pred);
      m ← attr docs_model;
      needs_detailed_docs ← lift (m X_pred);
      discount ← lift (m ← py_min (VInt 20) (VFloat discount); py_max (VInt 0) m);
      tax_rate ← lift (m ← py_min (VInt 25) (VFloat tax_rate); py_max (VInt 0) m);
      let doc_complexity :=
        if (needs_detailed_docs =? 0)%Z then "Medium" else "High" in
      mret (Inferred discount tax_rate doc_complexity)
  | _, _ =>
      Returned <$> lift (_get_smart_defaults service_category client_industry
                           project_type total_amount)
  end.

Definition predict (w : world) (service_category client_industry country project_type
    total_amount total_hours num_services : value) : M bundle :=
  let defaults :=
    lift (_get_smart_defaults service_category client_industry project_type
            total_amount) in
  let rest :=
    predict_loaded service_category client_industry country project_type
      total_amount total_hours num_services in
  exit ←
    try_except
      (loaded ← gets models_loaded;
       if (loaded : bool) then rest
       else
         ok ← load_models w default_models_file;
         if (ok : bool) then rest else Returned <$> defaults)
      (fun _ => Returned <$> defaults);
  match exit with
  | Returned b => mret b
  | Inferred discount tax_rate doc_complexity =>
      lift
        (payment_terms ← dict_get payment_terms_map project_type "Net 30";
         service_notes ←
           dict_get service_notes_map service_category
             "Professional IT services delivered to industry standards.";
         discount ← py_round2 discount;
         tax_rate ← py_round2 tax_rate;
         Ok {| discount := discount; tax_rate := tax_rate;
               documentation_complexity := doc_complexity;
               payment_terms := payment_terms; service_notes := service_notes |})
  end.

End Methods.

End ITInvoicePredictor.

(** ** [it_invoice_app.py]: class [SimpleInvoicePredictor] *)

Module SimpleInvoicePredictor.
Import World.

Record predictor := { models_loaded : bool }.

Definition __init__ : predictor := {| models_loaded := false |}.

(** The loaded data is bound to a local variable and dropped. *)
Definition load_models (w : world) (filename : string) (self : predictor)
    : bool * predictor :=
  match joblib_load w filename with
  | Ok model_data => (true, {| models_loaded := true |})
  | Raise _ => (false, {| models_loaded := false |})
  end.

Definition payment_terms_map : gmap string string :=
  <["Fixed Price" := "50% Advance, 50% on Completion"]>
  (<["Time & Materials" := "Net 30"]>
  (<["Retainer" := "Monthly in Advance"]>
  (<["Support Contract" := "Quarterly in Advance"]> ∅))).

Definition service_notes_map : gmap string string :=
  <["Software Development" := "Includes code documentation, testing, and deployment support."]>
  (<["Cloud Services" := "Includes architecture design and security configuration."]>
  (<["Cybersecurity" := "Includes security assessment and compliance documentation."]>
  (<["IT Consulting" := "Professional consulting services with detailed reports."]>
  (<["System Integration" := "Includes system design and integration testing."]>
  (<["Data Analytics" := "Includes data analysis and visualization reports."]>
  (<["DevOps Services" := "Includes CI/CD pipeline setup and automation."]>
  (<["AI/ML Solutions" := "Includes model development and implementation."]> ∅))))))).

(** The body of the [try] of [predict]. *)
Definition predict_try (service_category project_type total_amount : value)
    : result bundle :=
  discount ←
    (gt ← py_gt total_amount (VInt 10000);
     if (gt : bool) then Ok (VFloat (Fin 5.0))
     else
       gt ← py_gt total_amount (VInt 5000);
       Ok (if (gt : bool) then VFloat (Fin 3.0) else VFloat (Fin 0.0)));
  let tax_rate := VFloat (Fin 8.5) in
  doc_complexity ←
    (gt ← py_gt total_amount (VInt 15000);
     if (gt : bool) then Ok "High"
     else
       gt ← py_gt total_amount (VInt 5000);
       Ok (if (gt : bool) then "Medium" else "Low"));
  payment_terms ← dict_get payment_terms_map project_type "Net 30";
  service_notes ←
    dict_get service_notes_map service_category
      "Professional IT services delivered to industry standards.";
  Ok {| discount := discount; tax_rate := tax_rate;
        documentation_complexity := doc_complexity;
        payment_terms := payment_terms; service_notes := service_notes |}.

(** The dictionary of the [except] branch. *)
Definition ultimate_fallback : bundle :=
  {| discount := VFloat (Fin 5.0); tax_rate := VFloat (Fin 8.5);
     documentation_complexity := "Medium"; payment_terms := "Net 30";
     service_notes := "Thank you for your business! Professional services delivered." |}.

Definition predict (self : predictor) (service_category client_industry country
    project_type total_amount total_hours num_services : value) : bundle :=
  match predict_try service_category project_type total_amount with
  | Ok b => b
  | Raise _ => ultimate_fallback
  end.

End SimpleInvoicePredictor.

(** ** [it_invoice_app.py]: class [ProfessionalITInvoiceGenerator] *)

Module ProfessionalITInvoiceGenerator.

Record totals := {
  subtotal : value;
  discount_amount : value;
  tax_amount : value;
  total : value;
  total_hours : value
}.

(** [sum(service['hours'] * service['hourly_rate'] for service in services)]:
    the sum starts from the int 0 and takes the products one by one,
    each float addition rounded.  (From Python 3.12 on, [sum] also
    carries a correction term for the float items; it can change the
    last bit of a sum of floats that is not exact, and is left out.) *)
Definition sum_amounts (services : list (gmap string value)) : result value :=
  foldl (fun acc service =>
           a ← acc;
           hours ← dict_item service "hours";
           hourly_rate ← dict_item service "hourly_rate";
           amount ← py_mul hours hourly_rate;
           py_add a amount)
        (Ok (VInt 0)) services.

(** [sum(service['hours'] for service in services)] *)
Definition sum_hours (services : list (gmap string value)) : result value :=
  foldl (fun acc service =>
           a ← acc;
           hours ← dict_item service "hours";
           py_add a hours)
        (Ok (VInt 0)) services.

Definition calculate_project_totals_try (services : list (gmap string value))
    (discount tax_rate : value) : result totals :=
  subtotal ← sum_amounts services;
  fraction ← py_div discount (VInt 100);
  discount_amount ← py_mul subtotal fraction;
  taxable_amount ← py_sub subtotal discount_amount;
  fraction ← py_div tax_rate (VInt 100);
  tax_amount ← py_mul taxable_amount fraction;
  total ← py_add taxable_amount tax_amount;
  total_hours ← sum_hours services;
  Ok {| subtotal := subtotal; discount_amount := discount_amount;
        tax_amount := tax_amount; total := total; total_hours := total_hours |}.

Definition calculate_project_totals (services : list (gmap string value))
    (discount tax_rate : value) : totals :=
  match calculate_project_totals_try services discount tax_rate with
  | Ok t => t
  | Raise _ =>
      {| subtotal := VInt 0; discount_amount := VInt 0; tax_amount := VInt 0;
         total := VInt 0; total_hours := VInt 0 |}
  end.

End ProfessionalITInvoiceGenerator.

(** ** [create_it_dataset.py]: the record generator *)

Module Synth.

(** The random module is a source of raw draws, consumed one per call:
    the generator runs over the position in it. *)
Definition G (A : Type) : Type := nat -> result A * nat.

#[global] Instance G_ret : MRet G := fun _ a pos => (Ok a, pos).
#[global] Instance G_bind : MBind G := fun _ _ k m pos =>
  match m pos with
  | (Ok a, pos') => k a pos'
  | (Raise e, pos') => (Raise e, pos')
  end.

Definition glift {A} (r : result A) : G A := fun pos => (r, pos).

Record invoice := {
  invoice_id : string;
  service_category : string;
  client_industry : string;
  country : string;
  project_type : string;
  total_amount : Z;
  total_hours : Z;
  num_services : Z;
  discount : value;
  tax_rate : value;
  documentation_complexity : string;
  payment_terms : string;
  days_ago : Z
}.

Definition service_categories : list string :=
  ["Software Development"; "Cloud Services"; "Cybersecurity";
   "IT Consulting"; "System Integration"; "Data Analytics";
   "DevOps Services"; "AI/ML Solutions"; "Mobile Development";
   "Web Development"; "Database Management"; "Network Infrastructure"].

Definition project_types : list string :=
  ["Fixed Price"; "Time & Materials"; "Retainer"; "Support Contract"].
Definition client_industries : list string :=
  ["Finance"; "Healthcare"; "E-commerce"; "Education"; "Manufacturing"; "Government"].
Definition countries : list string := ["US"; "UK"; "CA"; "AU"; "DE"; "SG"].

Definition service_items : gmap string (list (string * Z * Z)) :=
  <["Software Development" :=
      [("Custom API Development", 150, 200); ("Frontend Development", 120, 180);
       ("Backend System Architecture", 180, 250);
       ("Database Design & Optimization", 160, 220)]%Z]>
  (<["Cloud Services" :=
      [("AWS Infrastructure Setup", 100, 150); ("Azure Migration Services", 120, 180);
       ("Cloud Security Configuration", 140, 200);
       ("Kubernetes Cluster Management", 150, 220)]%Z]>
  (<["Cybersecurity" :=
      [("Security Audit & Assessment", 200, 300); ("Penetration Testing", 180, 280);
       ("Security Policy Development", 150, 220);
       ("Incident Response Planning", 180, 250)]%Z]>
  (<["IT Consulting" :=
      [("Technology Strategy Planning", 180, 250); ("System Architecture Review", 160, 220);
       ("Digital Transformation Consulting", 200, 300);
       ("IT Infrastructure Assessment", 150, 200)]%Z]> ∅))).

Definition tax_rates : gmap string Q :=
  <["US" := 8.5%Q]> (<["UK" := 20.0%Q]> (<["CA" := 13.0%Q]>
  (<["AU" := 10.0%Q]> (<["DE" := 19.0%Q]> (<["SG" := 7.0%Q]> ∅))))).

Section Random.

(** The raw draws of the run. *)
Variable draws : nat -> nat.

Definition next : G nat := fun pos => (Ok (draws pos), S pos).

(** [random.choice(seq)], an IndexError (here RuntimeError) on an
    empty sequence. *)
Definition choice {A} (seq : list A) : G A :=
  k ← next;
  glift (match seq !! (k mod length seq)%nat with
         | Some x => Ok x
         | None => Raise RuntimeError
         end).

(** [random.randint(a, b)], both ends included. *)
Definition randint (a b : Z) : G Z :=
  k ← next;
  mret (a + Z.of_nat k mod (b - a + 1))%Z.

(** [random.uniform(a, b)]: [a + (b - a) * random()], where [random()]
    is a multiple of 2^-53 in [0, 1). *)
Definition uniform (a b : Z) : G float :=
  k ← next;
  mret (Fin (inject_Z a + inject_Z (b - a)
               * (inject_Z (Z.of_nat k mod 2 ^ 53) / inject_Z (2 ^ 53)))%Q).

(** The inner loop: [num_items] line items, of which the hours and the
    amounts are summed. *)
Fixpoint sample_items (available_services : list (string * Z * Z)) (num_items : nat)
    (total_hours total_amount : Z) : G (Z * Z) :=
  match num_items with
  | O => mret (total_hours, total_amount)
  | S k =>
      item ← choice available_services;
      hours ← randint 10 100;
      hourly_rate ← randint item.1.2 item.2;
      let amount := (hours * hourly_rate)%Z in
      sample_items available_services k (total_hours + hours) (total_amount + amount)
  end.

(** One turn of the outer loop. *)
Definition generate_record (i : nat) : G invoice :=
  service_category ← choice service_categories;
  client_industry ← choice client_industries;
  country ← choice countries;
  project_type ← choice project_types;
  num_items ← randint 1 6;
  let available_services :=
    default [("General IT Consulting", 100, 150)%Z] (service_items !! service_category) in
  sums ← sample_items available_services (Z.to_nat num_items) 0 0;
  let total_hours := sums.1 in
  let total_amount := sums.2 in
  discount ←
    (if (20000 <? total_amount)%Z then
       u ← uniform 8 15; glift (py_round2 (VFloat u))
     else if (10000 <? total_amount)%Z
             && bool_decide (client_industry ∈ ["Finance"; "Healthcare"]) then
       u ← uniform 5 12; glift (py_round2 (VFloat u))
     else mret (VInt 0));
  tax_rate ← glift (dict_item tax_rates country);
  let doc_complexity :=
    if (15000 <? total_amount)%Z
       || bool_decide (service_category ∈ ["Cybersecurity"; "System Integration"])
    then "High"
    else if (8000 <? total_amount)%Z then "Medium"
    else "Low" in
  let payment_terms :=
    if String.eqb project_type "Fixed Price" then "50% Advance, 50% on Completion"
    else if String.eqb project_type "Support Contract" then "Monthly in Advance"
    else "Net 30" in
  days ← randint 1 365;
  mret {| invoice_id := "IT-" ++ digits (2023000 + Z.of_nat i);
          service_category := service_category;
          client_industry := client_industry;
          country := country;
          project_type := project_type;
          total_amount := total_amount;
          total_hours := total_hours;
          num_services := num_items;
          discount := discount;
          tax_rate := VFloat (Fin tax_rate);
          documentation_complexity := doc_complexity;
          payment_terms := payment_terms;
          days_ago := days |}.

(** The rows of the returned frame, in order. *)
Fixpoint generate_from (i : nat) (num_samples : nat) : G (list invoice) :=
  match num_samples with
  | O => mret []
  | S k =>
      r ← generate_record i;
      rest ← generate_from (S i) k;
      mret (r :: rest)
  end.

Definition generate_it_invoice_data (num_samples : nat) : G (list invoice) :=
  generate_from 0 num_samples.

End Random.

(** The keys of the dictionary appended for each record: the columns of
    the returned frame, and of the file the module writes from it. *)
Definition columns : list string :=
  ["invoice_id"; "service_category"; "client_industry"; "country"; "project_type";
   "total_amount"; "total_hours"; "num_services"; "discount"; "tax_rate";
   "documentation_complexity"; "payment_terms"; "timestamp"].

End Synth.

(** ** [it_invoice_app.py]: the form of [main] *)

Module InvoiceForm.

(** [st.session_state.services] on the first run of the script. *)
Definition initial_services : list (gmap string value) :=
  [<["description" := VStr "Initial Consultation & Analysis"]>
   (<["details" := VStr "Requirements gathering and system assessment"]>
   (<["hours" := VInt 10]>
   (<["hourly_rate" := VFloat (Fin 150.00)]> ∅)))].

(** The item appended by "Add Service Item". *)
Definition additional_service : gmap string value :=
  <["description" := VStr "Additional IT Service"]>
  (<["details" := VStr "Professional IT service delivery"]>
  (<["hours" := VInt 8]>
  (<["hourly_rate" := VFloat (Fin 125.00)]> ∅))).

(** What happens between two runs of the script: the four widgets of
    item [i] deliver new values, or one of the two buttons is pressed. *)
Inductive event :=
| Edit (i : nat) (description details : string) (hours hourly_rate : value)
| AddServiceItem
| RemoveLastItem.

(** The values the widgets can deliver: [number_input] with
    [min_value=1] and an int value gives an int from 1 on, up to
    2^53 - 1, the largest int the widget handles; with
    [min_value=50.0] it gives a finite float from 50 on. *)
Definition deliverable (e : event) : bool :=
  match e with
  | Edit _ _ _ (VInt hours) (VFloat (Fin hourly_rate)) =>
      (1 <=? hours)%Z && (hours <=? 2 ^ 53 - 1)%Z && Qle_bool 50 hourly_rate
  | Edit _ _ _ _ _ => false
  | _ => true
  end.

(** The assignments to [st.session_state.services[i]]. *)
Definition edit (description details : string) (hours hourly_rate : value)
    (service : gmap string value) : gmap string value :=
  <["hourly_rate" := hourly_rate]>
  (<["hours" := hours]>
  (<["details" := VStr details]>
  (<["description" := VStr description]> service))).

(** "Remove Last Item" is offered only while there is more than one. *)
Definition handle (services : list (gmap string value)) (e : event)
    : list (gmap string value) :=
  match e with
  | Edit i description details hours hourly_rate =>
      alter (edit description details hours hourly_rate) i services
  | AddServiceItem => services ++ [additional_service]
  | RemoveLastItem =>
      if (1 <? length services)%nat then removelast services else services
  end.

Definition run (events : list event) : list (gmap string value) :=
  foldl handle initial_services events.

(** The project metrics computed for the predictions:
    [total_amount], [total_hours] and [num_services]. *)
Definition project_metrics (services : list (gmap string value))
    : result (value * value * value) :=
  total_amount ← ProfessionalITInvoiceGenerator.sum_amounts services;
  total_hours ← ProfessionalITInvoiceGenerator.sum_hours services;
  Ok (total_amount, total_hours, VInt (Z.of_nat (length services))).

Definition payment_terms_options : list string :=
  ["Net 30"; "50% Advance, 50% on Completion"; "Monthly in Advance";
   "Quarterly in Advance"].

Definition doc_complexity_options : list string := ["Low"; "Medium"; "High"].

(** [options.index(value)], when the value is among the options. *)
Fixpoint list_index (value : string) (options : list string) : option nat :=
  match options with
  | [] => None
  | x :: rest =>
      if String.eqb x value then Some 0%nat else S <$> list_index value rest
  end.

(** [options.index(value) if value in options else fallback] *)
Definition default_index (options : list string) (value : string) (fallback : nat) : nat :=
  default fallback (list_index value options).

(** The option each of the two select boxes shows before the user
    touches it, for the suggestion [predictions]. *)
Definition preselected_payment_terms (predictions : bundle) : option string :=
  payment_terms_options
    !! default_index payment_terms_options (payment_terms predictions) 0.

Definition preselected_doc_complexity (predictions : bundle) : option string :=
  doc_complexity_options
    !! default_index doc_complexity_options (documentation_complexity predictions) 1.

End InvoiceForm.

(** ** Concrete environments used in the examples *)

Module Fixtures.
Import Sklearn World.

(** A rendering for values that are not strings, and fitting procedures
    that return constant estimators; the theorems hold for all of them,
    the examples need one. *)
Definition plain_repr (v : value) : string :=
  match v with
  | VNone => "None"
  | VInt n => if (n <? 0)%Z then "-" ++ digits (- n) else digits n
  | _ => "<object>"
  end.

Definition constant_regressors (X : list (list value)) (y : list value)
    : result regressor :=
  Ok (fun _ => Ok (Fin 12.3456)).

Definition constant_classifiers (X : list (list value)) (y : list value)
    : result classifier :=
  Ok (fun _ => Ok 1%Z).

(** No artifact and no dataset on disk. *)
Definition cold_world : world :=
  {| csv_files := ∅; joblib_files := ∅; read_only := false |}.

(** An artifact whose estimators answer out of the business bounds, and
    whose classifier echoes the code of the country. *)
Definition wild_artifact : model_data :=
  {| md_discount_model := Some (fun _ => Ok (Fin 33.333));
     md_tax_model := Some (fun _ => Ok NaN);
     md_docs_model :=
       Some (fun X => Ok (match X !! 2%nat with Some (VInt c) => c | _ => 7%Z end));
     md_encoders := Some (<["country" := Fitted ["UK"; "US"]]> ∅) |}.

Definition warm_world : world :=
  {| csv_files := ∅;
     joblib_files := <["it_invoice_models.joblib" := Content wild_artifact]> ∅;
     read_only := false |}.

(** A predictor that holds [wild_artifact] in memory. *)
Definition wild_predictor : ITInvoicePredictor.predictor :=
  {| ITInvoicePredictor.models_loaded := true;
     ITInvoicePredictor.dataset_loaded := false;
     ITInvoicePredictor.dataset := None;
     ITInvoicePredictor.encoders := <["country" := Fitted ["UK"; "US"]]> ∅;
     ITInvoicePredictor.discount_model := md_discount_model wild_artifact;
     ITInvoicePredictor.tax_model := md_tax_model wild_artifact;
     ITInvoicePredictor.docs_model := md_docs_model wild_artifact |}.

(** A dataset of two invoices with every column the trainer reads. *)
Definition small_dataset : dataframe :=
  <["service_category" := [VStr "Cloud Services"; VStr "Cybersecurity"]]>
  (<["client_industry" := [VStr "Finance"; VStr "Education"]]>
  (<["country" := [VStr "US"; VStr "UK"]]>
  (<["project_type" := [VStr "Retainer"; VStr "Fixed Price"]]>
  (<["total_amount" := [VInt 25000; VInt 3000]]>
  (<["total_hours" := [VInt 150; VInt 20]]>
  (<["num_services" := [VInt 3; VInt 1]]>
  (<["amount_per_hour" := [VFloat (Fin (5864062014805333 # 35184372088832)); VFloat (Fin 150)]]>
  (<["is_large_project" := [VInt 1; VInt 0]]>
  (<["is_enterprise_client" := [VInt 1; VInt 0]]>
  (<["discount" := [VFloat (Fin 9.5); VInt 0]]>
  (<["tax_rate" := [VFloat (Fin 8.5); VFloat (Fin 20.0)]]>
  (<["needs_detailed_docs" := [VInt 1; VInt 0]]> ∅)))))))))))).

Definition training_world : world :=
  {| csv_files := <["it_invoice_dataset.csv" := Content small_dataset]> ∅;
     joblib_files := ∅;
     read_only := false |}.

(** Raw draws that are 0 except for the choice of the project type, the
    fourth draw of a record. *)
Definition draws_with_project (k : nat) (pos : nat) : nat :=
  if (pos =? 3)%nat then k else 0%nat.

(** A line item of the invoice form. *)
Definition line_item (hours hourly_rate : value) : gmap string value :=
  <["service_name" := VStr "Custom Software Development"]>
  (<["hours" := hours]> (<["hourly_rate" := hourly_rate]> ∅)).

(** A frame with the columns the generator writes, of one record. *)
Definition generated_frame : dataframe :=
  <["invoice_id" := [VStr "IT-2023000"]]>
  (<["service_category" := [VStr "Cloud Services"]]>
  (<["client_industry" := [VStr "Finance"]]>
  (<["country" := [VStr "US"]]>
  (<["project_type" := [VStr "Retainer"]]>
  (<["total_amount" := [VInt 25000]]>
  (<["total_hours" := [VInt 150]]>
  (<["num_services" := [VInt 3]]>
  (<["discount" := [VFloat (Fin 9.5)]]>
  (<["tax_rate" := [VFloat (Fin 8.5)]]>
  (<["documentation_complexity" := [VStr "High"]]>
  (<["payment_terms" := [VStr "Net 30"]]>
  (<["timestamp" := [VStr "2024-05-17 10:31:02.000000"]]> ∅)))))))))))).

Definition generated_world : world :=
  {| csv_files := <["it_invoice_dataset.csv" := Content generated_frame]> ∅;
     joblib_files := ∅;
     read_only := false |}.

(** A session with the form: an item is added and edited, then removed,
    and a second removal is not offered. *)
Definition form_events : list InvoiceForm.event :=
  [InvoiceForm.AddServiceItem;
   InvoiceForm.Edit 1 "Security Audit" "Quarterly review" (VInt 3) (VFloat (Fin 80.0));
   InvoiceForm.RemoveLastItem;
   InvoiceForm.RemoveLastItem].

End Fixtures.

(** ** The properties, as predicates on the embedded values *)

Module Props.

(** The value is a finite number equal to [q]. *)
Definition denotes (v : value) (q : Q) : Prop :=
  exists q', as_float v = Some (Fin q') /\ q' == q.

(** [float(n)] does not overflow: the int rounds to a double. *)
Definition in_double_range (n : Z) : bool :=
  (Z.abs n <? 2 ^ 1024 - 2 ^ 970)%Z.

(** A number the float arithmetic and the formats accept: a float, or
    an int within the range of the doubles. *)
Definition converts (v : value) : bool :=
  match v with
  | VInt n => in_double_range n
  | VFloat _ => true
  | _ => false
  end.

(** [total_amount / max(total_hours, 1)] is defined on these numbers:
    the quotient of two ints must round to a double, and an int that
    meets a float must convert to one. *)
Definition rate_converts (total_amount total_hours : value) : bool :=
  match total_amount, total_hours with
  | VInt x, VInt h => (Z.abs x <? (2 ^ 1024 - 2 ^ 970) * Z.max h 1)%Z
  | VInt x, VFloat _ => in_double_range x
  | VFloat _, VInt h => in_double_range (Z.max h 1)
  | VFloat _, VFloat _ => true
  | _, _ => false
  end.

(** The dictionary is a line item of [hours] hours at [rate] per hour. *)
Definition line_denotes (service : gmap string value) (item : Q * Q) : Prop :=
  exists hours hourly_rate,
    service !! "hours" = Some hours
    /\ service !! "hourly_rate" = Some hourly_rate
    /\ denotes hours item.1 /\ denotes hourly_rate item.2.

(** The sums of the specification over the line items. *)
Definition sum_of_amounts (items : list (Q * Q)) : Q :=
  foldr (fun item s => item.1 * item.2 + s)%Q 0%Q items.

Definition sum_of_hours (items : list (Q * Q)) : Q :=
  foldr (fun item s => item.1 + s)%Q 0%Q items.

(** The payment terms the generator assigns to a project type. *)
Definition synthesizer_terms (project_type : string) : string :=
  if String.eqb project_type "Fixed Price" then "50% Advance, 50% on Completion"
  else if String.eqb project_type "Support Contract" then "Monthly in Advance"
  else "Net 30".

(** The value is a finite number within [lo, hi]. *)
Definition in_range (lo hi : Q) (v : value) : bool :=
  match as_float v with
  | Some (Fin q) => Qle_bool lo q && Qle_bool q hi
  | _ => false
  end.

Definition levels : list string := ["Low"; "Medium"; "High"].

Definition known_payment_terms : list string :=
  ["50% Advance, 50% on Completion"; "Net 30"; "Monthly in Advance";
   "Quarterly in Advance"].

(** The suggestion bundle of the data model. *)
Definition well_formed (b : bundle) : bool :=
  in_range 0 20 (discount b)
  && in_range 0 25 (tax_rate b)
  && bool_decide (documentation_complexity b ∈ levels)
  && bool_decide (payment_terms b ∈ known_payment_terms)
  && negb (String.eqb (service_notes b) "").

(** [a <= b] on floats and on numbers. *)
Definition fle (x y : float) : bool := flt x y || feq x y.


(** [v > k] for a number [v] and an int literal [k]. *)
Definition above (k : Z) (v : value) : bool :=
  match as_float v with
  | Some x => flt (of_int k) x
  | None => false
  end.

(** The tiers of the rule-based defaults, read off a numeric amount:
    the discount of [_get_smart_defaults], the discount of the inline
    predictor of the application, and the documentation level of both. *)
Definition trainer_tier (total_amount : value) : value :=
  if above 20000 total_amount then VFloat (Fin 10.0)
  else if above 10000 total_amount then VFloat (Fin 5.0)
  else if above 5000 total_amount then VFloat (Fin 2.0)
  else VFloat (Fin 0.0).

Definition app_tier (total_amount : value) : value :=
  if above 10000 total_amount then VFloat (Fin 5.0)
  else if above 5000 total_amount then VFloat (Fin 3.0)
  else VFloat (Fin 0.0).

Definition doc_tier (total_amount : value) : string :=
  if above 15000 total_amount then "High"
  else if above 5000 total_amount then "Medium"
  else "Low".

(** The four-entry lookup with its default, on a hashable key. *)
Definition terms_of (project_type : value) : string :=
  match project_type with
  | VStr s => default "Net 30" (ITInvoicePredictor.payment_terms_map !! s)
  | _ => "Net 30"
  end.

(** The arguments of [predict] as the dictionary it builds. *)
Definition input_record (service_category client_industry country project_type
    total_amount total_hours num_services : value) : gmap string value :=
  <["service_category" := service_category]>
  (<["client_industry" := client_industry]>
  (<["country" := country]>
  (<["project_type" := project_type]>
  (<["total_amount" := total_amount]>
  (<["total_hours" := total_hours]>
  (<["num_services" := num_services]> ∅)))))).


(** *** The stages of [ITInvoicePredictor.predict] *)

Section Stages.
Import Sklearn World ITInvoicePredictor.

Variable fit_regressor : list (list value) -> list value -> result regressor.
Variable fit_classifier : list (list value) -> list value -> result classifier.

(** Step 1: the artifact is in memory, or [load_models] is tried. *)
Definition ensure_loaded (w : world) (self : predictor) : result bool * predictor :=
  if models_loaded self then (Ok true, self)
  else load_models fit_regressor fit_classifier w default_models_file self.

(** Step 3, first half: the raw answers of the three estimators. *)
Definition run_estimators (self : predictor) (X : list value)
    : result (float * float * Z) :=
  m ← from_option Ok (Raise AttributeError) (discount_model self);
  d ← m X;
  m ← from_option Ok (Raise AttributeError) (tax_model self);
  t ← m X;
  m ← from_option Ok (Raise AttributeError) (docs_model self);
  n ← m X;
  Ok (d, t, n).

(** [max(0, min(hi, x))] *)
Definition clamp (hi : Z) (x : float) : result value :=
  m ← py_min (VInt hi) (VFloat x); py_max (VInt 0) m.

(** Step 3, second half: the bundle built from the raw answers. *)
Definition inference_bundle (service_category project_type : value)
    (d t : float) (n : Z) : result bundle :=
  discount ← clamp 20 d;
  tax_rate ← clamp 25 t;
  payment_terms ← dict_get payment_terms_map project_type "Net 30";
  service_notes ←
    dict_get service_notes_map service_category
      "Professional IT services delivered to industry standards.";
  discount ← py_round2 discount;
  tax_rate ← py_round2 tax_rate;
  Ok {| discount := discount; tax_rate := tax_rate;
        documentation_complexity := if (n =? 0)%Z then "Medium" else "High";
        payment_terms := payment_terms; service_notes := service_notes |}.

(** The answers of a call when inference goes through: the artifact is
    available, the features were prepared and no estimator raised. *)
Definition inference (w : world) (self : predictor) (service_category
    client_industry country project_type total_amount total_hours
    num_services : value) : option (float * float * Z) :=
  match ensure_loaded w self with
  | (Ok true, self1) =>
      if models_loaded self1 then
        match prepare_features_for_prediction self1
                (input_record service_category client_industry country
                   project_type total_amount total_hours num_services) with
        | Some X =>
            match run_estimators self1 X with
            | Ok answers => Some answers
            | Raise _ => None
            end
        | None => None
        end
      else None
  | _ => None
  end.

End Stages.

End Props.

(** ** Further predicates on the embedded values *)

Module Conditions.
Import Props.

(** The columns [train_models] reads: the features and the three labels. *)
Definition training_columns : list string :=
  ITInvoicePredictor.feature_cols ++ ["discount"; "tax_rate"; "needs_detailed_docs"].

(** The dictionary of the [except] branch of [calculate_project_totals]. *)
Definition zero_totals : ProfessionalITInvoiceGenerator.totals :=
  {| ProfessionalITInvoiceGenerator.subtotal := VInt 0;
     ProfessionalITInvoiceGenerator.discount_amount := VInt 0;
     ProfessionalITInvoiceGenerator.tax_amount := VInt 0;
     ProfessionalITInvoiceGenerator.total := VInt 0;
     ProfessionalITInvoiceGenerator.total_hours := VInt 0 |}.

(** [round(max(0, min(hi, x)), 2)] as a case distinction on the float
    [x]: the bound it passes, and the upper bound for [nan]. *)
Definition saturates (hi : Z) (x : float) (v : value) : Prop :=
  match x with
  | NaN | PosInf => v = VInt hi
  | NegInf => v = VInt 0
  | Fin q =>
      if Qlt_le_dec q (inject_Z hi) then
        if Qlt_le_dec 0 q then v = VFloat (Fin (Qround2 q)) else v = VInt 0
      else v = VInt hi
  end.

(** An int operand of at most 53 bits: its conversion to a float is
    exact.  Floats pass as they are. *)
Definition fits53 (v : value) : Prop :=
  match v with
  | VInt n => (Z.abs n <= 2 ^ 53)%Z
  | _ => True
  end.

(** The value is the integer [n] of at most 53 bits, as an int or as a
    float: the numbers on which the float arithmetic is exact. *)
Definition whole (v : value) (n : Z) : Prop :=
  (Z.abs n <= 2 ^ 53)%Z
  /\ (v = VInt n \/ exists q, v = VFloat (Fin q) /\ (q == inject_Z n)%Q).

(** The dictionary is a line item of [item.1] hours at [item.2] per
    hour, both whole. *)
Definition line_whole (service : gmap string value) (item : Z * Z) : Prop :=
  exists hours hourly_rate,
    service !! "hours" = Some hours
    /\ service !! "hourly_rate" = Some hourly_rate
    /\ whole hours item.1 /\ whole hourly_rate item.2.

Definition sum_over (f : Z * Z -> Z) (items : list (Z * Z)) : Z :=
  foldr (fun item s => f item + s)%Z 0%Z items.

(** The sums of the specification over whole line items, and the sums
    of the magnitudes, which bound every partial sum. *)
Definition whole_amounts : list (Z * Z) -> Z := sum_over (fun item => item.1 * item.2)%Z.
Definition whole_hours : list (Z * Z) -> Z := sum_over fst.
Definition amounts_magnitude : list (Z * Z) -> Z :=
  sum_over (fun item => Z.abs (item.1 * item.2)).
Definition hours_magnitude : list (Z * Z) -> Z := sum_over (fun item => Z.abs item.1).

(** Half the spacing of the doubles between 1 and 2: the relative error
    of one rounding. *)
Definition u53 : Q := 1 # 9007199254740992.


(** The tolerance of the totals computed from the subtotal [s]: sixteen
    roundings relative to its magnitude. *)
Definition totals_tolerance (s : Z) : Q := ((Qabs (inject_Z s) + 1) * (16 * u53))%Q.

(** A line item as the widgets of the form leave it: an int of hours
    from 1 on, of at most 53 bits, and a finite rate from 50 on. *)
Definition billable (service : gmap string value) : Prop :=
  exists (hours : Z) (hourly_rate : Q),
    service !! "hours" = Some (VInt hours) /\ (1 <= hours <= 2 ^ 53 - 1)%Z
    /\ service !! "hourly_rate" = Some (VFloat (Fin hourly_rate))
    /\ (50 <= hourly_rate)%Q.

(** A generated record: its four categories come from the lists of the
    generator. *)
Definition drawn_from_lists (r : Synth.invoice) : Prop :=
  Synth.service_category r ∈ Synth.service_categories
  /\ Synth.client_industry r ∈ Synth.client_industries
  /\ Synth.country r ∈ Synth.countries
  /\ Synth.project_type r ∈ Synth.project_types.

(** One to six line items of 10 to 100 hours each, at 100 to 300 per
    hour, and a date within the last year. *)
Definition sizes_in_bounds (r : Synth.invoice) : Prop :=
  (1 <= Synth.num_services r <= 6)%Z
  /\ (10 * Synth.num_services r <= Synth.total_hours r
                                <= 100 * Synth.num_services r)%Z
  /\ (100 * Synth.total_hours r <= Synth.total_amount r
                                <= 300 * Synth.total_hours r)%Z
  /\ (1 <= Synth.days_ago r <= 365)%Z.

(** The labels of a generated record against its amount. *)
Definition labels_in_range (r : Synth.invoice) : Prop :=
  in_range 0 15 (Synth.discount r) = true
  /\ ((Synth.total_amount r <= 10000)%Z -> Synth.discount r = VInt 0)
  /\ ((20000 < Synth.total_amount r)%Z -> in_range 8 15 (Synth.discount r) = true)
  /\ in_range 7 20 (Synth.tax_rate r) = true
  /\ (VFloat ∘ Fin) <$> Synth.tax_rates !! Synth.country r = Some (Synth.tax_rate r)
  /\ Synth.documentation_complexity r ∈ levels
  /\ ((15000 < Synth.total_amount r)%Z -> Synth.documentation_complexity r = "High")
  /\ (Synth.documentation_complexity r = "Low" -> (Synth.total_amount r <= 8000)%Z)
  /\ Synth.payment_terms r = synthesizer_terms (Synth.project_type r)
  /\ Synth.payment_terms r <> "Quarterly in Advance".

End Conditions.

(** ** Facts about the Python operators *)

Section PyFacts.
Import Props.

Lemma Qltb_lt (a b : Q) : Qltb a b = true <-> (a < b)%Q.
Proof. unfold Qltb, Qlt. apply Z.ltb_lt. Qed.

Lemma Qltb_ge (a b : Q) : Qltb a b = false <-> (b <= a)%Q.
Proof. unfold Qltb, Qle. rewrite Z.ltb_ge. reflexivity. Qed.

Lemma Qltb_inject (a b : Z) : Qltb (inject_Z a) (inject_Z b) = (a <? b)%Z.
Proof. unfold Qltb. simpl. rewrite !Z.mul_1_r. reflexivity. Qed.

Lemma py_gt_above (v : value) (k : Z) :
  is_number v = true -> py_gt v (VInt k) = Ok (above k v).
Proof.
  destruct v as [| |n|x|]; try discriminate; intros _.
  - unfold py_gt, above. simpl. rewrite Qltb_inject. reflexivity.
  - reflexivity.
Qed.

Lemma py_gt_not_number (v : value) (k : Z) :
  is_number v = false -> py_gt v (VInt k) = Raise TypeError.
Proof. destruct v; try discriminate; reflexivity. Qed.







End PyFacts.

Section Rounding.
Import Props.

Lemma round_half_even_nonneg (q : Q) : (0 <= q)%Q -> (0 <= round_half_even q)%Z.
Proof.
  unfold round_half_even, Qle. destruct q as [n d]. simpl. intros H.
  assert (0 <= n)%Z by lia.
  assert (0 <= n / Z.pos d)%Z by (apply Z.div_pos; lia).
  repeat case_match; lia.
Qed.

Lemma round_half_even_le (q : Q) (k : Z) :
  (q <= inject_Z k)%Q -> (round_half_even q <= k)%Z.
Proof.
  unfold round_half_even, Qle. destruct q as [n d]. simpl. intros H.
  pose proof (Z.div_mod n (Z.pos d) ltac:(lia)) as Hdm.
  pose proof (Z.mod_pos_bound n (Z.pos d) ltac:(lia)) as Hr.
  assert (n / Z.pos d <= k)%Z by nia.
  destruct (2 * (n mod Z.pos d) ?= Z.pos d)%Z eqn:E.
  - apply Z.compare_eq in E. destruct (Z.even _); [lia | nia].
  - lia.
  - apply Z.compare_gt_iff in E. nia.
Qed.

(** Rounding to hundredths stays within integer bounds. *)
Lemma Qround2_bounds (q : Q) (hi : Z) :
  (0 <= q)%Q -> (q <= inject_Z hi)%Q ->
  (0 <= Qround2 q)%Q /\ (Qround2 q <= inject_Z hi)%Q.
Proof.
  intros H0 Hhi. unfold Qround2.
  assert (0 <= round_half_even (q * 100))%Z
    by (apply round_half_even_nonneg; lra).
  assert (round_half_even (q * 100) <= hi * 100)%Z.
  { apply round_half_even_le. rewrite inject_Z_mult.
    change (inject_Z 100) with 100%Q. lra. }
  unfold Qle. simpl. lia.
Qed.

Lemma in_range_int (hi n : Z) :
  (0 <= n <= hi)%Z -> in_range 0 (inject_Z hi) (VInt n) = true.
Proof.
  intros H. unfold in_range. simpl. apply andb_true_iff.
  rewrite !Qle_bool_iff. unfold Qle. simpl. lia.
Qed.

(** [round(max(0, min(hi, x)), 2)] returns a number of [0, hi], for
    every float [x], [nan] and the infinities included. *)
Lemma clamp_round_in_range (hi : Z) (x : float) :
  (0 <= hi)%Z ->
  exists v v', clamp hi x = Ok v /\ py_round2 v = Ok v'
               /\ in_range 0 (inject_Z hi) v' = true.
Proof.
  intros Hhi. unfold clamp, py_min, py_max, py_gt, py_lt.
  assert (forall n, (0 <= n <= hi)%Z ->
            exists v v', Ok (VInt n) = Ok v /\ py_round2 v = Ok v'
                         /\ in_range 0 (inject_Z hi) v' = true) as Hint.
  { intros n Hn. exists (VInt n), (VInt n). auto using in_range_int. }
  assert (exists v v', Ok (if (0 <? hi)%Z then VInt hi else VInt 0) = Ok v
                       /\ py_round2 v = Ok v'
                       /\ in_range 0 (inject_Z hi) v' = true) as Hhigh.
  { destruct (0 <? hi)%Z; apply Hint; lia. }
  destruct x as [q| | |]; cbn; try exact Hhigh; [|apply Hint; lia].
  destruct (Qltb q (inject_Z hi)) eqn:Ehi; cbn; [|exact Hhigh].
  destruct (Qltb (inject_Z 0) q) eqn:E0; [|apply Hint; lia].
  apply Qltb_lt in Ehi, E0. change (inject_Z 0) with 0%Q in E0.
  do 2 eexists. repeat split.
  destruct (Qround2_bounds q hi) as [Hlo Hup]; [lra.. |].
  unfold in_range. simpl. apply andb_true_iff.
  rewrite !Qle_bool_iff. split; assumption.
Qed.

End Rounding.

(** ** Rounding to the nearest double *)

Section Binary64.
Import Props.

Local Open Scope Q_scope.

(** The nearest integer is within one half. *)
Lemma round_half_even_near (q : Q) :
  2 * inject_Z (round_half_even q) - 1 <= 2 * q
  /\ 2 * q <= 2 * inject_Z (round_half_even q) + 1.
Proof.
  unfold round_half_even, Qle. destruct q as [n d]. simpl.
  pose proof (Z.div_mod n (Z.pos d) ltac:(lia)) as Hdm.
  pose proof (Z.mod_pos_bound n (Z.pos d) ltac:(lia)) as Hr.
  rewrite !Pos.mul_1_l.
  destruct (Z.compare_spec (2 * (n mod Z.pos d)) (Z.pos d)) as [E|E|E];
    [destruct (Z.even _)| |]; simpl; nia.
Qed.

(** It is a function of the rational, not of the fraction. *)
Lemma round_half_even_floor (q : Q) :
  round_half_even q
  = match 2 * (q - inject_Z (Qfloor q)) ?= 1 with
    | Lt => Qfloor q
    | Gt => (Qfloor q + 1)%Z
    | Eq => if Z.even (Qfloor q) then Qfloor q else (Qfloor q + 1)%Z
    end.
Proof.
  unfold round_half_even, Qcompare. destruct q as [n d]. simpl.
  match goal with |- _ = match ?c with _ => _ end =>
    replace c with (2 * (n mod Z.pos d) ?= Z.pos d)%Z; [reflexivity|] end.
  rewrite Pos.mul_1_l, Pos.mul_1_r, Z.mod_eq by lia. f_equal; ring.
Qed.

Lemma round_half_even_comp (q q' : Q) :
  q == q' -> round_half_even q = round_half_even q'.
Proof.
  intros H. rewrite !round_half_even_floor.
  rewrite (Qfloor_comp _ _ H).
  assert (2 * (q - inject_Z (Qfloor q')) == 2 * (q' - inject_Z (Qfloor q'))) as E
    by (by rewrite H).
  by rewrite (Qcompare_comp _ _ E 1 1 (Qeq_refl 1)).
Qed.

Lemma round_half_even_int (q : Q) (z : Z) :
  q == inject_Z z -> round_half_even q = z.
Proof.
  intros H. rewrite (round_half_even_comp _ _ H).
  unfold round_half_even. simpl. rewrite Z.div_1_r, Z.mod_1_r. reflexivity.
Qed.

Lemma round_half_even_mono (x y : Q) :
  x <= y -> (round_half_even x <= round_half_even y)%Z.
Proof.
  intros Hxy.
  destruct (round_half_even_near x) as [Hx1 Hx2].
  destruct (round_half_even_near y) as [Hy1 Hy2].
  destruct (Z_le_gt_dec (round_half_even x) (round_half_even y)) as [H|H]; [done|].
  exfalso.
  assert (inject_Z (round_half_even y) + 1 <= inject_Z (round_half_even x)) as Hz.
  { change 1 with (inject_Z 1). rewrite <- inject_Z_plus, <- Zle_Qle. lia. }
  assert (x == y) as E by lra.
  apply round_half_even_comp in E. lia.
Qed.

(** *** Powers of two *)

Lemma pow2_pos (e : Z) : 0 < 2 ^ e.
Proof. by apply Qpower_0_lt. Qed.

Lemma pow2_add (a b : Z) : 2 ^ (a + b) == 2 ^ a * 2 ^ b.
Proof. by apply Qpower_plus. Qed.

Lemma pow2_succ (a : Z) : 2 ^ (a + 1) == 2 * 2 ^ a.
Proof. rewrite pow2_add. change (2 ^ 1) with 2. ring. Qed.

Lemma pow2_opp (a : Z) : 2 ^ (- a) * 2 ^ a == 1.
Proof. rewrite <- pow2_add. by replace (- a + a)%Z with 0%Z by lia. Qed.

Lemma pow2_le (a b : Z) : (a <= b)%Z -> 2 ^ a <= 2 ^ b.
Proof. intros H. by apply Qpower_le_compat_l. Qed.

Lemma pow2_lt (a b : Z) : (a < b)%Z -> 2 ^ a < 2 ^ b.
Proof. intros H. by apply Qpower_lt_compat_l. Qed.

Lemma pow2_lt_inv (a b : Z) : 2 ^ a < 2 ^ b -> (a < b)%Z.
Proof. intros H. by eapply Qpower_lt_compat_l_inv. Qed.

Lemma pow2_inject (a : Z) : (0 <= a)%Z -> inject_Z (2 ^ a) == 2 ^ a.
Proof. intros H. by rewrite Zpower_Qpower. Qed.

Lemma round_half_even_ge (q : Q) (k : Z) :
  inject_Z k <= q -> (k <= round_half_even q)%Z.
Proof.
  intros H. rewrite <- (round_half_even_int (inject_Z k) k) by reflexivity.
  by apply round_half_even_mono.
Qed.

Lemma Q_num_den (q : Q) : q * inject_Z (Z.pos (Qden q)) == inject_Z (Qnum q).
Proof. destruct q as [n d]. unfold Qeq. simpl. lia. Qed.

(** [ilog2] is the exponent of the binade of a positive rational. *)
Lemma ilog2_spec (q : Q) :
  0 < q -> 2 ^ ilog2 q <= q /\ q < 2 ^ (ilog2 q + 1).
Proof.
  intros Hq. unfold ilog2. cbv zeta.
  assert (0 < Qnum q)%Z as Hn by (unfold Qlt in Hq; simpl in Hq; lia).
  set (a := Z.log2 (Qnum q)). set (b := Z.log2 (Z.pos (Qden q))).
  destruct (Z.log2_spec (Qnum q) Hn) as [Ha1 Ha2].
  destruct (Z.log2_spec (Z.pos (Qden q)) ltac:(lia)) as [Hb1 Hb2].
  fold a in Ha1, Ha2. fold b in Hb1, Hb2.
  assert (0 <= a)%Z as Ha0 by apply Z.log2_nonneg.
  assert (0 <= b)%Z as Hb0 by apply Z.log2_nonneg.
  rewrite Zle_Qle, pow2_inject in Ha1, Hb1 by done.
  rewrite Zlt_Qlt, <- Z.add_1_r, pow2_inject, pow2_succ in Ha2, Hb2 by lia.
  pose proof (Q_num_den q) as Hnd.
  assert (2 ^ (a - b) * 2 ^ b == 2 ^ a) as Hk.
  { rewrite <- pow2_add. by replace (a - b + b)%Z with a by lia. }
  pose proof (pow2_pos (a - b)) as HK. pose proof (pow2_pos b) as HP.
  pose proof (pow2_succ (a - b)) as Hs.
  assert (2 ^ (a - b - 1 + 1) == 2 ^ (a - b)) as Hp
    by (by replace (a - b - 1 + 1)%Z with (a - b)%Z by lia).
  pose proof (pow2_succ (a - b - 1)) as Hs'. rewrite Hp in Hs'.
  assert (2 ^ (a - b - 1) < q /\ q < 2 ^ (a - b + 1)) as [Hlo Hup].
  { revert Hk HK HP Hs Hs' Hp Ha1 Ha2 Hb1 Hb2 Hnd.
    generalize (2 ^ (a - b + 1)) (2 ^ (a - b - 1 + 1)) (2 ^ (a - b - 1))
      (2 ^ (a - b)) (2 ^ b) (2 ^ a) (inject_Z (Qnum q)) (inject_Z (Z.pos (Qden q))).
    intros K2 Kh1 Kh K P A N D Hk HK HP Hs Hs' Hp Ha1 Ha2 Hb1 Hb2 Hnd. split.
    - destruct (Qlt_le_dec Kh q) as [|Hc]; [done|]. exfalso. nra.
    - destruct (Qlt_le_dec q K2) as [|Hc]; [done|]. exfalso. nra. }
  destruct (Qle_bool (2 ^ (a - b)) q) eqn:E.
  - apply Qle_bool_iff in E. done.
  - assert (q < 2 ^ (a - b)) as Hlt.
    { destruct (Qlt_le_dec q (2 ^ (a - b))) as [|Hc]; [done|].
      apply Qle_bool_iff in Hc. congruence. }
    rewrite Hp. split; lra.
Qed.

Lemma ilog2_le (q : Q) (k : Z) : 0 < q -> q < 2 ^ k -> (ilog2 q < k)%Z.
Proof.
  intros Hq Hk. destruct (ilog2_spec q Hq) as [H _].
  apply pow2_lt_inv. lra.
Qed.

Lemma ilog2_ge (q : Q) (k : Z) : 2 ^ k <= q -> (k <= ilog2 q)%Z.
Proof.
  intros Hk. pose proof (pow2_pos k) as Hp.
  destruct (ilog2_spec q ltac:(lra)) as [_ H].
  assert (k < ilog2 q + 1)%Z by (apply pow2_lt_inv; lra). lia.
Qed.

Lemma scale_lt (a : Q) (e k : Z) : a < 2 ^ k -> a * 2 ^ (- e) < 2 ^ (k - e).
Proof.
  intros H. replace (k - e)%Z with (k + - e)%Z by lia. rewrite pow2_add.
  pose proof (pow2_pos (- e)). by apply Qmult_lt_compat_r.
Qed.

Lemma scale_le (a : Q) (e k : Z) : 2 ^ k <= a -> 2 ^ (k - e) <= a * 2 ^ (- e).
Proof.
  intros H. replace (k - e)%Z with (k + - e)%Z by lia. rewrite pow2_add.
  pose proof (pow2_pos (- e)). apply Qmult_le_compat_r; [done|lra].
Qed.

(** The rounded magnitude of a positive rational [a]: an integer [m] of
    at most 53 bits (of exactly 53 bits unless [a] is subnormal) times
    the spacing [2^e], within half a spacing of [a]. *)
Lemma round_mag_spec (a : Q) :
  0 < a ->
  let e := Z.max (-1074) (ilog2 a - 52) in
  let m := round_half_even (a * 2 ^ (- e)) in
  round_mag a = inject_Z m * 2 ^ e
  /\ (0 <= m <= 2 ^ 53)%Z
  /\ ((-1074 <= ilog2 a - 52)%Z -> (2 ^ 52 <= m)%Z)
  /\ 2 * (inject_Z m * 2 ^ e) - 2 ^ e <= 2 * a
  /\ 2 * a <= 2 * (inject_Z m * 2 ^ e) + 2 ^ e.
Proof.
  intros Ha e m. destruct (ilog2_spec a Ha) as [Hlo Hup].
  pose proof (pow2_pos e) as He. pose proof (pow2_pos (- e)) as He'.
  pose proof (pow2_opp e) as Hinv.
  split; [reflexivity|]. split; [split|split].
  - apply round_half_even_nonneg.
    apply Qmult_le_0_compat; lra.
  - apply round_half_even_le. rewrite pow2_inject by lia.
    apply (scale_lt _ e) in Hup.
    assert (2 ^ (ilog2 a + 1 - e) <= 2 ^ 53) by (apply pow2_le; lia). lra.
  - intros Hn. apply round_half_even_ge. rewrite pow2_inject by lia.
    apply (scale_le _ e) in Hlo.
    assert (2 ^ 52 <= 2 ^ (ilog2 a - e)) by (apply pow2_le; lia). lra.
  - destruct (round_half_even_near (a * 2 ^ (- e))) as [H1 H2]. fold m in H1, H2.
    revert H1 H2 He He' Hinv. generalize (inject_Z m) (2 ^ e) (2 ^ (- e)).
    intros M E E' H1 H2 He He' Hinv. split; nra.
Qed.

(** The threshold of overflow: the midpoint between the largest double
    and 2^1024. *)
Lemma round_mag_overflow (a : Q) :
  0 < a ->
  2 ^ 1024 <= round_mag a <-> inject_Z (2 ^ 1024 - 2 ^ 970) <= a.
Proof.
  intros Ha. destruct (round_mag_spec a Ha) as (-> & [Hm0 Hm53] & Hm52 & Hn1 & Hn2).
  destruct (ilog2_spec a Ha) as [Hlo Hup].
  set (k := ilog2 a) in *. set (e := Z.max (-1074) (k - 52)) in *.
  set (m := round_half_even (a * 2 ^ (- e))) in *.
  assert (inject_Z (2 ^ 1024 - 2 ^ 970) == 2 ^ 1024 - 2 ^ 970) as HT.
  { unfold Z.sub. rewrite inject_Z_plus, inject_Z_opp, !pow2_inject by lia. ring. }
  rewrite HT.
  assert (2 ^ 1024 == 2 ^ 53 * 2 ^ 971) as H1024 by (by rewrite <- pow2_add).
  assert (2 ^ 1024 == 2 * 2 ^ 1023) as H1024' by (by rewrite <- pow2_succ).
  assert (2 ^ 971 == 2 * 2 ^ 970) as H971 by (by rewrite <- pow2_succ).
  assert (inject_Z (2 ^ 53) == 2 ^ 53) as H53 by (by rewrite pow2_inject).
  pose proof (pow2_pos 970) as Hp970. pose proof (pow2_pos 53) as Hp53.
  pose proof (pow2_pos e) as He.
  destruct (Z_lt_le_dec k 1023) as [Hk|Hk].
  - (* below the last binade: no overflow *)
    assert (a < 2 ^ 1023) as Ha'.
    { assert (2 ^ (k + 1) <= 2 ^ 1023) by (apply pow2_le; lia). lra. }
    assert (inject_Z m * 2 ^ e <= 2 ^ 1023) as Hr.
    { assert (2 ^ e <= 2 ^ 970) as Hle by (apply pow2_le; lia).
      assert (2 ^ 1023 == 2 ^ 53 * 2 ^ 970) as -> by (by rewrite <- pow2_add).
      assert (inject_Z m <= 2 ^ 53) as Hm by (rewrite <- H53, <- Zle_Qle; lia).
      assert (0 <= inject_Z m) as Hm'
        by (change 0 with (inject_Z 0); rewrite <- Zle_Qle; lia).
      revert Hle He Hp970 Hp53 Hm Hm'.
      generalize (inject_Z m) (2 ^ e) (2 ^ 970) (2 ^ 53).
      intros M E P S Hle He Hp970 Hp53 Hm Hm'. nra. }
    split; intros; exfalso; lra.
  - destruct (Z_le_gt_dec k 1023) as [Hk'|Hk'].
    + (* the last binade *)
      assert (e = 971%Z) as Ee by lia.
      assert (2 ^ 1024 == 2 ^ 53 * 2 ^ e) as H1024e by (by rewrite Ee).
      assert (2 ^ e == 2 * 2 ^ 970) as H971e by (by rewrite Ee).
      assert (2 ^ 54 == 2 * 2 ^ 53) as H54 by (by rewrite <- pow2_succ).
      pose proof (pow2_opp e) as Hinv. pose proof (pow2_pos (- e)) as Hp'.
      split.
      * intros Hov.
        assert (2 ^ 53 <= inject_Z m) as Hm.
        { revert Hov He H1024e Hp53. generalize (inject_Z m) (2 ^ e) (2 ^ 53) (2 ^ 1024).
          clear. intros M E S V Hov He H1024 Hp53.
          destruct (Qlt_le_dec M S) as [Hc|]; [|done]. exfalso. nra. }
        revert Hn1 Hm H971e H1024e Hp970 Hp53 He.
        generalize (inject_Z m) (2 ^ e) (2 ^ 53) (2 ^ 1024) (2 ^ 970).
        clear. intros M E S V P Hn1 Hm H971 H1024 Hp970 Hp53 He. nra.
      * intros Hge.
        assert (2 ^ 53 <= inject_Z m) as Hm.
        2:{ revert Hm He H1024e. generalize (inject_Z m) (2 ^ e) (2 ^ 53) (2 ^ 1024).
            clear. intros M E S V Hm He H1024. nra. }
        rewrite <- H53, <- Zle_Qle.
        destruct (round_half_even_near (a * 2 ^ (- e))) as [_ Hr2].
        fold m in Hr2.
        assert (2 ^ 54 - 1 <= 2 * (a * 2 ^ (- e))) as Hx.
        { revert Hge Hinv Hp' H971e H1024e H54 Hp970 Hp53 He.
          generalize (2 ^ (- e)) (2 ^ e) (2 ^ 53) (2 ^ 1024) (2 ^ 970) (2 ^ 54).
          clear. intros E' E S V P S2 Hge Hinv Hp' H971 H1024 H54 Hp970 Hp53 He.
          assert (a * E' * E == a) as Ha1 by (rewrite <- Qmult_assoc, Hinv; ring).
          assert ((V - P) * E' <= a * E') as Ha2
            by (apply Qmult_le_compat_r; lra).
          assert ((V - P) * E' == S - (1 # 2)) as Ha3.
          { rewrite H1024, H971.
            assert (P * E' == 1 # 2) as HPE.
            { apply (Qmult_inj_l _ _ 2); [done|].
              rewrite Qmult_assoc, <- H971, Qmult_comm, Hinv. reflexivity. }
            assert ((S * (2 * P) - P) * E' == (2 * S - 1) * (P * E')) as -> by ring.
            rewrite HPE. field. }
          lra. }
        destruct (Z_lt_le_dec m (2 ^ 53)) as [Hlt|]; [exfalso|done].
        assert (inject_Z m <= 2 ^ 53 - 1) as Hm'.
        { rewrite <- H53. change 1 with (inject_Z 1).
          unfold Qminus. rewrite <- inject_Z_opp, <- inject_Z_plus, <- Zle_Qle. lia. }
        assert (a * 2 ^ (- e) == inject_Z (2 ^ 54 - 1) * (1 # 2)) as Htie.
        { assert (inject_Z (2 ^ 54 - 1) == 2 ^ 54 - 1) as ->.
          { unfold Z.sub. rewrite inject_Z_plus, inject_Z_opp, pow2_inject by lia.
            reflexivity. }
          revert Hr2 Hx Hm' H54.
          generalize (a * 2 ^ (- e)) (2 ^ 54) (2 ^ 53) (inject_Z m). clear.
          intros x S2 S M Hr2 Hx Hm' H54. apply Qle_antisym; lra. }
        apply round_half_even_comp in Htie. fold m in Htie.
        assert (round_half_even (inject_Z (2 ^ 54 - 1) * (1 # 2)) = (2 ^ 53)%Z) as E53
          by (vm_compute; reflexivity).
        lia.
    + (* beyond: the rounded magnitude is at least 2^1024 *)
      assert (2 ^ 1024 <= a) as Ha'.
      { assert (2 ^ 1024 <= 2 ^ k) by (apply pow2_le; lia). lra. }
      assert (2 ^ 1024 <= inject_Z m * 2 ^ e) as Hr.
      { assert (e = (k - 52)%Z) as Ee by lia.
        assert (2 ^ 52 <= inject_Z m) as Hm.
        { rewrite <- (pow2_inject 52), <- Zle_Qle by lia. apply Hm52. lia. }
        assert (2 ^ 972 <= 2 ^ e) as Hle by (apply pow2_le; lia).
        assert (2 ^ 1024 == 2 ^ 52 * 2 ^ 972) as -> by (by rewrite <- pow2_add).
        pose proof (pow2_pos 52) as Hp52. pose proof (pow2_pos 972) as Hp972.
        revert Hm Hle Hp52 Hp972. generalize (inject_Z m) (2 ^ e) (2 ^ 972) (2 ^ 52).
        intros M E P S Hm Hle Hp52 Hp972. nra. }
      split; intros; [lra|done].
Qed.

Lemma ilog2_mono (a b : Q) : 0 < a -> a <= b -> (ilog2 a <= ilog2 b)%Z.
Proof.
  intros Ha Hab. destruct (ilog2_spec a Ha) as [Hlo _].
  apply ilog2_ge. lra.
Qed.

Lemma ilog2_comp (a b : Q) : 0 < a -> a == b -> ilog2 a = ilog2 b.
Proof.
  intros Ha Hab.
  assert (ilog2 a <= ilog2 b)%Z by (apply ilog2_mono; lra).
  assert (ilog2 b <= ilog2 a)%Z by (apply ilog2_mono; lra). lia.
Qed.

Lemma round_mag_comp (a b : Q) : 0 < a -> a == b -> round_mag a = round_mag b.
Proof.
  intros Ha Hab. unfold round_mag. rewrite (ilog2_comp a b Ha Hab).
  rewrite (round_half_even_comp (a * _) (b * 2 ^ (- Z.max (-1074) (ilog2 b - 52)))).
  - reflexivity.
  - by rewrite Hab.
Qed.

Lemma round_mag_nonneg (a : Q) : 0 < a -> 0 <= round_mag a.
Proof.
  intros Ha. destruct (round_mag_spec a Ha) as (-> & [Hm _] & _).
  pose proof (pow2_pos (Z.max (-1074) (ilog2 a - 52))).
  apply Qmult_le_0_compat; [|lra].
  change 0 with (inject_Z 0). by rewrite <- Zle_Qle.
Qed.

Lemma round_mag_mono (a b : Q) : 0 < a -> a <= b -> round_mag a <= round_mag b.
Proof.
  intros Ha Hab. assert (0 < b) as Hb by lra.
  pose proof (ilog2_mono a b Ha Hab) as Hk.
  destruct (round_mag_spec a Ha) as (-> & [Hma0 Hma53] & _ & _ & _).
  destruct (round_mag_spec b Hb) as (-> & [Hmb0 Hmb53] & Hmb52 & _ & _).
  destruct (ilog2_spec a Ha) as [_ Hupa].
  set (ka := ilog2 a) in *. set (kb := ilog2 b) in *.
  set (ea := Z.max (-1074) (ka - 52)). set (eb := Z.max (-1074) (kb - 52)).
  pose proof (pow2_pos ea) as Hea. pose proof (pow2_pos eb) as Heb.
  destruct (Z.eq_dec ea eb) as [E|E].
  - rewrite <- E. apply Qmult_le_compat_r; [|lra].
    rewrite <- Zle_Qle. apply round_half_even_mono.
    pose proof (pow2_pos (- ea)). apply Qmult_le_compat_r; [done|lra].
  - assert (ea < eb)%Z as Hlt by lia.
    assert (2 ^ 52 <= inject_Z (round_half_even (b * 2 ^ (- eb)))) as Hmb.
    { rewrite <- (pow2_inject 52), <- Zle_Qle by lia. apply Hmb52. lia. }
    assert (inject_Z (round_half_even (a * 2 ^ (- ea))) <= 2 ^ (kb - ea)) as Hm.
    { rewrite <- (pow2_inject (kb - ea)), <- Zle_Qle by lia.
      apply round_half_even_le. rewrite pow2_inject by lia.
      apply (scale_lt _ ea) in Hupa.
      assert (2 ^ (ka + 1 - ea) <= 2 ^ (kb - ea)) by (apply pow2_le; lia). lra. }
    assert (2 ^ (kb - ea) * 2 ^ ea == 2 ^ 52 * 2 ^ eb) as Hp.
    { rewrite <- !pow2_add. by replace (kb - ea + ea)%Z with (52 + eb)%Z by lia. }
    pose proof (pow2_pos 52) as H52. pose proof (pow2_pos (kb - ea)) as Hq.
    revert Hmb Hm Hp H52 Hq Hea Heb.
    generalize (inject_Z (round_half_even (b * 2 ^ (- eb))))
      (inject_Z (round_half_even (a * 2 ^ (- ea)))) (2 ^ (kb - ea)) (2 ^ ea)
      (2 ^ eb) (2 ^ 52).
    clear. intros Mb Ma P Ea Eb S Hmb Hm Hp H52 Hq Hea Heb. nra.
Qed.

(** *** The nearest double, by the sign of the rational *)

Lemma round64_zero (q : Q) : q == 0 -> round64 q = Fin 0.
Proof.
  intros H. unfold round64, Qzero.
  assert (Qnum q = 0%Z) as -> by (unfold Qeq in H; simpl in H; lia). reflexivity.
Qed.

Lemma round64_pos (q : Q) :
  0 < q ->
  round64 q = if Qle_bool (2 ^ 1024) (round_mag q) then PosInf
              else Fin (Qred (round_mag q)).
Proof.
  intros H. destruct q as [[|p|p] d]; try (exfalso; unfold Qlt in H; simpl in H; lia).
  reflexivity.
Qed.

Lemma round64_neg (q : Q) :
  q < 0 ->
  round64 q = if Qle_bool (2 ^ 1024) (round_mag (- q)) then NegInf
              else Fin (Qred (- round_mag (- q))).
Proof.
  intros H. destruct q as [[|p|p] d]; try (exfalso; unfold Qlt in H; simpl in H; lia).
  reflexivity.
Qed.

Lemma round64_comp (q q' : Q) : q == q' -> round64 q = round64 q'.
Proof.
  intros H. destruct (Q_dec q 0) as [[Hq|Hq]|Hq].
  - rewrite (round64_neg q), (round64_neg q') by lra.
    rewrite (round_mag_comp (- q) (- q')); [done|lra|by rewrite H].
  - rewrite (round64_pos q), (round64_pos q') by lra.
    rewrite (round_mag_comp q q'); done.
  - rewrite (round64_zero q), (round64_zero q'); [done|by rewrite <- H|done].
Qed.

Lemma Qopp_opp (x : Q) : - - x = x.
Proof. destruct x as [n d]. unfold Qopp. simpl. f_equal. lia. Qed.

Lemma round64_opp (q : Q) : round64 (- q) = fneg (round64 q).
Proof.
  destruct (Q_dec q 0) as [[Hq|Hq]|Hq].
  - rewrite (round64_neg q), (round64_pos (- q)) by lra.
    destruct (Qle_bool _ _); [done|]. cbn [fneg]. by rewrite <- Qred_opp, Qopp_opp.
  - rewrite (round64_pos q), (round64_neg (- q)) by lra.
    rewrite Qopp_opp.
    destruct (Qle_bool _ _); [done|]. cbn [fneg]. by rewrite Qred_opp.
  - rewrite (round64_zero q), (round64_zero (- q)); [done|lra|done].
Qed.

Lemma round64_not_nan (q : Q) : round64 q <> NaN.
Proof.
  unfold round64. repeat case_match; done.
Qed.

(** The conversion is finite exactly below the midpoint between the
    largest double and 2^1024. *)
Lemma round64_finite_iff (q : Q) :
  (exists r, round64 q = Fin r) <-> Qabs q < inject_Z (2 ^ 1024 - 2 ^ 970).
Proof.
  assert (0 < inject_Z (2 ^ 1024 - 2 ^ 970)) as HT
    by (change 0 with (inject_Z 0); rewrite <- Zlt_Qlt; lia).
  destruct (Q_dec q 0) as [[Hq|Hq]|Hq].
  - rewrite (round64_neg q) by done. rewrite (Qabs_neg q) by lra.
    pose proof (round_mag_overflow (- q) ltac:(lra)) as Hov.
    destruct (Qle_bool _ _) eqn:E.
    + apply Qle_bool_iff in E. split; [intros [r ?]; done|].
      intros Hlt. apply Hov in E. lra.
    + split; [|by eauto]. intros _.
      destruct (Qlt_le_dec (- q) (inject_Z (2 ^ 1024 - 2 ^ 970))) as [|Hc]; [done|].
      apply Hov, Qle_bool_iff in Hc. congruence.
  - rewrite (round64_pos q) by done. rewrite (Qabs_pos q) by lra.
    pose proof (round_mag_overflow q Hq) as Hov.
    destruct (Qle_bool _ _) eqn:E.
    + apply Qle_bool_iff in E. split; [intros [r ?]; done|].
      intros Hlt. apply Hov in E. lra.
    + split; [|by eauto]. intros _.
      destruct (Qlt_le_dec q (inject_Z (2 ^ 1024 - 2 ^ 970))) as [|Hc]; [done|].
      apply Hov, Qle_bool_iff in Hc. congruence.
  - rewrite (round64_zero q) by done. split; [|by eauto]. intros _.
    rewrite Hq. done.
Qed.

(** The error of a rounding: half a unit in the last place, which is
    a relative error of 2^-53 but among the subnormal numbers. *)
Lemma round_mag_error (a : Q) :
  0 < a -> Qabs (round_mag a - a) <= a * 2 ^ (-53) + 2 ^ (-1075).
Proof.
  intros Ha. destruct (round_mag_spec a Ha) as (-> & _ & _ & Hn1 & Hn2).
  destruct (ilog2_spec a Ha) as [Hlo _].
  set (k := ilog2 a) in *. set (e := Z.max (-1074) (k - 52)) in *.
  assert (2 ^ e <= 2 * (a * 2 ^ (-53) + 2 ^ (-1075))) as He.
  { pose proof (pow2_pos (-1075)) as H1. pose proof (pow2_pos (-53)) as H2.
    assert (2 ^ (-1074) == 2 * 2 ^ (-1075)) as H3 by (by rewrite <- pow2_succ).
    assert (2 ^ (k - 52) == 2 * (2 ^ k * 2 ^ (-53))) as H4.
    { rewrite <- pow2_add, <- pow2_succ. by replace (k + -53 + 1)%Z with (k - 52)%Z by lia. }
    destruct (Z.max_spec (-1074) (k - 52)) as [[_ E]|[_ E]]; fold e in E; rewrite E.
    - rewrite H4. revert Hlo H1 H2 Ha. generalize (2 ^ k) (2 ^ (-53)) (2 ^ (-1075)).
      clear. intros K U N Hlo H1 H2 Ha. nra.
    - rewrite H3. revert H1 H2 Ha. generalize (2 ^ (-53)) (2 ^ (-1075)).
      clear. intros U N H1 H2 Ha. nra. }
  apply Qabs_Qle_condition. revert Hn1 Hn2 He.
  generalize (inject_Z (round_half_even (a * 2 ^ (- e))) * 2 ^ e) (2 ^ e)
    (a * 2 ^ (-53) + 2 ^ (-1075)).
  clear. intros R E B Hn1 Hn2 He. split; lra.
Qed.

Lemma round64_error (q r : Q) :
  round64 q = Fin r -> Qabs (r - q) <= Qabs q * 2 ^ (-53) + 2 ^ (-1075).
Proof.
  pose proof (pow2_pos (-1075)) as H1.
  destruct (Q_dec q 0) as [[Hq|Hq]|Hq].
  - rewrite (round64_neg q) by done. destruct (Qle_bool _ _); [done|].
    intros [= <-]. rewrite Qred_correct, (Qabs_neg q) by lra.
    pose proof (round_mag_error (- q) ltac:(lra)) as He.
    assert (- round_mag (- q) - q == - (round_mag (- q) - - q)) as -> by ring.
    by rewrite Qabs_opp.
  - rewrite (round64_pos q) by done. destruct (Qle_bool _ _); [done|].
    intros [= <-]. rewrite Qred_correct, (Qabs_pos q) by lra.
    by apply round_mag_error.
  - rewrite (round64_zero q) by done. intros [= <-].
    rewrite Hq. change (Qabs (0 - 0)) with 0. change (Qabs 0) with 0. lra.
Qed.

(** Rounding keeps the order and the sign. *)
Lemma fle_Fin (x y : Q) : fle (Fin x) (Fin y) = true <-> x <= y.
Proof.
  unfold fle, flt, feq, Qltb. rewrite orb_true_iff, Z.ltb_lt, Qeq_bool_iff.
  unfold Qle, Qeq. lia.
Qed.

Lemma round64_pos_cases (q : Q) :
  0 < q ->
  round64 q = PosInf \/ exists r, round64 q = Fin r /\ 0 <= r /\ r == round_mag q.
Proof.
  intros Hq. rewrite (round64_pos q Hq). destruct (Qle_bool _ _); [by left|right].
  eexists. split; [done|]. rewrite Qred_correct. split; [|done].
  by apply round_mag_nonneg.
Qed.

Lemma round64_neg_cases (q : Q) :
  q < 0 ->
  round64 q = NegInf \/ exists r, round64 q = Fin r /\ r <= 0 /\ r == - round_mag (- q).
Proof.
  intros Hq. rewrite (round64_neg q Hq). destruct (Qle_bool _ _); [by left|right].
  eexists. split; [done|]. rewrite Qred_correct. split; [|done].
  pose proof (round_mag_nonneg (- q) ltac:(lra)). lra.
Qed.

Lemma round64_mono (x y : Q) : x <= y -> fle (round64 x) (round64 y) = true.
Proof.
  intros Hxy. destruct (Q_dec x 0) as [[Hx|Hx]|Hx], (Q_dec y 0) as [[Hy|Hy]|Hy];
    try (exfalso; lra).
  - (* both negative *)
    pose proof (round_mag_mono (- y) (- x) ltac:(lra) ltac:(lra)) as Hm.
    rewrite (round64_neg x), (round64_neg y) by done.
    destruct (Qle_bool (2 ^ 1024) (round_mag (- x))) eqn:Ex,
      (Qle_bool (2 ^ 1024) (round_mag (- y))) eqn:Ey; try done.
    + apply Qle_bool_iff in Ey.
      assert (Qle_bool (2 ^ 1024) (round_mag (- x)) = true) by (apply Qle_bool_iff; lra).
      congruence.
    + apply fle_Fin. rewrite !Qred_correct. lra.
  - destruct (round64_neg_cases x Hx) as [->|(r & -> & Hr & _)],
      (round64_pos_cases y Hy) as [->|(r' & -> & Hr' & _)]; try done.
    apply fle_Fin. lra.
  - rewrite (round64_zero y Hy).
    destruct (round64_neg_cases x Hx) as [->|(r & -> & Hr & _)]; [done|].
    apply fle_Fin. lra.
  - pose proof (round_mag_mono x y Hx Hxy) as Hm.
    rewrite (round64_pos x), (round64_pos y) by done.
    destruct (Qle_bool (2 ^ 1024) (round_mag x)) eqn:Ex,
      (Qle_bool (2 ^ 1024) (round_mag y)) eqn:Ey; try done.
    + apply Qle_bool_iff in Ex.
      assert (Qle_bool (2 ^ 1024) (round_mag y) = true) by (apply Qle_bool_iff; lra).
      congruence.
    + apply fle_Fin. rewrite !Qred_correct. lra.
  - rewrite (round64_zero x Hx).
    destruct (round64_pos_cases y Hy) as [->|(r' & -> & Hr' & _)]; [done|].
    apply fle_Fin. lra.
  - rewrite (round64_zero x Hx), (round64_zero y Hy). done.
Qed.

(** Ints of at most 53 bits are doubles. *)
Lemma Qred_inject_Z (n : Z) : Qred (inject_Z n) = inject_Z n.
Proof.
  unfold Qred, inject_Z.
  pose proof (Z.ggcd_gcd n 1) as Hg. pose proof (Z.ggcd_correct_divisors n 1) as Hd.
  destruct (Z.ggcd n 1) as [g [a b]]. simpl in *.
  rewrite Z.gcd_1_r in Hg. subst g. destruct Hd as [-> Hb].
  rewrite Z.mul_1_l in Hb. subst b. f_equal. lia.
Qed.

Lemma round_mag_int (n : Z) :
  (0 < n <= 2 ^ 53)%Z -> round_mag (inject_Z n) == inject_Z n.
Proof.
  intros [Hn0 Hn].
  assert (0 < inject_Z n) as Hq by (change 0 with (inject_Z 0); by rewrite <- Zlt_Qlt).
  destruct (round_mag_spec _ Hq) as (-> & _).
  set (k := ilog2 (inject_Z n)). set (e := Z.max (-1074) (k - 52)).
  destruct (ilog2_spec _ Hq) as [Hlo Hup]. fold k in Hlo, Hup.
  assert (0 <= k)%Z as Hk0.
  { assert (0 < k + 1)%Z; [|lia]. apply pow2_lt_inv.
    assert (1 <= inject_Z n) by (change 1 with (inject_Z 1); rewrite <- Zle_Qle; lia).
    change (2 ^ 0) with 1. lra. }
  destruct (Z_le_gt_dec k 52) as [Hk|Hk].
  - assert (0 <= - e)%Z as He by lia.
    rewrite (round_half_even_int _ (n * 2 ^ (- e))%Z).
    + rewrite inject_Z_mult, pow2_inject by done.
      rewrite <- Qmult_assoc, pow2_opp. ring.
    + rewrite inject_Z_mult, pow2_inject by done. reflexivity.
  - assert (k = 53%Z) as Ek.
    { assert (k < 54)%Z; [|lia]. apply pow2_lt_inv.
      assert (inject_Z n <= 2 ^ 53) by (rewrite <- (pow2_inject 53), <- Zle_Qle by lia; done).
      assert (2 ^ 53 < 2 ^ 54) by (apply pow2_lt; lia). lra. }
    assert (n = (2 ^ 53)%Z) as ->.
    { assert (2 ^ 53 <= n)%Z; [|lia].
      rewrite Zle_Qle, pow2_inject by lia. by rewrite <- Ek. }
    assert (e = 1%Z) as -> by lia. by vm_compute.
Qed.

Lemma round64_int (n : Z) :
  (Z.abs n <= 2 ^ 53)%Z -> round64 (inject_Z n) = Fin (inject_Z n).
Proof.
  intros Hn. destruct (Z.lt_trichotomy n 0) as [H|[->|H]].
  - assert (inject_Z n = - inject_Z (- n)) as ->
      by (unfold inject_Z, Qopp; simpl; f_equal; lia).
    rewrite round64_opp.
    rewrite round64_pos by (change 0 with (inject_Z 0); rewrite <- Zlt_Qlt; lia).
    pose proof (round_mag_int (- n) ltac:(lia)) as Hr.
    destruct (Qle_bool _ _) eqn:E.
    + apply Qle_bool_iff in E. rewrite Hr in E.
      rewrite <- (pow2_inject 1024), <- Zle_Qle in E by lia. lia.
    + cbn [fneg]. by rewrite (Qred_complete _ _ Hr), Qred_inject_Z.
  - reflexivity.
  - rewrite round64_pos by (change 0 with (inject_Z 0); rewrite <- Zlt_Qlt; lia).
    pose proof (round_mag_int n ltac:(lia)) as Hr.
    destruct (Qle_bool _ _) eqn:E.
    + apply Qle_bool_iff in E. rewrite Hr in E.
      rewrite <- (pow2_inject 1024), <- Zle_Qle in E by lia. lia.
    + by rewrite (Qred_complete _ _ Hr), Qred_inject_Z.
Qed.

(** *** Conversions of ints *)

Lemma in_double_range_spec (n : Z) :
  in_double_range n = true <-> Qabs (inject_Z n) < inject_Z (2 ^ 1024 - 2 ^ 970).
Proof.
  unfold in_double_range. rewrite Z.ltb_lt.
  assert (Qabs (inject_Z n) = inject_Z (Z.abs n)) as -> by done.
  by rewrite <- Zlt_Qlt.
Qed.

Lemma float_of_int_returns (n : Z) :
  in_double_range n = true -> exists q, float_of_int n = Ok (Fin q).
Proof.
  intros H. apply in_double_range_spec, round64_finite_iff in H as [r Hr].
  unfold float_of_int. rewrite Hr. eauto.
Qed.

Lemma float_of_int_raises (n : Z) :
  in_double_range n = false -> float_of_int n = Raise OverflowError.
Proof.
  intros H. unfold float_of_int. destruct (round64 (inject_Z n)) eqn:E; try done.
  assert (in_double_range n = true); [|congruence].
  apply in_double_range_spec, round64_finite_iff. eauto.
Qed.

Lemma float_of_int_cases (n : Z) :
  (in_double_range n = true /\ exists q, float_of_int n = Ok (Fin q))
  \/ (in_double_range n = false /\ float_of_int n = Raise OverflowError).
Proof.
  destruct (in_double_range n) eqn:E.
  - left. split; [done|]. by apply float_of_int_returns.
  - right. split; [done|]. by apply float_of_int_raises.
Qed.

Lemma to_float_converts (v : value) :
  converts v = true -> exists x, to_float v = Some (Ok x).
Proof.
  destruct v; try done; simpl; intros H.
  - destruct (float_of_int_returns n H) as [q ->]. eauto.
  - eauto.
Qed.

End Binary64.

Section Discounts.
Import Props.







Lemma converts_number (v : value) : converts v = true -> is_number v = true.
Proof. by destruct v. Qed.

(** The format of the amount is defined on the floats and on the ints
    that convert to one. *)
Lemma format_returns (v : value) :
  converts v = true -> exists text, py_format_comma_2f v = Ok text.
Proof.
  destruct v as [| |n|x|]; try discriminate; simpl; intros H; [|by eauto].
  destruct (float_of_int_returns n H) as [q ->]. simpl. eauto.
Qed.

Lemma format_raises (v : value) :
  is_number v = true -> converts v = false ->
  py_format_comma_2f v = Raise OverflowError.
Proof.
  destruct v as [| |n|x|]; try discriminate; simpl; intros _ H.
  by rewrite (float_of_int_raises n H).
Qed.

(** [_get_smart_defaults] on an amount that converts and a hashable
    project type: it returns, and these are the fields. *)
Lemma smart_defaults_numeric py_repr sc ci pt ta :
  converts ta = true -> hashable pt = true ->
  exists b,
    ITInvoicePredictor._get_smart_defaults py_repr sc ci pt ta = Ok b
    /\ discount b = trainer_tier ta
    /\ tax_rate b = VFloat (Fin 8.5)
    /\ documentation_complexity b = doc_tier ta
    /\ payment_terms b = terms_of pt
    /\ exists text, service_notes b = "Professional " ++ text.
Proof.
  intros Hta Hpt. unfold ITInvoicePredictor._get_smart_defaults.
  rewrite !py_gt_above by (by apply converts_number). unfold trainer_tier, doc_tier.
  destruct (format_returns ta Hta) as [amount ->].
  assert (dict_get ITInvoicePredictor.payment_terms_map pt "Net 30" = Ok (terms_of pt)) as ->.
  { destruct pt; try discriminate; reflexivity. }
  destruct (above 20000 ta), (above 10000 ta), (above 5000 ta), (above 15000 ta);
    simpl; eexists; (split; [reflexivity|]); simpl; repeat split; eauto.
Qed.

(** It returns on no other arguments. *)
Lemma smart_defaults_converts py_repr sc ci pt ta b :
  ITInvoicePredictor._get_smart_defaults py_repr sc ci pt ta = Ok b ->
  converts ta = true /\ hashable pt = true.
Proof.
  unfold ITInvoicePredictor._get_smart_defaults.
  destruct (is_number ta) eqn:Hta.
  - rewrite !py_gt_above by done.
    destruct pt; [| | | |repeat (destruct (above _ ta); cbn); discriminate];
      (destruct (converts ta) eqn:Hc; [done|]);
      rewrite (format_raises ta Hta Hc);
      repeat (destruct (above _ ta); cbn); discriminate.
  - rewrite (py_gt_not_number ta 20000) by done. discriminate.
Qed.

(** The inline predictor of the application on well-formed arguments. *)
Lemma app_predict_numeric self sc ci co pt ta th ns :
  is_number ta = true -> hashable pt = true -> hashable sc = true ->
  let b := SimpleInvoicePredictor.predict self sc ci co pt ta th ns in
  discount b = app_tier ta
  /\ tax_rate b = VFloat (Fin 8.5)
  /\ documentation_complexity b = doc_tier ta
  /\ payment_terms b = terms_of pt.
Proof.
  intros Hta Hpt Hsc.
  unfold SimpleInvoicePredictor.predict, SimpleInvoicePredictor.predict_try.
  rewrite !py_gt_above by done. unfold app_tier, doc_tier.
  destruct pt; try discriminate; destruct sc; try discriminate;
    destruct (above 10000 ta), (above 5000 ta), (above 15000 ta); simpl; done.
Qed.



End Discounts.

Section Bundles.
Import Sklearn World ITInvoicePredictor Props.

(** Clamping a float never raises. *)
Lemma clamp_returns (hi : Z) (x : float) : exists v, clamp hi x = Ok v.
Proof.
  unfold clamp, py_min, py_max, py_gt, py_lt. cbn.
  destruct (flt x (of_int hi)); cbn; eauto.
Qed.

(** The value [max(0, min(hi, x))] for each float [x]. *)
Lemma clamp_saturates (hi : Z) (x : float) :
  (0 < hi)%Z ->
  exists v v', clamp hi x = Ok v /\ py_round2 v = Ok v' /\ Conditions.saturates hi x v'.
Proof.
  intros Hhi. unfold clamp, py_min, py_max, py_gt, py_lt, Conditions.saturates.
  assert ((0 <? hi)%Z = true) as H0 by by apply Z.ltb_lt.
  destruct x as [q| | |]; cbn; rewrite ?H0; cbn; try (by do 2 eexists).
  destruct (Qltb q (inject_Z hi)) eqn:Ehi; cbn.
  - apply Qltb_lt in Ehi. destruct (Qlt_le_dec q (inject_Z hi)) as [_|H]; [|lra].
    destruct (Qltb (inject_Z 0) q) eqn:E0; cbn.
    + apply Qltb_lt in E0. change (inject_Z 0) with 0%Q in E0.
      destruct (Qlt_le_dec 0 q) as [_|H]; [|lra]. by do 2 eexists.
    + apply Qltb_ge in E0. change (inject_Z 0) with 0%Q in E0.
      destruct (Qlt_le_dec 0 q) as [H|_]; [lra|]. by do 2 eexists.
  - apply Qltb_ge in Ehi. destruct (Qlt_le_dec q (inject_Z hi)) as [H|_]; [lra|].
    rewrite H0. by do 2 eexists.
Qed.

Lemma payment_terms_known (s v : string) :
  payment_terms_map !! s = Some v -> v ∈ known_payment_terms.
Proof.
  unfold payment_terms_map, known_payment_terms. intros H.
  repeat (apply lookup_insert_Some in H as [[_ <-]|[_ H]]; [set_solver|]).
  by rewrite lookup_empty in H.
Qed.

Lemma terms_of_known (pt : value) : terms_of pt ∈ known_payment_terms.
Proof.
  destruct pt as [|s| | |]; simpl; try (unfold known_payment_terms; set_solver).
  destruct (payment_terms_map !! s) eqn:E; simpl.
  - by eapply payment_terms_known.
  - unfold known_payment_terms; set_solver.
Qed.

Lemma service_notes_nonempty (sc : value) (notes : string) :
  dict_get service_notes_map sc
    "Professional IT services delivered to industry standards." = Ok notes ->
  notes <> "".
Proof.
  destruct sc as [|s| | |]; simpl; try congruence; try (intros [= <-]; done).
  intros [= <-]. destruct (service_notes_map !! s) eqn:E; [|done].
  unfold service_notes_map in E.
  repeat (apply lookup_insert_Some in E as [[_ <-]|[_ E]]; [done|]).
  by rewrite lookup_empty in E.
Qed.

Lemma bool_decide_levels (n : Z) :
  bool_decide ((if (n =? 0)%Z then "Medium" else "High") ∈ levels) = true.
Proof. by destruct (n =? 0)%Z. Qed.

(** The bundle of the inference path, whenever it is built. *)
Lemma inference_bundle_well_formed sc pt d t n b :
  inference_bundle sc pt d t n = Ok b ->
  well_formed b = true
  /\ documentation_complexity b = (if (n =? 0)%Z then "Medium" else "High").
Proof.
  unfold inference_bundle.
  destruct (clamp_round_in_range 20 d) as (vd & vd' & -> & Hd & Rd); [lia|].
  destruct (clamp_round_in_range 25 t) as (vt & vt' & -> & Ht & Rt); [lia|].
  cbn -[py_round2 dict_get].
  destruct (dict_get payment_terms_map pt "Net 30") as [terms|] eqn:Ept;
    [|discriminate].
  destruct (dict_get service_notes_map sc _) as [notes|] eqn:Esc; [|discriminate].
  cbn -[py_round2]. rewrite Hd, Ht. cbn. intros [= <-]. split; [|reflexivity].
  unfold well_formed. cbn -[in_range levels known_payment_terms].
  change (inject_Z 20) with 20%Q in Rd. change (inject_Z 25) with 25%Q in Rt.
  rewrite Rd, Rt, bool_decide_levels. cbn.
  apply service_notes_nonempty in Esc. apply andb_true_iff. split.
  - apply bool_decide_eq_true.
    destruct pt as [|s| | |]; try discriminate; cbn in Ept; injection Ept as <-;
      try (unfold known_payment_terms; set_solver).
    apply (terms_of_known (VStr s)).
  - apply negb_true_iff. by apply String.eqb_neq.
Qed.

Lemma inference_bundle_returns sc pt d t n :
  hashable pt = true -> hashable sc = true ->
  exists b, inference_bundle sc pt d t n = Ok b.
Proof.
  intros Hpt Hsc. unfold inference_bundle.
  destruct (clamp_round_in_range 20 d) as (vd & vd' & -> & Hd & Rd); [lia|].
  destruct (clamp_round_in_range 25 t) as (vt & vt' & -> & Ht & Rt); [lia|].
  cbn -[py_round2 dict_get].
  destruct pt; try discriminate; destruct sc; try discriminate;
    cbn -[py_round2]; rewrite Hd, Ht; cbn; eauto.
Qed.

End Bundles.

Section Prediction.
Import Sklearn World ITInvoicePredictor Props.

Variable py_repr : value -> string.
Variable fit_regressor : list (list value) -> list value -> result regressor.
Variable fit_classifier : list (list value) -> list value -> result classifier.

Local Abbreviation predict := (ITInvoicePredictor.predict py_repr fit_regressor fit_classifier).
Local Abbreviation defaults := (_get_smart_defaults py_repr).
Local Abbreviation inference := (Props.inference fit_regressor fit_classifier).

Ltac calm :=
  cbn -[py_min py_max py_round2 dict_get _get_smart_defaults input_record
       prepare_features_for_prediction load_models train_models].

Ltac run :=
  unfold mbind, fmap, mret, M_bind, M_fmap, M_ret, try_except, gets, lift, attr,
    modify;
  calm.

Lemma clamp_unfold (hi : Z) (x : float) :
  clamp hi x
  = result_bind _ _ (fun m => py_max (VInt 0) m) (py_min (VInt hi) (VFloat x)).
Proof. reflexivity. Qed.

(** [predict] from "Prepare input data" on: the attributes are left as
    they are, and the [try] ends as follows. *)
Lemma predict_loaded_cases self sc ci co pt ta th ns :
  predict_loaded py_repr sc ci co pt ta th ns self =
  (match (if models_loaded self
          then prepare_features_for_prediction self
                 (input_record sc ci co pt ta th ns)
          else None) with
   | Some X =>
       answers ← run_estimators self X;
       discount ← clamp 20 answers.1.1;
       tax_rate ← clamp 25 answers.1.2;
       Ok (Inferred discount tax_rate
             (if (answers.2 =? 0)%Z then "Medium" else "High"))
   | None => Returned <$> defaults sc ci pt ta
   end, self).
Proof.
  unfold predict_loaded, run_estimators, input_record.
  generalize (defaults sc ci pt ta). intros D.
  run.
  destruct (prepare_features_for_prediction self _) as [X|];
    destruct (models_loaded self); calm; try (destruct D; reflexivity).
  destruct (discount_model self) as [dm|]; calm; [|reflexivity].
  destruct (dm X) as [d|]; calm; [|reflexivity].
  destruct (tax_model self) as [tm|]; calm; [|reflexivity].
  destruct (tm X) as [t|]; calm; [|reflexivity].
  destruct (docs_model self) as [cm|]; calm; [|reflexivity].
  destruct (cm X) as [n|]; calm; [|reflexivity].
  rewrite <- !clamp_unfold.
  destruct (clamp 20 d); calm; [|reflexivity].
  destruct (clamp 25 t); reflexivity.
Qed.

Lemma predict_cases w self sc ci co pt ta th ns :
  (predict w sc ci co pt ta th ns self).1 =
  match inference w self sc ci co pt ta th ns with
  | Some (d, t, n) => inference_bundle sc pt d t n
  | None => defaults sc ci pt ta
  end.
Proof.
  assert (forall self1,
    (let (r, self') :=
       let (r, self') := predict_loaded py_repr sc ci co pt ta th ns self1 in
       match r with
       | Ok a => (Ok a, self')
       | Raise _ => (Returned <$> defaults sc ci pt ta, self')
       end in
     match r with
     | Ok (Returned b) => (Ok b, self')
     | Ok (Inferred discount tax_rate doc_complexity) =>
         (payment_terms ← dict_get payment_terms_map pt "Net 30";
          service_notes ←
            dict_get service_notes_map sc
              "Professional IT services delivered to industry standards.";
          discount ← py_round2 discount;
          tax_rate ← py_round2 tax_rate;
          Ok {| discount := discount; tax_rate := tax_rate;
                documentation_complexity := doc_complexity;
                payment_terms := payment_terms;
                service_notes := service_notes |}, self')
     | Raise e => (Raise e, self')
     end).1 =
    match (if models_loaded self1 then
             match prepare_features_for_prediction self1
                     (input_record sc ci co pt ta th ns) with
             | Some X =>
                 match run_estimators self1 X with
                 | Ok answers => Some answers
                 | Raise _ => None
                 end
             | None => None
             end
           else None) with
    | Some (d, t, n) => inference_bundle sc pt d t n
    | None => defaults sc ci pt ta
    end) as Htail.
  { intros self1. rewrite predict_loaded_cases.
    generalize (defaults sc ci pt ta). intros D.
    destruct (models_loaded self1); [|destruct D; reflexivity].
    destruct (prepare_features_for_prediction self1 _) as [X|];
      [|destruct D; reflexivity].
    destruct (run_estimators self1 X) as [[[d t] n]|]; [|destruct D; reflexivity].
    unfold inference_bundle. cbn -[clamp py_round2 dict_get].
    destruct (clamp_returns 20 d) as [d' ->].
    destruct (clamp_returns 25 t) as [t' ->]. reflexivity. }
  unfold ITInvoicePredictor.predict, Props.inference, ensure_loaded.
  run.
  destruct (models_loaded self) eqn:Hloaded.
  - cbv beta iota. rewrite <- Htail.
    destruct (predict_loaded py_repr sc ci co pt ta th ns self) as [[[b|d t doc]|e] self'];
      try reflexivity.
    clear Htail. destruct (defaults sc ci pt ta); reflexivity.
  - destruct (load_models fit_regressor fit_classifier w default_models_file self)
      as [[[|]|e] self1].
    + cbv beta iota. rewrite <- Htail.
      destruct (predict_loaded py_repr sc ci co pt ta th ns self1) as [[[b|d t doc]|e] self'];
        try reflexivity.
      clear Htail. destruct (defaults sc ci pt ta); reflexivity.
    + destruct (defaults sc ci pt ta); reflexivity.
    + destruct (defaults sc ci pt ta); reflexivity.
Qed.
(** [_get_smart_defaults] returns on numbers and hashable project types
    only. *)
Lemma smart_defaults_domain sc ci pt ta b :
  defaults sc ci pt ta = Ok b -> is_number ta = true /\ hashable pt = true.
Proof.
  intros H. destruct (smart_defaults_converts _ _ _ _ _ _ H) as [Hta Hpt].
  split; [by apply converts_number | done].
Qed.


End Prediction.

Section Features.
Import Sklearn World ITInvoicePredictor Props.

(** [transform] raises nothing but (subclasses of) ValueError. *)
Lemma transform_raises enc v e : transform enc v = Raise e -> is_ValueError e = true.
Proof.
  destruct enc as [|classes]; simpl; [by intros [= <-]|].
  destruct (label_of v) as [[]|]; try (by intros [= <-]).
  destruct (index_of _ _); [discriminate | by intros [= <-]].
Qed.


Lemma fdiv_returns x y :
  (forall q, y = Fin q -> Qzero q = false) -> exists r, fdiv x y = Ok r.
Proof.
  intros H. destruct y as [q| | |].
  - unfold fdiv. rewrite (H q eq_refl). destruct x; eauto.
  - destruct x; simpl; eauto.
  - destruct x; simpl; eauto.
  - destruct x; simpl; eauto.
Qed.

Lemma py_max_int (h : Z) : py_max (VInt h) (VInt 1) = Ok (VInt (Z.max h 1)).
Proof.
  unfold py_max, py_gt, py_lt. cbn. destruct (h <? 1)%Z eqn:E; do 2 f_equal; lia.
Qed.

Lemma py_max_float (y : float) :
  exists hours,
    py_max (VFloat y) (VInt 1) = Ok hours
    /\ (hours = VInt 1
        \/ hours = VFloat y /\ forall q, y = Fin q -> Qzero q = false).
Proof.
  unfold py_max, py_gt, py_lt. destruct y as [q| | |]; cbn.
  - destruct (Qltb q (inject_Z 1)) eqn:E; eexists; (split; [reflexivity|]); [by left|].
    right. split; [done|]. intros q' [= <-]. apply Qltb_ge in E.
    unfold Qzero. unfold Qle in E. cbn in E. lia.
  - eexists. split; [reflexivity|]. right. split; [done|]. discriminate.
  - eexists. split; [reflexivity|]. by left.
  - eexists. split; [reflexivity|]. right. split; [done|]. discriminate.
Qed.

(** The quotient of two ints is rounded once; it raises when the
    rounded quotient is beyond the doubles. *)
Lemma py_div_ints (x h : Z) :
  (1 <= h)%Z ->
  if (Z.abs x <? (2 ^ 1024 - 2 ^ 970) * h)%Z
  then exists q, py_div (VInt x) (VInt h) = Ok (VFloat (Fin q))
                 /\ round64 (inject_Z x / inject_Z h) = Fin q
  else py_div (VInt x) (VInt h) = Raise OverflowError.
Proof.
  intros Hh. unfold py_div.
  assert ((h =? 0)%Z = false) as -> by lia.
  assert (0 < inject_Z h)%Q as Hq
    by (change 0%Q with (inject_Z 0); rewrite <- Zlt_Qlt; lia).
  assert (Qabs (inject_Z x / inject_Z h) < inject_Z (2 ^ 1024 - 2 ^ 970)
          <-> (Z.abs x < (2 ^ 1024 - 2 ^ 970) * h)%Z)%Q as Hiff.
  { unfold Qdiv. rewrite Qabs_Qmult, (Qabs_pos (/ inject_Z h))
      by (apply Qlt_le_weak, Qinv_lt_0_compat, Hq).
    assert (Qabs (inject_Z x) = inject_Z (Z.abs x)) as -> by done.
    rewrite Zlt_Qlt, inject_Z_mult.
    split; intros H.
    - apply (Qmult_lt_r _ _ (/ inject_Z h)); [by apply Qinv_lt_0_compat|].
      rewrite <- Qmult_assoc, Qmult_inv_r, Qmult_1_r by lra. done.
    - apply (Qmult_lt_r _ _ (/ inject_Z h)) in H; [|by apply Qinv_lt_0_compat].
      rewrite <- Qmult_assoc, Qmult_inv_r, Qmult_1_r in H by lra. done. }
  destruct (Z.abs x <? _)%Z eqn:E.
  - apply Z.ltb_lt, Hiff, round64_finite_iff in E as [q Hr]. rewrite Hr. eauto.
  - destruct (round64 (inject_Z x / inject_Z h)) as [q| | |] eqn:Hr; try done.
    assert (Z.abs x < (2 ^ 1024 - 2 ^ 970) * h)%Z
      by (apply Hiff, round64_finite_iff; eauto). lia.
Qed.

(** The double of an int from 1 on is not zero. *)
Lemma float_of_int_nonzero (h : Z) (x : float) :
  (1 <= h)%Z -> float_of_int h = Ok x -> forall q, x = Fin q -> Qzero q = false.
Proof.
  intros Hh. unfold float_of_int.
  pose proof (round64_mono (inject_Z 1) (inject_Z h)) as Hm.
  rewrite (round64_int 1) in Hm by lia.
  destruct (round64 (inject_Z h)) as [r| | |]; try done.
  intros [= <-] q [= <-].
  assert (1 <= r)%Q as Hr.
  { change 1%Q with (inject_Z 1). apply fle_Fin, Hm. rewrite <- Zle_Qle. lia. }
  unfold Qzero. unfold Qle in Hr. cbn in Hr. lia.
Qed.

(** [total_amount / max(total_hours, 1)] on numbers: the divisor is at
    least 1, or [nan], and the division returns unless a conversion to
    a float overflows. *)
Lemma py_max_div_cases ta th :
  is_number ta = true -> is_number th = true ->
  exists hours,
    py_max th (VInt 1) = Ok hours
    /\ if rate_converts ta th
       then exists amount_per_hour, py_div ta hours = Ok (VFloat amount_per_hour)
       else py_div ta hours = Raise OverflowError.
Proof.
  intros Hta Hth.
  destruct ta as [| |x|x|]; try discriminate; destruct th as [| |h|y|]; try discriminate.
  - rewrite py_max_int. eexists. split; [done|]. unfold rate_converts.
    pose proof (py_div_ints x (Z.max h 1) ltac:(lia)) as H.
    destruct (Z.abs x <? _)%Z; [|done]. destruct H as (q & -> & _). eauto.
  - destruct (py_max_float y) as (hours & -> & [->|[-> Hy]]); eexists; (split; [done|]).
    + unfold rate_converts, in_double_range.
      pose proof (py_div_ints x 1 ltac:(lia)) as H. rewrite Z.mul_1_r in H.
      destruct (Z.abs x <? _)%Z; [|done]. destruct H as (q & -> & _). eauto.
    + unfold rate_converts, py_div. cbn [to_float].
      destruct (float_of_int_cases x) as [[-> (q & ->)]|[-> ->]]; [|done].
      cbn -[fdiv]. destruct (fdiv_returns (Fin q) y Hy) as [r ->]. cbn. eauto.
  - rewrite py_max_int. eexists. split; [done|]. unfold rate_converts, py_div.
    cbn [to_float].
    destruct (float_of_int_cases (Z.max h 1)) as [[-> (q & Hq)]|[-> ->]]; [|done].
    rewrite Hq. cbn -[fdiv].
    destruct (fdiv_returns x (Fin q)) as [r ->]; [|cbn; eauto].
    by apply (float_of_int_nonzero (Z.max h 1) _ ltac:(lia) Hq).
  - destruct (py_max_float y) as (hours & -> & [->|[-> Hy]]); eexists; (split; [done|]).
    + destruct (fdiv_returns x (Fin (inject_Z 1))) as [r Hr]; [by intros q [= <-]|].
      unfold rate_converts, py_div, to_float, float_of_int.
      rewrite (round64_int 1) by lia. cbn -[fdiv]. rewrite Hr. cbn. eauto.
    + unfold rate_converts, py_div, to_float. cbn -[fdiv].
      destruct (fdiv_returns x y Hy) as [r ->]. cbn. eauto.
Qed.


Lemma rate_converts_number (ta th : value) :
  rate_converts ta th = true -> is_number ta = true /\ is_number th = true.
Proof. by destruct ta, th. Qed.

Lemma py_max_div ta th :
  rate_converts ta th = true ->
  exists hours amount_per_hour,
    py_max th (VInt 1) = Ok hours /\ py_div ta hours = Ok (VFloat amount_per_hour).
Proof.
  intros H. destruct (rate_converts_number _ _ H) as [Hta Hth].
  destruct (py_max_div_cases ta th Hta Hth) as (hours & Emax & Ediv).
  rewrite H in Ediv. destruct Ediv as [aph Ediv]. eauto.
Qed.

Lemma bind_Ok {A B} (a : A) (k : A -> result B) : (x ← Ok a; k x) = k a.
Proof. reflexivity. Qed.


End Features.

Section Persistence.
Import Sklearn World ITInvoicePredictor Props.

Variable py_repr : value -> string.
Variable fit_regressor : list (list value) -> list value -> result regressor.
Variable fit_classifier : list (list value) -> list value -> result classifier.

Local Abbreviation predict := (ITInvoicePredictor.predict py_repr fit_regressor fit_classifier).
Local Abbreviation train_models := (ITInvoicePredictor.train_models fit_regressor fit_classifier).
Local Abbreviation load_models := (ITInvoicePredictor.load_models fit_regressor fit_classifier).
Local Abbreviation save_models := (ITInvoicePredictor.save_models fit_regressor fit_classifier).
Local Abbreviation inference := (Props.inference fit_regressor fit_classifier).

Ltac quiet := cbn -[fit_encoders read_csv joblib_load mapM dict_item].

Ltac exec :=
  unfold mbind, fmap, mret, M_bind, M_fmap, M_ret, try_except, gets, lift, attr,
    modify, set_models_loaded, set_dataset_loaded, set_dataset, set_encoders,
    set_discount_model, set_tax_model, set_docs_model;
  quiet.

(** [train_models] never raises. *)
Lemma train_models_returns w self : exists ok, (train_models w self).1 = Ok ok.
Proof.
  unfold ITInvoicePredictor.train_models, load_dataset. exec.
  destruct (read_csv w default_dataset_file) as [df|]; quiet; [|eauto].
  match goal with |- context [fit_encoders ?c ?d ?s] =>
    destruct (fit_encoders c d s) as [[X|] s1] end; quiet; [|eauto].
  repeat (case_match; quiet); eauto.
Qed.

(** When it returns [True], the flag is set and the three models exist. *)
Lemma train_models_success w self p :
  train_models w self = (Ok true, p) ->
  models_loaded p = true
  /\ is_Some (discount_model p) /\ is_Some (tax_model p) /\ is_Some (docs_model p).
Proof.
  unfold ITInvoicePredictor.train_models, load_dataset. exec.
  destruct (read_csv w default_dataset_file) as [df|]; quiet; [|discriminate].
  match goal with |- context [fit_encoders ?c ?d ?s] =>
    destruct (fit_encoders c d s) as [[X|] s1] end; quiet; [|discriminate].
  repeat (case_match; quiet); try discriminate.
  all: intros; simplify_eq; cbn; eauto.
Qed.

(** [load_models] never raises either: a failed load ends in
    [train_models]. *)
Lemma load_models_returns w filename self :
  exists ok, (load_models w filename self).1 = Ok ok.
Proof.
  unfold ITInvoicePredictor.load_models. exec.
  destruct (joblib_load w filename) as [md|]; quiet; [|apply train_models_returns].
  destruct (md_discount_model md); quiet; [|apply train_models_returns].
  destruct (md_tax_model md); quiet; [|apply train_models_returns].
  destruct (md_docs_model md); quiet; [|apply train_models_returns].
  eauto.
Qed.

(** With the artifact in memory, [predict] reads the flag, the encoders
    and the three models, and nothing else of the instance or of the
    world. *)
Lemma inference_agrees wa wb (a b : predictor) sc ci co pt ta th ns :
  models_loaded a = true -> models_loaded b = true ->
  encoders a = encoders b ->
  discount_model a = discount_model b ->
  tax_model a = tax_model b ->
  docs_model a = docs_model b ->
  inference wa a sc ci co pt ta th ns = inference wb b sc ci co pt ta th ns.
Proof.
  intros Ha Hb He Hd Ht Hc.
  unfold Props.inference, ensure_loaded, prepare_features_for_prediction,
    run_estimators.
  rewrite Ha, Hb. cbv beta iota. rewrite Ha, Hb, He, Hd, Ht, Hc. reflexivity.
Qed.

(** C6. After a training that succeeded, saving the artifact and loading
    it back, into any instance, yields a predictor that returns the same
    bundle as the trained one in memory, for every input.  The file
    keeps the stored object as it is: serialization is exact here. *)
Theorem persistence_round_trip w0 p0 p w filename q :
  train_models w0 p0 = (Ok true, p) ->
  (save_models w filename p).1.1 = Ok true ->
  exists q',
    load_models (save_models w filename p).2 filename q = (Ok true, q')
    /\ forall wa wb sc ci co pt ta th ns,
         (predict wa sc ci co pt ta th ns q').1
         = (predict wb sc ci co pt ta th ns p).1.
Proof.
  intros Htrain Hsave.
  destruct (train_models_success _ _ _ Htrain) as (Hl & [dm Hd] & [tm Ht] & [cm Hc]).
  revert Hsave. unfold ITInvoicePredictor.save_models, joblib_dump. exec.
  rewrite Hl, Hd, Ht, Hc. quiet.
  destruct (read_only w); quiet; [discriminate|]. intros _.
  unfold ITInvoicePredictor.load_models, joblib_load, read. exec.
  rewrite lookup_insert_eq. quiet.
  eexists. split; [reflexivity|].
  intros wa wb sc ci co pt ta th ns. rewrite !predict_cases.
  erewrite inference_agrees; [reflexivity | by cbn ..].
Qed.



End Persistence.

Section Contract.
Import Sklearn World ITInvoicePredictor Props.

Variable py_repr : value -> string.
Variable fit_regressor : list (list value) -> list value -> result regressor.
Variable fit_classifier : list (list value) -> list value -> result classifier.

Local Abbreviation predict := (ITInvoicePredictor.predict py_repr fit_regressor fit_classifier).
Local Abbreviation defaults := (_get_smart_defaults py_repr).
Local Abbreviation inference := (Props.inference fit_regressor fit_classifier).







(** C7. When inference goes through, the documentation level returned
    is "High" if the answer [n] of the classifier is set and "Medium"
    if it is 0, and so never "Low"; a returned "Low" comes from the
    rule-based defaults. *)
Theorem inference_documentation_level w self sc ci co pt ta th ns :
  (forall d t n,
     inference w self sc ci co pt ta th ns = Some (d, t, n) ->
     hashable pt = true -> hashable sc = true ->
     exists b,
       (predict w sc ci co pt ta th ns self).1 = Ok b
       /\ documentation_complexity b = (if (n =? 0)%Z then "Medium" else "High")
       /\ documentation_complexity b <> "Low")
  /\ (forall b,
       (predict w sc ci co pt ta th ns self).1 = Ok b ->
       documentation_complexity b = "Low" ->
       inference w self sc ci co pt ta th ns = None
       /\ defaults sc ci pt ta = Ok b).
Proof.
  split.
  - intros d t n Hinf Hpt Hsc. rewrite predict_cases, Hinf.
    destruct (inference_bundle_returns sc pt d t n Hpt Hsc) as [b Hb].
    exists b. split; [done|].
    apply inference_bundle_well_formed in Hb as [_ ->].
    split; [done|]. by destruct (n =? 0)%Z.
  - intros b. rewrite predict_cases.
    destruct (inference w self sc ci co pt ta th ns) as [[[d t] n]|]; [|done].
    intros Hb Hlow. apply inference_bundle_well_formed in Hb as [_ Hdoc].
    rewrite Hdoc in Hlow. by destruct (n =? 0)%Z.
Qed.

End Contract.

Section Totals.
Import ProfessionalITInvoiceGenerator Props Conditions.

Lemma denotes_number v q : denotes v q -> is_number v = true.
Proof. intros (q' & H & _). destruct v; try discriminate; done. Qed.

Lemma denotes_eq v q q' : denotes v q -> (q == q')%Q -> denotes v q'.
Proof. intros (x & H & E) Hq. exists x. split; [done|]. by rewrite E. Qed.

Lemma denotes_zero : denotes (VInt 0) 0.
Proof. by exists 0%Q. Qed.

(** *** Whole numbers: the arithmetic is exact *)

Lemma round64_whole (q : Q) (n : Z) :
  (q == inject_Z n)%Q -> (Z.abs n <= 2 ^ 53)%Z -> round64 q = Fin (inject_Z n).
Proof. intros Hq Hn. by rewrite (round64_comp _ _ Hq), round64_int. Qed.

Lemma whole_to_float (v : value) (n : Z) :
  whole v n -> exists q, to_float v = Some (Ok (Fin q)) /\ (q == inject_Z n)%Q.
Proof.
  intros [Hn [->|(q & -> & Hq)]]; simpl; [|by eauto].
  unfold float_of_int. rewrite round64_int by done. eexists. split; reflexivity.
Qed.

Lemma whole_denotes (v : value) (n : Z) : whole v n -> denotes v (inject_Z n).
Proof.
  intros [Hn [->|(q & -> & Hq)]].
  - by exists (inject_Z n).
  - by exists q.
Qed.

Lemma whole_mul (a b : value) (x y : Z) :
  whole a x -> whole b y -> (Z.abs (x * y) <= 2 ^ 53)%Z ->
  exists v, py_mul a b = Ok v /\ whole v (x * y).
Proof.
  intros Ha Hb Hxy.
  destruct (whole_to_float a x Ha) as (qa & Ea & Hqa).
  destruct (whole_to_float b y Hb) as (qb & Eb & Hqb).
  assert (fmul (Fin qa) (Fin qb) = Fin (inject_Z (x * y))) as Hm.
  { apply round64_whole; [|done]. by rewrite Hqa, Hqb, inject_Z_mult. }
  destruct Ha as [_ [->|(qa' & -> & _)]], Hb as [_ [->|(qb' & -> & _)]].
  - eexists. split; [reflexivity|]. split; [done|by left].
  - unfold py_mul. rewrite Ea, Eb. cbn -[fmul]. rewrite Hm.
    eexists. split; [reflexivity|]. split; [done|]. right. by eexists.
  - unfold py_mul. rewrite Ea, Eb. cbn -[fmul]. rewrite Hm.
    eexists. split; [reflexivity|]. split; [done|]. right. by eexists.
  - unfold py_mul. rewrite Ea, Eb. cbn -[fmul]. rewrite Hm.
    eexists. split; [reflexivity|]. split; [done|]. right. by eexists.
Qed.

Lemma whole_add (a b : value) (x y : Z) :
  whole a x -> whole b y -> (Z.abs (x + y) <= 2 ^ 53)%Z ->
  exists v, py_add a b = Ok v /\ whole v (x + y).
Proof.
  intros Ha Hb Hxy.
  destruct (whole_to_float a x Ha) as (qa & Ea & Hqa).
  destruct (whole_to_float b y Hb) as (qb & Eb & Hqb).
  assert (fadd (Fin qa) (Fin qb) = Fin (inject_Z (x + y))) as Hm.
  { apply round64_whole; [|done]. by rewrite Hqa, Hqb, inject_Z_plus. }
  destruct Ha as [_ [->|(qa' & -> & _)]], Hb as [_ [->|(qb' & -> & _)]].
  - eexists. split; [reflexivity|]. split; [done|by left].
  - unfold py_add. rewrite Ea, Eb. cbn -[fadd]. rewrite Hm.
    eexists. split; [reflexivity|]. split; [done|]. right. by eexists.
  - unfold py_add. rewrite Ea, Eb. cbn -[fadd]. rewrite Hm.
    eexists. split; [reflexivity|]. split; [done|]. right. by eexists.
  - unfold py_add. rewrite Ea, Eb. cbn -[fadd]. rewrite Hm.
    eexists. split; [reflexivity|]. split; [done|]. right. by eexists.
Qed.

Lemma whole_zero : whole (VInt 0) 0.
Proof. split; [done|by left]. Qed.

Lemma sum_amounts_whole services items acc (x : Z) :
  Forall2 line_whole services items -> whole acc x ->
  (Z.abs x + amounts_magnitude items <= 2 ^ 53)%Z ->
  exists v,
    foldl (fun acc service =>
             a ← acc;
             hours ← dict_item service "hours";
             hourly_rate ← dict_item service "hourly_rate";
             amount ← py_mul hours hourly_rate;
             py_add a amount) (Ok acc) services = Ok v
    /\ whole v (x + whole_amounts items).
Proof.
  intros Hall. revert acc x.
  induction Hall as [|service item services items (h & r & Hh & Hr & Wh & Wr) _ IH];
    intros acc x Hacc Hb.
  - exists acc. split; [done|]. unfold whole_amounts. simpl. by rewrite Z.add_0_r.
  - unfold amounts_magnitude in Hb. simpl in Hb.
    fold amounts_magnitude in Hb.
    assert (0 <= amounts_magnitude items)%Z as Hm0.
    { clear. unfold amounts_magnitude. induction items; simpl; lia. }
    destruct (whole_mul _ _ _ _ Wh Wr ltac:(lia)) as (amount & Em & Wm).
    destruct (whole_add _ _ _ _ Hacc Wm ltac:(lia)) as (acc' & Ea & Wa).
    destruct (IH acc' _ Wa ltac:(lia)) as (v & Ev & Wv).
    exists v. split.
    + simpl. unfold dict_item. rewrite Hh, Hr. cbn -[py_mul py_add].
      rewrite Em. cbn -[py_mul py_add]. rewrite Ea. exact Ev.
    + unfold whole_amounts. simpl. fold whole_amounts.
      by replace (x + (item.1 * item.2 + whole_amounts items))%Z
        with (x + item.1 * item.2 + whole_amounts items)%Z by lia.
Qed.

Lemma sum_hours_whole services items acc (x : Z) :
  Forall2 line_whole services items -> whole acc x ->
  (Z.abs x + hours_magnitude items <= 2 ^ 53)%Z ->
  exists v,
    foldl (fun acc service =>
             a ← acc;
             hours ← dict_item service "hours";
             py_add a hours) (Ok acc) services = Ok v
    /\ whole v (x + whole_hours items).
Proof.
  intros Hall. revert acc x.
  induction Hall as [|service item services items (h & r & Hh & Hr & Wh & Wr) _ IH];
    intros acc x Hacc Hb.
  - exists acc. split; [done|]. unfold whole_hours. simpl. by rewrite Z.add_0_r.
  - unfold hours_magnitude in Hb. simpl in Hb. fold hours_magnitude in Hb.
    assert (0 <= hours_magnitude items)%Z as Hm0.
    { clear. unfold hours_magnitude. induction items; simpl; lia. }
    destruct (whole_add _ _ _ _ Hacc Wh ltac:(lia)) as (acc' & Ea & Wa).
    destruct (IH acc' _ Wa ltac:(lia)) as (v & Ev & Wv).
    exists v. split.
    + simpl. unfold dict_item. rewrite Hh. cbn -[py_add]. rewrite Ea. exact Ev.
    + unfold whole_hours. simpl. fold whole_hours.
      by replace (x + (item.1 + whole_hours items))%Z
        with (x + item.1 + whole_hours items)%Z by lia.
Qed.

(** *** Floats: one rounding per operation *)

Local Open Scope Q_scope.

Lemma Qabs_mul_le (p q P Q' : Q) :
  Qabs p <= P -> Qabs q <= Q' -> Qabs (p * q) <= P * Q'.
Proof.
  intros Hp Hq. rewrite Qabs_Qmult.
  pose proof (Qabs_nonneg p). pose proof (Qabs_nonneg q).
  revert Hp Hq H H0. generalize (Qabs p) (Qabs q). intros a b Hp Hq Ha Hb. nra.
Qed.

(** The error of a product of two approximations. *)
Lemma mul_err (x a y b ex A ey B : Q) :
  Qabs (x - a) <= ex -> Qabs a <= A -> Qabs (y - b) <= ey -> Qabs b <= B ->
  Qabs (x * y - a * b) <= ex * B + A * ey + ex * ey
  /\ Qabs (x * y) <= (A + ex) * (B + ey).
Proof.
  intros Hx Ha Hy Hb.
  pose proof (Qabs_mul_le _ _ _ _ Hx Hb) as H1.
  pose proof (Qabs_mul_le _ _ _ _ Ha Hy) as H2.
  pose proof (Qabs_mul_le _ _ _ _ Hx Hy) as H3.
  assert (Qabs x <= A + ex) as Hx'.
  { assert (x == a + (x - a)) as -> by ring.
    eapply Qle_trans; [apply Qabs_triangle|]. lra. }
  assert (Qabs y <= B + ey) as Hy'.
  { assert (y == b + (y - b)) as -> by ring.
    eapply Qle_trans; [apply Qabs_triangle|]. lra. }
  split; [|by apply Qabs_mul_le].
  assert (x * y - a * b == (x - a) * b + a * (y - b) + (x - a) * (y - b)) as -> by ring.
  eapply Qle_trans; [apply Qabs_triangle|].
  eapply Qle_trans; [apply Qplus_le_compat; [apply Qabs_triangle|apply Qle_refl]|].
  lra.
Qed.

(** A rounding of a rational of magnitude at most [B]: the result is
    finite and off by at most [B] times the relative error. *)
Lemma round64_near (z B : Q) :
  Qabs z <= B -> B <= inject_Z (2 ^ 1000) ->
  exists r, round64 z = Fin r
            /\ Qabs (r - z) <= B * u53 + (1 # 1267650600228229401496703205376).
Proof.
  intros Hz HB.
  assert (exists r, round64 z = Fin r) as [r Hr].
  { apply round64_finite_iff. eapply Qle_lt_trans; [exact Hz|].
    eapply Qle_lt_trans; [exact HB|]. rewrite <- Zlt_Qlt. lia. }
  exists r. split; [done|].
  eapply Qle_trans; [by apply round64_error|].
  assert (2 ^ (-53) == u53) as -> by reflexivity.
  assert (2 ^ (-1075) <= 1 # 1267650600228229401496703205376) as Hs.
  { change (1 # 1267650600228229401496703205376) with (2 ^ (-100)).
    apply pow2_le. lia. }
  unfold u53 in *. pose proof (Qabs_nonneg z). nra.
Qed.

Lemma to_float_mul (a : value) (x p : Q) :
  to_float a = Some (Ok (Fin x)) ->
  py_mul a (VFloat (Fin p)) = Ok (VFloat (round64 (x * p))).
Proof.
  destruct a; try discriminate; unfold py_mul; intros ->; reflexivity.
Qed.

Lemma to_float_sub (a : value) (x y : Q) :
  to_float a = Some (Ok (Fin x)) ->
  py_sub a (VFloat (Fin y)) = Ok (VFloat (round64 (x + - y))).
Proof.
  destruct a; try discriminate; unfold py_sub; intros ->; reflexivity.
Qed.

(** [v / 100] for a percentage [v]: one rounding of a number within
    [0, 1]. *)
Lemma percent_near (v : value) (q : Q) :
  denotes v q -> 0 <= q <= 100 ->
  exists p, py_div v (VInt 100) = Ok (VFloat (Fin p))
            /\ Qabs (p - q * (1 # 100)) <= (9 # 8) * u53
            /\ round64 (q * (1 # 100)) = Fin p.
Proof.
  intros (q' & Hv & Hq) [Hq0 Hq100].
  assert (Qabs (q' / inject_Z 100) <= 1) as Hz.
  { apply Qabs_Qle_condition. unfold Qdiv. change (/ inject_Z 100) with (1 # 100).
    split; lra. }
  destruct (round64_near _ 1 Hz) as (p & Hp & Hnear).
  { change 1 with (inject_Z 1). rewrite <- Zle_Qle. lia. }
  assert (q' / inject_Z 100 == q * (1 # 100)) as Hquot by (by rewrite Hq).
  rewrite Hquot in Hnear.
  exists p. split; [|split; [unfold u53 in *; lra|]].
  2:{ rewrite <- Hp. apply round64_comp. by rewrite Hquot. }
  destruct v as [| |n|x|]; try discriminate; simpl in Hv.
  - injection Hv as <-. unfold py_div. cbn [Z.eqb]. by rewrite Hp.
  - injection Hv as ->. unfold py_div, to_float, float_of_int.
    rewrite (round64_int 100) by lia. cbn -[round64 inject_Z]. by rewrite Hp.
Qed.

Lemma scale_err (s y b ey A B : Q) :
  Qabs s <= A -> Qabs (y - b) <= ey -> Qabs b <= B ->
  Qabs (s * y - s * b) <= A * ey /\ Qabs (s * y) <= A * (B + ey).
Proof.
  intros Hs Hy Hb. split.
  - assert (s * y - s * b == s * (y - b)) as -> by ring. by apply Qabs_mul_le.
  - apply Qabs_mul_le; [done|].
    assert (y == b + (y - b)) as -> by ring.
    eapply Qle_trans; [apply Qabs_triangle|]. lra.
Qed.

Lemma below_2_1000 (B : Q) : B <= 1152921504606846976 -> B <= inject_Z (2 ^ 1000).
Proof.
  intros H. eapply Qle_trans; [exact H|].
  change 1152921504606846976 with (inject_Z 1152921504606846976).
  rewrite <- Zle_Qle. lia.
Qed.

Lemma Qabs_inject_Z (n : Z) : Qabs (inject_Z n) = inject_Z (Z.abs n).
Proof. reflexivity. Qed.

(** The part of the calculation after the subtotal, on a whole subtotal
    [n] and percentages within [0, 100]: six float operations, each
    rounded once. *)
Lemma totals_tail (sub discount tax_rate : value) (n : Z) (d t : Q) :
  whole sub n -> denotes discount d -> denotes tax_rate t ->
  0 <= d <= 100 -> 0 <= t <= 100 ->
  let s := inject_Z n in
  exists p da tx q ta tot,
    py_div discount (VInt 100) = Ok (VFloat (Fin p))
    /\ py_mul sub (VFloat (Fin p)) = Ok (VFloat (Fin da))
    /\ py_sub sub (VFloat (Fin da)) = Ok (VFloat (Fin tx))
    /\ py_div tax_rate (VInt 100) = Ok (VFloat (Fin q))
    /\ py_mul (VFloat (Fin tx)) (VFloat (Fin q)) = Ok (VFloat (Fin ta))
    /\ py_add (VFloat (Fin tx)) (VFloat (Fin ta)) = Ok (VFloat (Fin tot))
    /\ Qabs (da - s * d / 100) <= totals_tolerance n
    /\ Qabs (ta - (s - s * d / 100) * t / 100) <= totals_tolerance n
    /\ Qabs (tot - (s - s * d / 100 + (s - s * d / 100) * t / 100))
       <= totals_tolerance n
    /\ round64 (d * (1 # 100)) = Fin p /\ round64 (s * p) = Fin da
    /\ round64 (s + - da) = Fin tx
    /\ round64 (t * (1 # 100)) = Fin q /\ round64 (tx * q) = Fin ta
    /\ round64 (tx + ta) = Fin tot.
Proof.
  intros Ws Dd Dt Hd Ht s.
  destruct (whole_to_float sub n Ws) as (s' & Es & Hs).
  destruct (percent_near _ _ Dd Hd) as (p & Ep & Hp & Rp).
  destruct (percent_near _ _ Dt Ht) as (q & Eq & Hq & Rq).
  unfold totals_tolerance. fold s. set (M := Qabs s + 1).
  assert (0 <= Qabs s) as Hs0 by apply Qabs_nonneg.
  assert (M <= 9007199254740993) as HM.
  { unfold M, s. rewrite Qabs_inject_Z.
    assert (inject_Z (Z.abs n) <= inject_Z (2 ^ 53)) as H
      by (rewrite <- Zle_Qle; apply Ws).
    change (inject_Z (2 ^ 53)) with 9007199254740992 in H. lra. }
  assert (Qabs s <= M) as HsM by (unfold M; lra).
  assert (1 <= M) as HM1 by (unfold M; lra).
  clearbody M.
  assert (Qabs (d * (1 # 100)) <= 1) as Hd1 by (apply Qabs_Qle_condition; split; lra).
  assert (Qabs (t * (1 # 100)) <= 1) as Ht1 by (apply Qabs_Qle_condition; split; lra).
  (* the discount amount *)
  destruct (scale_err s p (d * (1 # 100)) _ M 1 HsM Hp Hd1) as [H1 H1'].
  destruct (round64_near (s * p) _ H1') as (da & Eda & Hda).
  { apply below_2_1000. unfold u53. lra. }
  assert (Qabs (da - s * (d * (1 # 100))) <= M * ((5 # 2) * u53)) as Bda.
  { apply Qabs_Qle_condition in H1 as [? ?], Hda as [? ?].
    apply Qabs_Qle_condition. unfold u53 in *. split; lra. }
  (* the taxable amount *)
  set (a := s * (1 - d * (1 # 100))).
  assert (Qabs a <= M) as Ha.
  { unfold a. rewrite <- (Qmult_1_r M). apply Qabs_mul_le; [done|].
    apply Qabs_Qle_condition. split; lra. }
  assert (Qabs (s + - da) <= M * (1 + (5 # 2) * u53)) as H2'.
  { apply Qabs_Qle_condition in Ha as [? ?], Bda as [? ?].
    apply Qabs_Qle_condition. unfold a, u53 in *. split; lra. }
  destruct (round64_near (s + - da) _ H2') as (tx & Etx & Htx).
  { apply below_2_1000. unfold u53. lra. }
  assert (Qabs (tx - a) <= M * (4 * u53)) as Btx.
  { apply Qabs_Qle_condition in Htx as [? ?], Bda as [? ?].
    apply Qabs_Qle_condition. unfold a, u53 in *. split; lra. }
  (* the tax amount *)
  destruct (mul_err tx a q (t * (1 # 100)) _ M _ 1 Btx Ha Hq Ht1) as [H3 H3'].
  destruct (round64_near (tx * q) _ H3') as (ta & Eta & Hta).
  { apply below_2_1000. unfold u53. lra. }
  assert (Qabs (ta - a * (t * (1 # 100))) <= M * ((13 # 2) * u53)) as Bta.
  { apply Qabs_Qle_condition in H3 as [? ?], Hta as [? ?].
    apply Qabs_Qle_condition. unfold u53 in *. split; lra. }
  (* the total *)
  assert (Qabs (a * (t * (1 # 100))) <= M) as Hab.
  { rewrite <- (Qmult_1_r M). by apply Qabs_mul_le. }
  assert (Qabs (tx + ta) <= M * (2 + (21 # 2) * u53)) as H4'.
  { apply Qabs_Qle_condition in Ha as [? ?], Hab as [? ?], Btx as [? ?], Bta as [? ?].
    apply Qabs_Qle_condition. unfold u53 in *. split; lra. }
  destruct (round64_near (tx + ta) _ H4') as (tot & Etot & Htot).
  { apply below_2_1000. unfold u53. lra. }
  assert (Qabs (tot - (a + a * (t * (1 # 100)))) <= M * (13 * u53)) as Btot.
  { apply Qabs_Qle_condition in Htot as [? ?], Btx as [? ?], Bta as [? ?].
    apply Qabs_Qle_condition. unfold u53 in *. split; lra. }
  exists p, da, tx, q, ta, tot.
  assert (round64 (s' * p) = Fin da) as Eda'.
  { rewrite <- Eda. apply round64_comp. by rewrite Hs. }
  assert (round64 (s' + - da) = Fin tx) as Etx'.
  { rewrite <- Etx. apply round64_comp. by rewrite Hs. }
  split; [done|]. split; [by rewrite (to_float_mul sub s' p Es), Eda'|].
  split; [by rewrite (to_float_sub sub s' da Es), Etx'|].
  split; [done|]. split; [by unfold py_mul; cbn -[round64]; rewrite Eta|].
  split; [by unfold py_add; cbn -[round64]; rewrite Etot|].
  unfold Qdiv. change (/ 100) with (1 # 100).
  apply Qabs_Qle_condition in Bda as [? ?], Bta as [? ?], Btot as [? ?].
  unfold a, u53 in *.
  split; [apply Qabs_Qle_condition; split; lra|].
  split; [apply Qabs_Qle_condition; split; lra|].
  split; [apply Qabs_Qle_condition; split; lra|]. done.
Qed.

(** The calculation on whole line items: it does not fall back, and
    these are its five values. *)
Lemma totals_whole services items discount tax_rate (d t : Q) :
  Forall2 line_whole services items ->
  (amounts_magnitude items <= 2 ^ 53)%Z -> (hours_magnitude items <= 2 ^ 53)%Z ->
  denotes discount d -> denotes tax_rate t ->
  0 <= d <= 100 -> 0 <= t <= 100 ->
  let s := inject_Z (whole_amounts items) in
  exists sub hrs p da tx q ta tot,
    sum_amounts services = Ok sub /\ whole sub (whole_amounts items)
    /\ sum_hours services = Ok hrs /\ whole hrs (whole_hours items)
    /\ calculate_project_totals services discount tax_rate
       = {| subtotal := sub; discount_amount := VFloat (Fin da);
            tax_amount := VFloat (Fin ta); total := VFloat (Fin tot);
            total_hours := hrs |}
    /\ Qabs (da - s * d / 100) <= totals_tolerance (whole_amounts items)
    /\ Qabs (ta - (s - s * d / 100) * t / 100) <= totals_tolerance (whole_amounts items)
    /\ Qabs (tot - (s - s * d / 100 + (s - s * d / 100) * t / 100))
       <= totals_tolerance (whole_amounts items)
    /\ round64 (d * (1 # 100)) = Fin p /\ round64 (s * p) = Fin da
    /\ round64 (s + - da) = Fin tx
    /\ round64 (t * (1 # 100)) = Fin q /\ round64 (tx * q) = Fin ta
    /\ round64 (tx + ta) = Fin tot.
Proof.
  intros Hall Hmag Hhrs Dd Dt Hd Ht s.
  destruct (sum_amounts_whole services items _ 0 Hall whole_zero Hmag)
    as (sub & Es & Ws).
  destruct (sum_hours_whole services items _ 0 Hall whole_zero Hhrs)
    as (hrs & Eh & Wh).
  rewrite Z.add_0_l in Ws, Wh.
  destruct (totals_tail sub discount tax_rate _ d t Ws Dd Dt Hd Ht)
    as (p & da & tx & q & ta & tot & Ep & Eda & Etx & Eq & Eta & Etot & Bda & Bta & Btot
        & Rounded).
  exists sub, hrs, p, da, tx, q, ta, tot.
  split; [done|]. split; [done|]. split; [done|]. split; [done|].
  split; [|done].
  unfold calculate_project_totals, calculate_project_totals_try, sum_amounts,
    sum_hours.
  rewrite Es. cbn -[py_div py_mul py_sub py_add foldl].
  rewrite Ep. cbn -[py_div py_mul py_sub py_add foldl].
  rewrite Eda. cbn -[py_div py_mul py_sub py_add foldl].
  rewrite Etx. cbn -[py_div py_mul py_sub py_add foldl].
  rewrite Eq. cbn -[py_div py_mul py_sub py_add foldl].
  rewrite Eta. cbn -[py_div py_mul py_sub py_add foldl].
  rewrite Etot. cbn -[py_div py_mul py_sub py_add foldl].
  rewrite Eh. reflexivity.
Qed.



(** The rounding of the float operations shows in small amounts too:
    3 hours at 1 with a discount of 10 give 0.30000000000000004. *)
Lemma totals_discount_is_rounded :
  let r :=
    calculate_project_totals [Fixtures.line_item (VInt 3) (VInt 1)] (VInt 10) (VInt 0) in
  discount_amount r = VFloat (Fin (1351079888211149 # 4503599627370496))
  /\ ~ denotes (discount_amount r) (3 * 10 / 100).
Proof.
  cbv zeta.
  assert (discount_amount
            (calculate_project_totals [Fixtures.line_item (VInt 3) (VInt 1)]
               (VInt 10) (VInt 0))
          = VFloat (Fin (1351079888211149 # 4503599627370496))) as ->
    by (vm_compute; reflexivity).
  split; [done|]. intros (q & [= <-] & H). revert H. vm_compute. discriminate.
Qed.

(** A line item without the key 'hourly_rate' sends the calculator to
    its [except] branch: all totals are 0. *)
Lemma totals_fallback_on_missing_key :
  calculate_project_totals
    [<["hours" := VInt 10]> (<["rate" := VInt 150]> ∅)] (VInt 10) (VFloat (Fin 8.5))
  = {| subtotal := VInt 0; discount_amount := VInt 0; tax_amount := VInt 0;
       total := VInt 0; total_hours := VInt 0 |}.
Proof. vm_compute. reflexivity. Qed.

End Totals.

Section Application.
Import World SimpleInvoicePredictor.

(** C10. The inline predictor of the application answers from
    total_amount, project_type and service_category alone: the other
    four arguments, the instance and what [load_models] did to it make
    no difference. *)
Theorem app_predict_depends_on_three_inputs
    (self self' : predictor) (w w' : world) (filename filename' : string)
    (sc pt ta ci ci' co co' th th' ns ns' : value) :
  predict self sc ci co pt ta th ns = predict self' sc ci' co' pt ta th' ns'
  /\ predict (load_models w filename self).2 sc ci co pt ta th ns
     = predict (load_models w' filename' self').2 sc ci' co' pt ta th' ns'.
Proof. split; reflexivity. Qed.

End Application.

Section Synthesizer.
Import Props.

(** The payment terms of every generated record are those of the
    three-way rule of the generator. *)
Lemma generated_payment_terms draws i pos r pos' :
  Synth.generate_record draws i pos = (Ok r, pos') ->
  Synth.payment_terms r = synthesizer_terms (Synth.project_type r).
Proof.
  unfold Synth.generate_record, synthesizer_terms.
  unfold mbind, Synth.G_bind, mret, Synth.G_ret, Synth.glift.
  intros H. repeat case_match; simplify_eq; cbn in *; congruence.
Qed.

(** On two of the four project types the generator and the predictors
    agree. *)
Lemma terms_agree_on_two (project_type : string) :
  project_type = "Fixed Price" \/ project_type = "Time & Materials" ->
  synthesizer_terms project_type = terms_of (VStr project_type).
Proof. intros [-> | ->]; reflexivity. Qed.

(** C8, which the code does not satisfy. A record generated with project type
    "Retainer" gets "Net 30" and one with "Support Contract" gets
    "Monthly in Advance", where the lookup of the prediction service
    gives "Monthly in Advance" and "Quarterly in Advance". *)
Theorem synthesizer_terms_diverge :
  (exists r pos,
     Synth.generate_record (Fixtures.draws_with_project 2) 0 0 = (Ok r, pos)
     /\ Synth.project_type r = "Retainer" /\ Synth.payment_terms r = "Net 30")
  /\ (exists r pos,
       Synth.generate_record (Fixtures.draws_with_project 3) 0 0 = (Ok r, pos)
       /\ Synth.project_type r = "Support Contract"
       /\ Synth.payment_terms r = "Monthly in Advance")
  /\ (forall py_repr sc ci,
       payment_terms <$>
         ITInvoicePredictor._get_smart_defaults py_repr sc ci (VStr "Retainer") (VInt 1500)
       = Ok "Monthly in Advance")
  /\ ITInvoicePredictor.payment_terms_map !! "Retainer" = Some "Monthly in Advance"
  /\ ITInvoicePredictor.payment_terms_map !! "Support Contract"
     = Some "Quarterly in Advance"
  /\ SimpleInvoicePredictor.payment_terms_map !! "Retainer" = Some "Monthly in Advance"
  /\ SimpleInvoicePredictor.payment_terms_map !! "Support Contract"
     = Some "Quarterly in Advance".
Proof.
  repeat split; try reflexivity.
  - do 2 eexists. split; [vm_compute; reflexivity|]. split; reflexivity.
  - do 2 eexists. split; [vm_compute; reflexivity|]. split; reflexivity.
Qed.

End Synthesizer.

(** ** The theorems at concrete inputs *)

Section Examples.
Import Sklearn World Props Fixtures.

Local Abbreviation predict :=
  (ITInvoicePredictor.predict plain_repr constant_regressors constant_classifiers).
Local Abbreviation inference := (Props.inference constant_regressors constant_classifiers).


(** The same with a project type that cannot be hashed. *)
Lemma predict_raises_on_unhashable_project_type :
  (predict cold_world (VStr "Software Development") (VStr "Finance") (VStr "US")
     (VList ["Fixed Price"]) (VInt 25000) (VInt 150) (VInt 3)
     ITInvoicePredictor.__init__).1
  = Raise TypeError.
Proof. vm_compute. reflexivity. Qed.

(** The same with an int beyond the doubles: the format of the amount in
    [_get_smart_defaults] cannot convert it. *)
Lemma predict_raises_on_huge_amount :
  (predict cold_world (VStr "Software Development") (VStr "Finance") (VStr "US")
     (VStr "Fixed Price") (VInt (10 ^ 400)) (VInt 150) (VInt 3)
     ITInvoicePredictor.__init__).1
  = Raise OverflowError.
Proof. vm_compute. reflexivity. Qed.







(** Training on the small dataset, saving, and loading into a fresh
    instance. *)
Lemma persistence_round_trip_witness :
  let p := (ITInvoicePredictor.train_models constant_regressors constant_classifiers
              training_world ITInvoicePredictor.__init__).2 in
  exists q',
    ITInvoicePredictor.load_models constant_regressors constant_classifiers
      (ITInvoicePredictor.save_models constant_regressors constant_classifiers
         training_world "it_invoice_models.joblib" p).2
      "it_invoice_models.joblib" ITInvoicePredictor.__init__ = (Ok true, q')
    /\ forall wa wb sc ci co pt ta th ns,
         (predict wa sc ci co pt ta th ns q').1 = (predict wb sc ci co pt ta th ns p).1.
Proof.
  apply (persistence_round_trip plain_repr constant_regressors constant_classifiers
           training_world ITInvoicePredictor.__init__).
  - vm_compute. reflexivity.
  - vm_compute. reflexivity.
Defined.

(** The classifier of the wild artifact echoes the code of the country:
    1 for "US", so the level is "High". *)
Lemma inference_documentation_level_witness :
  exists b,
    (predict cold_world (VStr "Cloud Services") (VStr "Finance") (VStr "US")
       (VStr "Retainer") (VInt 25000) (VInt 150) (VInt 3) wild_predictor).1 = Ok b
    /\ documentation_complexity b = "High"
    /\ documentation_complexity b <> "Low".
Proof.
  apply (proj1 (inference_documentation_level plain_repr constant_regressors
                  constant_classifiers cold_world wild_predictor _ _ _ _ _ _ _)
           (Fin 33.333) NaN 1%Z); reflexivity.
Defined.


End Examples.

(** ** The feature vector of a prediction *)

Section FeatureVector.
Import Sklearn World ITInvoicePredictor Props Conditions.

(** One turn of the encoding loop on a column the record and the frame
    have: the code stored is the one of the encoder, and 0 when there is
    no encoder or it does not know the label. *)
Lemma encode_column_code encs (input_dict input_df : gmap string value) col v :
  input_dict !! col = Some v -> is_Some (input_df !! col) ->
  encode_column encs input_dict input_df col
  = Ok (<[col := VInt (match encs !! col with
                       | Some enc =>
                           match transform enc v with Ok c => c | Raise _ => 0%Z end
                       | None => 0%Z
                       end)]> input_df).
Proof.
  intros Hv [old Hold]. unfold encode_column, dict_item. rewrite Hv, Hold. cbn.
  destruct (encs !! col) as [enc|]; [|done].
  destruct (transform enc v) as [code|e] eqn:Et; [done|].
  by rewrite (transform_raises _ _ _ Et).
Qed.

(** The code of a label under the encoders in memory. *)
Lemma transform_string (encs : gmap string encoder) col s :
  match encs !! col with
  | Some enc => match transform enc (VStr s) with Ok c => c | Raise _ => 0%Z end
  | None => 0%Z
  end
  = match encs !! col with
    | Some (Fitted classes) => default 0%Z (index_of s classes)
    | _ => 0%Z
    end.
Proof.
  destruct (encs !! col) as [[|classes]|]; try done.
  simpl. by destruct (index_of s classes).
Qed.

(** The four codes of the row that [prepare_features_try] returns. *)
Lemma prepare_features_codes encs sc ci co pt ta th ns :
  rate_converts ta th = true ->
  let code col v :=
    match encs !! col with
    | Some enc => match transform enc v with Ok c => c | Raise _ => 0%Z end
    | None => 0%Z
    end in
  exists amount_per_hour hours,
    py_max th (VInt 1) = Ok hours
    /\ py_div ta hours = Ok (VFloat amount_per_hour)
    /\ prepare_features_try encs (input_record sc ci co pt ta th ns)
       = Ok [VInt (code "service_category" sc); VInt (code "client_industry" ci);
             VInt (code "country" co); VInt (code "project_type" pt);
             ta; th; ns; VFloat amount_per_hour;
             VInt (if above 20000 ta then 1 else 0);
             VInt (if py_in ci ["Finance"; "Healthcare"] then 1 else 0)].
Proof.
  intros Hrate code. destruct (rate_converts_number _ _ Hrate) as [Hta Hth].
  set (dict := input_record sc ci co pt ta th ns).
  destruct (py_max_div ta th Hrate) as (hours & aph & Emax & Ediv).
  exists aph, hours. split; [done|]. split; [done|].
  unfold prepare_features_try, categorical_cols, for_each. cbv zeta. fold dict.
  rewrite (encode_column_code encs dict dict "service_category" sc eq_refl)
    by (by eexists).
  rewrite bind_Ok.
  rewrite (encode_column_code encs dict _ "client_industry" ci eq_refl)
    by (by eexists).
  rewrite bind_Ok.
  rewrite (encode_column_code encs dict _ "country" co eq_refl) by (by eexists).
  rewrite bind_Ok.
  rewrite (encode_column_code encs dict _ "project_type" pt eq_refl) by (by eexists).
  rewrite !bind_Ok.
  change (dict_item dict "total_amount") with (Ok ta).
  change (dict_item dict "total_hours") with (Ok th).
  change (dict_item dict "client_industry") with (Ok ci).
  rewrite !bind_Ok, Emax, bind_Ok, Ediv, !bind_Ok.
  rewrite py_gt_above, !bind_Ok by done.
  fold (code "service_category" sc) (code "client_industry" ci)
    (code "country" co) (code "project_type" pt).
  generalize (code "service_category" sc) (code "client_industry" ci)
    (code "country" co) (code "project_type" pt)
    (above 20000 ta) (py_in ci ["Finance"; "Healthcare"]).
  intros c1 c2 c3 c4 large enterprise. subst dict. vm_compute. reflexivity.
Qed.

(** With an amount or hours that are not numbers the [try] raises, and
    so it does when their quotient is not defined. *)
Lemma prepare_features_not_numeric encs sc ci co pt ta th ns :
  rate_converts ta th = false ->
  exists e, prepare_features_try encs (input_record sc ci co pt ta th ns) = Raise e.
Proof.
  intros Hnum.
  set (dict := input_record sc ci co pt ta th ns).
  unfold prepare_features_try, categorical_cols, for_each. cbv zeta. fold dict.
  rewrite (encode_column_code encs dict dict "service_category" sc eq_refl)
    by (by eexists).
  rewrite bind_Ok.
  rewrite (encode_column_code encs dict _ "client_industry" ci eq_refl)
    by (by eexists).
  rewrite bind_Ok.
  rewrite (encode_column_code encs dict _ "country" co eq_refl) by (by eexists).
  rewrite bind_Ok.
  rewrite (encode_column_code encs dict _ "project_type" pt eq_refl) by (by eexists).
  rewrite !bind_Ok.
  change (dict_item dict "total_amount") with (Ok ta).
  change (dict_item dict "total_hours") with (Ok th).
  rewrite !bind_Ok.
  destruct (is_number th) eqn:Hth.
  - destruct (is_number ta) eqn:Hta.
    + destruct (py_max_div_cases ta th Hta Hth) as (hours & -> & Hdiv).
      rewrite Hnum in Hdiv. rewrite bind_Ok, Hdiv. cbn. eauto.
    + assert (exists hours, py_max th (VInt 1) = Ok hours) as [hours ->].
      { destruct th as [| |h|x|]; try discriminate; unfold py_max, py_gt; cbn; eauto. }
      rewrite bind_Ok. unfold py_div.
      destruct ta; try discriminate; cbn; eauto.
  - assert (py_max th (VInt 1) = Raise TypeError) as ->.
    { destruct th; try discriminate; reflexivity. }
    cbn. eauto.
Qed.

(** X1. The feature vector exists exactly when the amount and the hours
    are numbers on which [total_amount / max(total_hours, 1)] is
    defined: two ints whose quotient rounds to a double, two floats,
    or an int and a float where the int converts to a double; the
    categories, the country and the number of services may be values
    of any kind. *)
Theorem features_prepared_iff_numeric self sc ci co pt ta th ns :
  is_Some (prepare_features_for_prediction self (input_record sc ci co pt ta th ns))
  <-> rate_converts ta th = true.
Proof.
  unfold prepare_features_for_prediction. split.
  - intros HX. destruct (rate_converts ta th) eqn:E; [done|].
    destruct (prepare_features_not_numeric (encoders self) sc ci co pt ta th ns E)
      as [e He].
    rewrite He in HX. by destruct HX.
  - intros E.
    destruct (prepare_features_codes (encoders self) sc ci co pt ta th ns E)
      as (aph & hours & _ & _ & ->).
    by eexists.
Qed.

Lemma py_in_two (v : value) (s t : string) :
  py_in v [s; t] = true <-> v = VStr s \/ v = VStr t.
Proof.
  unfold py_in. simpl. rewrite orb_false_r, orb_true_iff.
  destruct v as [|u| | |]; simpl; try (split; [intros [?|?]|intros [?|?]]; done).
  rewrite !String.eqb_eq. split; intros [?|?]; simplify_eq; auto.
Qed.

Lemma above_denotes (k : Z) (v : value) (q : Q) :
  denotes v q -> above k v = true <-> (inject_Z k < q)%Q.
Proof.
  intros (q' & Hv & Hq). unfold above. rewrite Hv. simpl.
  rewrite Qltb_lt, Hq. reflexivity.
Qed.

(** [total_amount / max(total_hours, 1)] on finite numbers whose ints
    convert exactly: the quotient, rounded once. *)
Lemma amount_per_hour_rounded ta th a h :
  denotes ta a -> denotes th h -> fits53 ta -> fits53 th ->
  exists hours,
    py_max th (VInt 1) = Ok hours
    /\ py_div ta hours
       = Ok (VFloat (round64 (a / (if Qlt_le_dec h 1 then 1 else h)))).
Proof.
  intros (a' & Ha & Ea) (h' & Hh & Eh) Fa Fh.
  assert (forall m : Z, (1 <= m)%Z -> Qzero (inject_Z m) = false) as Hnz
    by (intros m Hm; unfold Qzero; simpl; lia).
  destruct th as [| |n|[y| | |]|]; try discriminate; simpl in Hh, Fh;
    unfold of_int in Hh; simplify_eq.
  - (* int hours *)
    rewrite py_max_int. eexists. split; [done|].
    assert (inject_Z (Z.max n 1) == (if Qlt_le_dec h 1 then 1 else h))%Q as Hm.
    { destruct (Qlt_le_dec h 1) as [Hc|Hc]; rewrite <- Eh in Hc;
        change 1%Q with (inject_Z 1) in Hc.
      - rewrite <- Zlt_Qlt in Hc. by replace (Z.max n 1) with 1%Z by lia.
      - rewrite <- Zle_Qle in Hc. by replace (Z.max n 1) with n by lia. }
    destruct ta as [| |x|[z| | |]|]; try discriminate; simpl in Ha, Fa;
      unfold of_int in Ha; simplify_eq.
    + pose proof (py_div_ints x (Z.max n 1) ltac:(lia)) as Hdiv.
      assert ((Z.abs x <? (2 ^ 1024 - 2 ^ 970) * Z.max n 1)%Z = true) as E
        by (apply Z.ltb_lt; nia).
      rewrite E in Hdiv. destruct Hdiv as (q & -> & Hq). rewrite <- Hq.
      do 2 f_equal. apply round64_comp. by rewrite Ea, Hm.
    + unfold py_div, to_float, float_of_int.
      rewrite (round64_int (Z.max n 1)) by lia. cbn -[round64 inject_Z Z.max].
      rewrite Hnz by lia. cbn -[round64 inject_Z Z.max].
      do 2 f_equal. apply round64_comp. by rewrite Ea, Hm.
  - (* float hours *)
    unfold py_max, py_gt, py_lt. cbn -[round64].
    destruct (Qltb h' (inject_Z 1)) eqn:E.
    + apply Qltb_lt in E. change (inject_Z 1) with 1%Q in E.
      destruct (Qlt_le_dec h 1) as [_|Hc]; [|lra].
      eexists. split; [done|].
      destruct ta as [| |x|[z| | |]|]; try discriminate; simpl in Ha, Fa;
        unfold of_int in Ha; simplify_eq.
      * pose proof (py_div_ints x 1 ltac:(lia)) as Hdiv.
        assert ((Z.abs x <? (2 ^ 1024 - 2 ^ 970) * 1)%Z = true) as E'
          by (apply Z.ltb_lt; lia).
        rewrite E' in Hdiv. destruct Hdiv as (q & -> & Hq). rewrite <- Hq.
        do 2 f_equal. apply round64_comp. by rewrite Ea.
      * unfold py_div, to_float, float_of_int.
        rewrite (round64_int 1) by lia. cbn -[round64].
        do 2 f_equal. apply round64_comp. by rewrite Ea.
    + apply Qltb_ge in E. change (inject_Z 1) with 1%Q in E.
      destruct (Qlt_le_dec h 1) as [Hc|_]; [lra|].
      eexists. split; [done|].
      assert (Qzero h' = false) as Hz.
      { unfold Qzero. apply Z.eqb_neq. intros Hz.
        assert (h' == 0)%Q by (unfold Qeq; simpl; lia). lra. }
      destruct ta as [| |x|[z| | |]|]; try discriminate; simpl in Ha, Fa;
        unfold of_int in Ha; simplify_eq.
      * unfold py_div, to_float, float_of_int.
        rewrite (round64_int x) by done. cbn -[round64 inject_Z].
        rewrite Hz. cbn -[round64 inject_Z].
        do 2 f_equal. apply round64_comp. by rewrite Ea, Eh.
      * unfold py_div, to_float. cbn -[round64]. rewrite Hz. cbn -[round64].
        do 2 f_equal. apply round64_comp. by rewrite Ea, Eh.
Qed.

Lemma fits53_rate_converts ta th a h :
  denotes ta a -> denotes th h -> fits53 ta -> fits53 th -> rate_converts ta th = true.
Proof.
  intros Da Dh Fa Fh. apply denotes_number in Da, Dh.
  destruct ta as [| |x|z|]; try discriminate; destruct th as [| |n|y|]; try discriminate;
    simpl in *; unfold in_double_range; try done; apply Z.ltb_lt; nia.
Qed.

(** X2. The three derived fields of the feature vector of a record with a
    finite amount [a] and finite hours [h], where an int among them
    has at most 53 bits: the amount per hour is the double nearest to
    [a / h], with hours below 1 counted as 1, and an infinity if that
    is beyond the doubles; the large-project flag is set above 20000;
    the enterprise flag is set for the industries Finance and
    Healthcare. *)
Theorem derived_features self sc ci co pt ta th ns a h :
  denotes ta a -> denotes th h -> fits53 ta -> fits53 th ->
  exists c1 c2 c3 c4 amount_per_hour large enterprise,
    prepare_features_for_prediction self (input_record sc ci co pt ta th ns)
    = Some [VInt c1; VInt c2; VInt c3; VInt c4; ta; th; ns; VFloat amount_per_hour;
            VInt large; VInt enterprise]
    /\ ((h < 1)%Q -> amount_per_hour = round64 a)
    /\ ((1 <= h)%Q -> amount_per_hour = round64 (a / h))
    /\ (large = 1%Z /\ (20000 < a)%Q \/ large = 0%Z /\ (a <= 20000)%Q)
    /\ (enterprise = 1%Z /\ (ci = VStr "Finance" \/ ci = VStr "Healthcare")
        \/ enterprise = 0%Z /\ ci <> VStr "Finance" /\ ci <> VStr "Healthcare").
Proof.
  intros Da Dh Fa Fh.
  destruct (prepare_features_codes (encoders self) sc ci co pt ta th ns)
    as (aph & hours & Emax & Ediv & HX); [by eapply fits53_rate_converts|].
  destruct (amount_per_hour_rounded _ _ _ _ Da Dh Fa Fh) as (hours' & Emax' & Ediv').
  rewrite Emax in Emax'. injection Emax' as <-.
  rewrite Ediv in Ediv'. injection Ediv' as ->.
  unfold prepare_features_for_prediction. rewrite HX.
  do 7 eexists. split; [reflexivity|]. split; [|split; [|split]].
  - intros Hc. destruct (Qlt_le_dec h 1) as [_|?]; [|lra].
    apply round64_comp. field.
  - intros Hc. by destruct (Qlt_le_dec h 1) as [?|_]; [lra|].
  - pose proof (above_denotes 20000 ta a Da) as Habove.
    change (inject_Z 20000) with 20000%Q in Habove.
    destruct (above 20000 ta).
    + left. split; [done|]. by apply Habove.
    + right. split; [done|]. destruct (Qlt_le_dec 20000 a) as [H|H]; [|done].
      apply Habove in H. discriminate.
  - pose proof (py_in_two ci "Finance" "Healthcare") as Hin.
    destruct (py_in ci _).
    + left. split; [done|]. by apply Hin.
    + right. split; [done|].
      split; intros ->; destruct Hin as [_ Hin]; (discriminate Hin; auto).
Qed.

(** X3. The code of a text label in the feature vector, which exists for
    an amount and hours whose quotient is defined: its position in the
    classes of the fitted encoder of its column, and 0 when the label
    is not among them, when the encoder was never fitted and when
    there is no encoder for the column. *)
Theorem category_codes self sc ci co pt ta th ns i col s :
  categorical_cols !! i = Some col ->
  input_record sc ci co pt ta th ns !! col = Some (VStr s) ->
  rate_converts ta th = true ->
  exists X,
    prepare_features_for_prediction self (input_record sc ci co pt ta th ns) = Some X
    /\ X !! i = Some (VInt (match encoders self !! col with
                            | Some (Fitted classes) => default 0%Z (index_of s classes)
                            | _ => 0%Z
                            end)).
Proof.
  intros Hi Hcol Hrate.
  destruct (prepare_features_codes (encoders self) sc ci co pt ta th ns Hrate)
    as (aph & hours & _ & _ & HX).
  unfold prepare_features_for_prediction. rewrite HX.
  eexists. split; [reflexivity|].
  rewrite <- transform_string.
  destruct i as [|[|[|[|i]]]]; simpl in Hi; try discriminate; injection Hi as <-;
    vm_compute in Hcol; injection Hcol as ->; reflexivity.
Qed.

End FeatureVector.

(** ** Training, loading and saving *)

Section Training.
Import Sklearn World ITInvoicePredictor Props Conditions.

Variable py_repr : value -> string.
Variable fit_regressor : list (list value) -> list value -> result regressor.
Variable fit_classifier : list (list value) -> list value -> result classifier.

Local Abbreviation predict := (ITInvoicePredictor.predict py_repr fit_regressor fit_classifier).
Local Abbreviation train_models := (ITInvoicePredictor.train_models fit_regressor fit_classifier).
Local Abbreviation load_models := (ITInvoicePredictor.load_models fit_regressor fit_classifier).
Local Abbreviation save_models := (ITInvoicePredictor.save_models fit_regressor fit_classifier).
Local Abbreviation inference := (Props.inference fit_regressor fit_classifier).
Local Abbreviation defaults := (_get_smart_defaults py_repr).

Ltac still :=
  cbn -[fit_encoders read_csv joblib_load mapM dict_item fit_transform
       feature_cols categorical_cols].

Ltac step :=
  unfold mbind, fmap, mret, M_bind, M_fmap, M_ret, try_except, gets, lift, attr,
    modify, set_models_loaded, set_dataset_loaded, set_dataset, set_encoders,
    set_discount_model, set_tax_model, set_docs_model;
  still.

(** One turn of the encoding loop of [train_models]. *)
Lemma fit_encoders_turn col rest (X : dataframe) s :
  fit_encoders (col :: rest) X s =
  match dict_item X col with
  | Ok column =>
      match fit_transform column with
      | Ok fitted =>
          fit_encoders rest (<[col := fitted.2]> X)
            (set_encoders (<[col := fitted.1]> (<[col := Unfitted]> (encoders s))) s).2
      | Raise e => (Raise e, (set_encoders (<[col := Unfitted]> (encoders s)) s).2)
      end
  | Raise e => (Raise e, (set_encoders (<[col := Unfitted]> (encoders s)) s).2)
  end.
Proof.
  simpl. step. destruct (dict_item X col); still; [|done].
  destruct (fit_transform a); still; done.
Qed.

(** The loop assigns [self.encoders] and nothing else of the instance. *)
Lemma fit_encoders_keeps cols (X : dataframe) s :
  let s' := (fit_encoders cols X s).2 in
  models_loaded s' = models_loaded s /\ dataset_loaded s' = dataset_loaded s
  /\ dataset s' = dataset s /\ discount_model s' = discount_model s
  /\ tax_model s' = tax_model s /\ docs_model s' = docs_model s.
Proof.
  revert X s. induction cols as [|col rest IH]; intros X s; [done|].
  rewrite fit_encoders_turn.
  destruct (dict_item X col) as [column|]; [|done].
  destruct (fit_transform column) as [fitted|]; [|done].
  match goal with |- context [fit_encoders rest ?Y ?t] =>
    specialize (IH Y t) end.
  exact IH.
Qed.

(** Its outcome and the frame it returns depend on the frame alone. *)
Lemma fit_encoders_outcome cols (X : dataframe) s s' :
  (fit_encoders cols X s).1 = (fit_encoders cols X s').1.
Proof.
  revert X s s'. induction cols as [|col rest IH]; intros X s s'; [done|].
  rewrite !fit_encoders_turn.
  destruct (dict_item X col) as [column|]; [|done].
  destruct (fit_transform column) as [fitted|]; [|done].
  apply IH.
Qed.

(** A column of the loop that the frame lacks makes it raise. *)
Lemma fit_encoders_missing cols (X : dataframe) s col :
  col ∈ cols -> X !! col = None -> exists e, (fit_encoders cols X s).1 = Raise e.
Proof.
  revert X s. induction cols as [|c rest IH]; intros X s Hin Hnone;
    [by apply elem_of_nil in Hin|].
  rewrite fit_encoders_turn.
  destruct (decide (col = c)) as [->|Hne].
  - unfold dict_item. rewrite Hnone. eauto.
  - destruct (dict_item X c) as [column|]; [|eauto].
    destruct (fit_transform column) as [fitted|]; [|eauto].
    apply elem_of_cons in Hin as [Hin|Hin]; [done|].
    apply IH; [done|]. by rewrite lookup_insert_ne.
Qed.

(** The columns outside the loop are left as they are, in the frame and
    among the encoders. *)
Lemma fit_encoders_frame cols (X X' : dataframe) s s' col :
  fit_encoders cols X s = (Ok X', s') -> col ∉ cols ->
  X' !! col = X !! col /\ encoders s' !! col = encoders s !! col.
Proof.
  revert X s. induction cols as [|c rest IH]; intros X s Hfit Hout.
  - by injection Hfit as <- <-.
  - rewrite fit_encoders_turn in Hfit.
    destruct (dict_item X c) as [column|]; [|done].
    destruct (fit_transform column) as [fitted|]; [|done].
    apply not_elem_of_cons in Hout as [Hne Hout].
    apply IH in Hfit as [-> ->]; [|done].
    cbn. by rewrite !lookup_insert_ne.
Qed.

(** Each column of the loop gets the encoder fitted on it, and its codes. *)
Lemma fit_encoders_fitted cols (X X' : dataframe) s s' col :
  NoDup cols -> fit_encoders cols X s = (Ok X', s') -> col ∈ cols ->
  exists column enc codes,
    X !! col = Some column /\ fit_transform column = Ok (enc, codes)
    /\ encoders s' !! col = Some enc /\ X' !! col = Some codes.
Proof.
  intros Hnd. revert X s. induction Hnd as [|c rest Hc Hnd IH]; intros X s Hfit Hin;
    [by apply elem_of_nil in Hin|].
  rewrite fit_encoders_turn in Hfit. unfold dict_item in Hfit.
  destruct (X !! c) as [column|] eqn:Ecol; [|done].
  destruct (fit_transform column) as [[enc codes]|] eqn:Efit; [|done].
  destruct (decide (col = c)) as [->|Hne].
  - destruct (fit_encoders_frame _ _ _ _ _ c Hfit Hc) as [HX Henc].
    exists column, enc, codes. cbn in HX, Henc.
    rewrite lookup_insert_eq in HX. rewrite lookup_insert_eq in Henc. done.
  - apply elem_of_cons in Hin as [Hin|Hin]; [done|].
    destruct (IH _ _ Hfit Hin) as (column' & enc' & codes' & H1 & H2 & H3 & H4).
    rewrite lookup_insert_ne in H1 by done. by exists column', enc', codes'.
Qed.

Lemma mapM_dict_item_Ok {A} (X : gmap string A) cols l col :
  mapM (dict_item X) cols = Ok l -> col ∈ cols -> is_Some (X !! col).
Proof.
  revert l. induction cols as [|c rest IH]; intros l Hl Hin;
    [by apply elem_of_nil in Hin|].
  change (mapM (dict_item X) (c :: rest)) with
    (y ← dict_item X c; k ← mapM (dict_item X) rest; mret (y :: k)) in Hl.
  destruct (dict_item X c) as [x|] eqn:Ec; [|done]. cbn -[mapM] in Hl.
  destruct (mapM (dict_item X) rest) as [l'|]; [|done].
  apply elem_of_cons in Hin as [->|Hin].
  - unfold dict_item in Ec. destruct (X !! c); [by eexists | done].
  - by eapply IH.
Qed.

(** What [train_models] does to the flag: set with the three models on
    success, left alone on failure. *)
Lemma train_models_flag w self :
  exists ok p,
    train_models w self = (Ok ok, p)
    /\ (if ok then
          models_loaded p = true /\ dataset_loaded p = true
          /\ is_Some (discount_model p) /\ is_Some (tax_model p)
          /\ is_Some (docs_model p)
        else models_loaded p = models_loaded self).
Proof.
  unfold ITInvoicePredictor.train_models, load_dataset. step.
  destruct (read_csv w default_dataset_file) as [df|]; still;
    [|by exists false, self].
  match goal with |- context [fit_encoders ?c ?d ?s] =>
    pose proof (fit_encoders_keeps c d s) as Hkeep;
    destruct (fit_encoders c d s) as [[X|] s1] end; still;
    cbn in Hkeep; destruct Hkeep as (Hl & Hdl & _); [|by exists false, s1].
  repeat (case_match; still); simplify_eq;
    try (eexists false, _; split; [reflexivity|]; cbn; done).
  eexists true, _. split; [reflexivity|]. cbn. eauto 10.
Qed.

(** Whether training succeeds depends on the disk, not on the
    instance. *)
Lemma train_models_outcome w self self' :
  (train_models w self).1 = (train_models w self').1.
Proof.
  unfold ITInvoicePredictor.train_models, load_dataset. step.
  destruct (read_csv w default_dataset_file) as [df|]; still; [|done].
  match goal with |- context [fit_encoders ?c ?d ?s] =>
    match goal with |- context [fit_encoders c d ?s'] =>
      tryif constr_eq s s' then fail else
        (pose proof (fit_encoders_outcome c d s s') as Hout;
         destruct (fit_encoders c d s) as [r1 s1];
         destruct (fit_encoders c d s') as [r2 s2])
    end
  end.
  cbn in Hout. subst r2. destruct r1 as [X|]; still; [|done].
  repeat (case_match; still); simplify_eq; done.
Qed.

Lemma load_models_flag w filename self :
  exists ok p,
    load_models w filename self = (Ok ok, p)
    /\ (if ok then
          models_loaded p = true
          /\ is_Some (discount_model p) /\ is_Some (tax_model p)
          /\ is_Some (docs_model p)
        else models_loaded p = models_loaded self).
Proof.
  assert (forall s, models_loaded s = models_loaded self ->
            exists ok p,
              train_models w s = (Ok ok, p)
              /\ (if ok then
                    models_loaded p = true
                    /\ is_Some (discount_model p) /\ is_Some (tax_model p)
                    /\ is_Some (docs_model p)
                  else models_loaded p = models_loaded self)) as Htrain.
  { intros s Hs. destruct (train_models_flag w s) as (ok & p & E & H).
    exists ok, p. split; [done|]. destruct ok; [tauto | congruence]. }
  unfold ITInvoicePredictor.load_models. step.
  destruct (joblib_load w filename) as [md|]; still; [|by apply Htrain].
  destruct (md_discount_model md); still; [|by apply Htrain].
  destruct (md_tax_model md); still; [|by apply Htrain].
  destruct (md_docs_model md); still; [|by apply Htrain].
  eexists true, _. split; [reflexivity|]. cbn. eauto.
Qed.

Lemma load_models_outcome w filename self self' :
  (load_models w filename self).1 = (load_models w filename self').1.
Proof.
  unfold ITInvoicePredictor.load_models. step.
  destruct (joblib_load w filename) as [md|]; still;
    [|by apply train_models_outcome].
  destruct (md_discount_model md); still; [|by apply train_models_outcome].
  destruct (md_tax_model md); still; [|by apply train_models_outcome].
  destruct (md_docs_model md); still; [|by apply train_models_outcome].
  done.
Qed.

(** A training that succeeded found every column it reads. *)
Lemma train_models_columns w self p ds col :
  train_models w self = (Ok true, p) ->
  read_csv w default_dataset_file = Ok ds ->
  col ∈ training_columns -> is_Some (ds !! col).
Proof.
  intros Htrain Hread Hcol. revert Htrain.
  unfold ITInvoicePredictor.train_models, load_dataset. step. rewrite Hread. still.
  match goal with |- context [fit_encoders ?c ?d ?s] =>
    destruct (fit_encoders c d s) as [[X|] s1] eqn:Hfit end; still; [|discriminate].
  destruct (mapM (dict_item X) feature_cols) as [Xf|] eqn:Hmap; still; [|discriminate].
  destruct (dict_item ds "discount") as [y1|] eqn:H1; still; [|discriminate].
  destruct (fit_regressor Xf y1); still; [|discriminate].
  destruct (dict_item ds "tax_rate") as [y2|] eqn:H2; still; [|discriminate].
  destruct (fit_regressor Xf y2); still; [|discriminate].
  destruct (dict_item ds "needs_detailed_docs") as [y3|] eqn:H3; still; [|discriminate].
  intros _. unfold dict_item in H1, H2, H3.
  destruct (ds !! col) as [column|] eqn:Ecol; [by eexists|]. exfalso.
  unfold training_columns, feature_cols in Hcol.
  rewrite !elem_of_app in Hcol. destruct Hcol as [[Hcat|Hnum]|Hlab].
  - match type of Hfit with fit_encoders ?c ?d ?s = _ =>
      destruct (fit_encoders_missing c d s col Hcat Ecol) as [e He] end.
    rewrite Hfit in He. discriminate.
  - assert (col ∉ categorical_cols) as Hout.
    { unfold categorical_cols. rewrite !elem_of_cons, elem_of_nil in Hnum.
      rewrite !not_elem_of_cons.
      repeat (destruct Hnum as [->|Hnum]; [repeat split; try done; apply not_elem_of_nil|]).
      done. }
    destruct (fit_encoders_frame _ _ _ _ _ col Hfit Hout) as [HX _].
    destruct (mapM_dict_item_Ok X feature_cols Xf col Hmap) as [x Hx].
    { unfold feature_cols. apply elem_of_app. by right. }
    congruence.
  - rewrite !elem_of_cons, elem_of_nil in Hlab.
    destruct Hlab as [->|[->|[->|[]]]]; rewrite Ecol in *; discriminate.
Qed.

(** X4. [train_models] never raises and answers for the disk: the same for
    every instance.  When it answers [True] the flag is set and the
    three models exist; when it answers [False] the flag is as
    before. *)
Theorem train_models_answers_for_the_disk w self :
  exists ok p,
    train_models w self = (Ok ok, p)
    /\ (forall self', (train_models w self').1 = Ok ok)
    /\ (if ok then
          models_loaded p = true /\ dataset_loaded p = true
          /\ is_Some (discount_model p) /\ is_Some (tax_model p)
          /\ is_Some (docs_model p)
        else models_loaded p = models_loaded self).
Proof.
  destruct (train_models_flag w self) as (ok & p & E & H).
  exists ok, p. split; [done|]. split; [|done].
  intros self'. by rewrite (train_models_outcome w self' self), E.
Qed.

(** X5. Training fails, leaving the flag as it was, whenever the dataset
    lacks one of the thirteen columns it reads. *)
Theorem training_needs_every_column w self ds col :
  read_csv w default_dataset_file = Ok ds ->
  col ∈ training_columns -> ds !! col = None ->
  exists p, train_models w self = (Ok false, p)
            /\ models_loaded p = models_loaded self.
Proof.
  intros Hread Hcol Hnone.
  destruct (train_models_flag w self) as ([|] & p & E & H); [|by exists p].
  destruct (train_models_columns w self p ds col E Hread Hcol) as [x Hx].
  congruence.
Qed.

Lemma load_fails_when_training_fails w self :
  (forall md, joblib_load w default_models_file <> Ok md) ->
  (train_models w self).1 = Ok false ->
  (load_models w default_models_file self).1 = Ok false.
Proof.
  intros Hload Htrain. unfold ITInvoicePredictor.load_models. step.
  destruct (joblib_load w default_models_file) as [md|]; [by destruct (Hload md)|].
  still. exact Htrain.
Qed.

(** X6. A dataset with the columns of the generator, and no others, cannot
    be trained on: the four columns amount_per_hour, is_large_project,
    is_enterprise_client and needs_detailed_docs are not among them.
    With no artifact to load either, every prediction is the rule-based
    default. *)
Theorem generated_dataset_never_trains w self ds :
  read_csv w default_dataset_file = Ok ds ->
  dom ds ⊆ list_to_set Synth.columns ->
  (exists p, train_models w self = (Ok false, p))
  /\ (models_loaded self = false ->
      (forall md, joblib_load w default_models_file <> Ok md) ->
      forall sc ci co pt ta th ns,
        (predict w sc ci co pt ta th ns self).1 = defaults sc ci pt ta).
Proof.
  intros Hread Hdom.
  assert (ds !! "amount_per_hour" = None) as Hnone.
  { apply not_elem_of_dom. intros Hin. apply Hdom in Hin.
    revert Hin. apply (bool_decide_unpack (_ ∉ _)). vm_compute. exact I. }
  assert (forall s, exists p, train_models w s = (Ok false, p)) as Hfail.
  { intros s.
    destruct (train_models_flag w s) as ([|] & p & E & _); [|by exists p].
    destruct (train_models_columns w s p ds "amount_per_hour" E Hread) as [x Hx];
      [|congruence].
    apply (bool_decide_unpack (_ ∈ _)). vm_compute. exact I. }
  split; [apply Hfail|].
  intros Hl Hload sc ci co pt ta th ns. rewrite predict_cases.
  unfold Props.inference, ensure_loaded. rewrite Hl.
  pose proof (load_fails_when_training_fails w self Hload) as Hlm.
  destruct (Hfail self) as [p Ep]. rewrite Ep in Hlm. specialize (Hlm eq_refl).
  destruct (load_models w default_models_file self) as [r s1].
  cbn in Hlm. by subst r.
Qed.

End Training.

(** ** The encoders and the life of an instance *)

Section Encoders.
Import Sklearn.

Lemma elem_of_insert_sorted (s x : string) (l : list string) :
  s ∈ insert_sorted x l <-> s = x \/ s ∈ l.
Proof.
  induction l as [|y l IH]; simpl.
  - rewrite list_elem_of_singleton, elem_of_nil. tauto.
  - destruct (String.eqb x y) eqn:E.
    + apply String.eqb_eq in E. subst. rewrite !elem_of_cons. tauto.
    + destruct (String.ltb x y); rewrite !elem_of_cons, ?IH; tauto.
Qed.

Lemma elem_of_unique_sorted (s : string) (l : list string) :
  s ∈ unique_sorted l <-> s ∈ l.
Proof.
  induction l as [|y l IH]; simpl; [done|].
  rewrite elem_of_insert_sorted, IH, elem_of_cons. tauto.
Qed.

(** A label of the list has a position, and the position holds it. *)
Lemma index_of_elem (s : string) (l : list string) :
  s ∈ l -> exists i, index_of s l = Some i /\ (0 <= i)%Z /\ l !! Z.to_nat i = Some s.
Proof.
  induction l as [|x l IH]; intros H; [by apply elem_of_nil in H|]. simpl.
  destruct (String.eqb s x) eqn:E.
  - apply String.eqb_eq in E. subst. by exists 0%Z.
  - apply elem_of_cons in H as [->|H]; [by rewrite String.eqb_refl in E|].
    destruct (IH H) as (i & -> & Hi & Hl). exists (Z.succ i). split; [done|].
    split; [lia|]. rewrite Z2Nat.inj_succ by done. done.
Qed.

(** [fit_transform] and a later [transform] agree on every label of
    the column, and the code is the position of the label in
    [classes_]. *)
Lemma fit_transform_round_trip column enc codes (j : nat) (s : string) :
  fit_transform column = Ok (enc, codes) -> column !! j = Some (VStr s) ->
  exists classes c,
    enc = Fitted classes /\ codes !! j = Some (VInt c)
    /\ transform enc (VStr s) = Ok c
    /\ (0 <= c)%Z /\ classes !! Z.to_nat c = Some s.
Proof.
  unfold fit_transform.
  destruct (mapM as_string column) as [labels|] eqn:E; [|done].
  intros [= <- <-] Hj. apply mapM_Some in E.
  destruct (Forall2_lookup_l _ _ _ _ _ E Hj) as (y & Hy & [= <-]).
  destruct (index_of_elem s (unique_sorted labels)) as (c & Hc & H0 & Hl).
  { apply elem_of_unique_sorted. by eapply list_elem_of_lookup_2. }
  exists (unique_sorted labels), c. split; [done|].
  rewrite list_lookup_fmap, Hy. simpl. rewrite Hc. done.
Qed.

End Encoders.

Section Lifecycle.
Import Sklearn World ITInvoicePredictor Props Conditions.

Variable py_repr : value -> string.
Variable fit_regressor : list (list value) -> list value -> result regressor.
Variable fit_classifier : list (list value) -> list value -> result classifier.

Local Abbreviation predict := (ITInvoicePredictor.predict py_repr fit_regressor fit_classifier).
Local Abbreviation train_models := (ITInvoicePredictor.train_models fit_regressor fit_classifier).
Local Abbreviation load_models := (ITInvoicePredictor.load_models fit_regressor fit_classifier).
Local Abbreviation save_models := (ITInvoicePredictor.save_models fit_regressor fit_classifier).
Local Abbreviation inference := (Props.inference fit_regressor fit_classifier).
Local Abbreviation ensure_loaded := (Props.ensure_loaded fit_regressor fit_classifier).
Local Abbreviation defaults := (_get_smart_defaults py_repr).

Ltac hush :=
  cbn -[fit_encoders read_csv joblib_load mapM dict_item fit_transform
       feature_cols categorical_cols].

Ltac walk :=
  unfold mbind, fmap, mret, M_bind, M_fmap, M_ret, try_except, gets, lift, attr,
    modify, set_models_loaded, set_dataset_loaded, set_dataset, set_encoders,
    set_discount_model, set_tax_model, set_docs_model;
  hush.

(** The encoders a successful training leaves in the instance are the
    ones fitted on the columns of the dataset. *)
Lemma train_models_encoders w self p ds col :
  train_models w self = (Ok true, p) ->
  read_csv w default_dataset_file = Ok ds ->
  col ∈ categorical_cols ->
  exists column enc codes,
    ds !! col = Some column /\ fit_transform column = Ok (enc, codes)
    /\ encoders p !! col = Some enc.
Proof.
  intros Htrain Hread Hcol. revert Htrain.
  unfold ITInvoicePredictor.train_models, load_dataset. walk. rewrite Hread. hush.
  match goal with |- context [fit_encoders ?c ?d ?s] =>
    destruct (fit_encoders c d s) as [[X|] s1] eqn:Hfit end; hush; [|discriminate].
  assert (NoDup categorical_cols) as Hnd.
  { apply (bool_decide_unpack (NoDup categorical_cols)). vm_compute. exact I. }
  destruct (fit_encoders_fitted _ _ _ _ _ col Hnd Hfit Hcol)
    as (column & enc & codes & H1 & H2 & H3 & _).
  intros Htrain. exists column, enc, codes. split; [done|]. split; [done|].
  revert Htrain. repeat (case_match; hush); intros; simplify_eq; done.
Qed.

(** X7. Every label of a categorical column of the training data keeps, at
    prediction time, the code it was trained with: the encoder stored
    by [train_models] maps it to the code [fit_transform] gave it in
    the column, which is its position among the classes. *)
Theorem trained_labels_keep_their_codes w self p ds col column (j : nat) (s : string) :
  train_models w self = (Ok true, p) ->
  read_csv w default_dataset_file = Ok ds ->
  col ∈ categorical_cols ->
  ds !! col = Some column -> column !! j = Some (VStr s) ->
  exists classes codes c,
    fit_transform column = Ok (Fitted classes, codes)
    /\ encoders p !! col = Some (Fitted classes)
    /\ codes !! j = Some (VInt c)
    /\ transform (Fitted classes) (VStr s) = Ok c
    /\ classes !! Z.to_nat c = Some s.
Proof.
  intros Htrain Hread Hcol Hds Hj.
  destruct (train_models_encoders w self p ds col Htrain Hread Hcol)
    as (column' & enc & codes & H1 & H2 & H3).
  assert (column' = column) as -> by congruence.
  destruct (fit_transform_round_trip column enc codes j s H2 Hj)
    as (classes & c & -> & Hc & Ht & _ & Hl).
  by exists classes, codes, c.
Qed.

(** X8. [load_models] never raises and answers for the disk: the same for
    every instance.  When it answers [True] the flag is set and the
    three models exist; when it answers [False] the flag is as
    before. *)
Theorem load_models_answers_for_the_disk w filename self :
  exists ok p,
    load_models w filename self = (Ok ok, p)
    /\ (forall self', (load_models w filename self').1 = Ok ok)
    /\ (if ok then
          models_loaded p = true
          /\ is_Some (discount_model p) /\ is_Some (tax_model p)
          /\ is_Some (docs_model p)
        else models_loaded p = models_loaded self).
Proof.
  destruct (load_models_flag fit_regressor fit_classifier w filename self)
    as (ok & p & E & H).
  exists ok, p. split; [done|]. split; [|done].
  intros self'.
  by rewrite (load_models_outcome fit_regressor fit_classifier w filename self' self), E.
Qed.

(** The instance [predict] leaves behind is the one its loading step
    produced. *)
Lemma predict_state w self sc ci co pt ta th ns :
  (predict w sc ci co pt ta th ns self).2 = (ensure_loaded w self).2.
Proof.
  unfold ITInvoicePredictor.predict, Props.ensure_loaded.
  unfold mbind, fmap, mret, M_bind, M_fmap, M_ret, try_except, gets, lift.
  cbn -[py_min py_max py_round2 dict_get _get_smart_defaults predict_loaded
        ITInvoicePredictor.load_models].
  generalize (defaults sc ci pt ta). intros D.
  destruct (models_loaded self).
  - rewrite predict_loaded_cases.
    repeat (case_match; simplify_eq; try reflexivity).
  - destruct (load_models w default_models_file self) as [[[|]|e] s1].
    + rewrite predict_loaded_cases.
      repeat (case_match; simplify_eq; try reflexivity).
    + repeat (case_match; simplify_eq; try reflexivity).
    + repeat (case_match; simplify_eq; try reflexivity).
Qed.

(** Loading a second time changes no answer. *)
Lemma inference_after_loading w self sc ci co pt ta th ns :
  inference w (ensure_loaded w self).2 sc ci co pt ta th ns
  = inference w self sc ci co pt ta th ns.
Proof.
  destruct (models_loaded self) eqn:Hl.
  - assert (ensure_loaded w self = (Ok true, self)) as ->; [|done].
    unfold Props.ensure_loaded. by rewrite Hl.
  - destruct (load_models_flag fit_regressor fit_classifier w default_models_file self)
      as (ok & p & E & H).
    assert (ensure_loaded w self = (Ok ok, p)) as Hens.
    { unfold Props.ensure_loaded. by rewrite Hl. }
    unfold Props.inference. rewrite Hens. cbn [snd]. destruct ok.
    + destruct H as (Hp & _).
      assert (ensure_loaded w p = (Ok true, p)) as ->; [|done].
      unfold Props.ensure_loaded. by rewrite Hp.
    + pose proof (load_models_outcome fit_regressor fit_classifier w
                    default_models_file p self) as Hout.
      rewrite E in Hout. unfold Props.ensure_loaded. rewrite H, Hl.
      destruct (load_models w default_models_file p) as [r s2].
      cbn in Hout. by subst r.
Qed.

(** X9. A call of [predict] changes no later answer: on an unchanged disk,
    the instance it leaves behind answers every input as the instance
    before the call would have. *)
Theorem predict_keeps_later_answers w self
    sc ci co pt ta th ns sc' ci' co' pt' ta' th' ns' :
  (predict w sc' ci' co' pt' ta' th' ns'
     (predict w sc ci co pt ta th ns self).2).1
  = (predict w sc' ci' co' pt' ta' th' ns' self).1.
Proof. by rewrite !predict_cases, predict_state, inference_after_loading. Qed.

(** X10. With the models in memory, [predict] does not read the disk and
    does not change the instance. *)
Theorem predict_in_memory w w' self sc ci co pt ta th ns :
  models_loaded self = true ->
  (predict w sc ci co pt ta th ns self).2 = self
  /\ predict w sc ci co pt ta th ns self = predict w' sc ci co pt ta th ns self.
Proof.
  intros Hl.
  assert (forall v, (predict v sc ci co pt ta th ns self).2 = self) as Hstate.
  { intros v. rewrite predict_state. unfold Props.ensure_loaded. by rewrite Hl. }
  split; [apply Hstate|].
  rewrite (surjective_pairing (predict w sc ci co pt ta th ns self)).
  rewrite (surjective_pairing (predict w' sc ci co pt ta th ns self)).
  rewrite !Hstate, !predict_cases.
  by rewrite (inference_agrees fit_regressor fit_classifier w w' self self).
Qed.

(** X11. Cold start in general: with nothing in memory, no artifact that can
    be loaded and no dataset that can be read, [predict] answers every
    input with the rule-based defaults (or their TypeError) and leaves
    the instance exactly as it was, so that the next call tries the
    disk again. *)
Theorem cold_start_always_defaults w self sc ci co pt ta th ns :
  models_loaded self = false ->
  (forall md, joblib_load w default_models_file <> Ok md) ->
  (forall df, read_csv w default_dataset_file <> Ok df) ->
  predict w sc ci co pt ta th ns self = (defaults sc ci pt ta, self).
Proof.
  intros Hl Hj Hc.
  assert (ensure_loaded w self = (Ok false, self)) as Hens.
  { unfold Props.ensure_loaded. rewrite Hl.
    unfold ITInvoicePredictor.load_models, ITInvoicePredictor.train_models,
      load_dataset.
    walk. destruct (joblib_load w default_models_file) as [md|]; [by destruct (Hj md)|].
    hush. destruct (read_csv w default_dataset_file) as [df|]; [by destruct (Hc df)|].
    reflexivity. }
  rewrite (surjective_pairing (predict w sc ci co pt ta th ns self)).
  rewrite predict_cases, predict_state. unfold Props.inference.
  by rewrite Hens.
Qed.

End Lifecycle.

(** ** What escapes, what is written, and the two predictors side by side *)

Section Escapes.
Import Sklearn World ITInvoicePredictor Props Conditions.

Variable py_repr : value -> string.
Variable fit_regressor : list (list value) -> list value -> result regressor.
Variable fit_classifier : list (list value) -> list value -> result classifier.

Local Abbreviation predict := (ITInvoicePredictor.predict py_repr fit_regressor fit_classifier).
Local Abbreviation train_models := (ITInvoicePredictor.train_models fit_regressor fit_classifier).
Local Abbreviation save_models := (ITInvoicePredictor.save_models fit_regressor fit_classifier).
Local Abbreviation inference := (Props.inference fit_regressor fit_classifier).
Local Abbreviation defaults := (_get_smart_defaults py_repr).

(** X12. On the inference path the two percentages of the bundle are the
    raw answers [d] and [t] of the regressors cut to [0, 20] and
    [0, 25] and rounded to hundredths: an answer above the range, and
    also [nan], gives the upper bound, an answer below it gives 0. *)
Theorem inference_saturates w self sc ci co pt ta th ns d t n b :
  inference w self sc ci co pt ta th ns = Some (d, t, n) ->
  (predict w sc ci co pt ta th ns self).1 = Ok b ->
  saturates 20 d (discount b) /\ saturates 25 t (tax_rate b).
Proof.
  intros Hinf. rewrite predict_cases, Hinf. unfold inference_bundle.
  destruct (clamp_saturates 20 d) as (vd & vd' & -> & Hd & Sd); [lia|].
  destruct (clamp_saturates 25 t) as (vt & vt' & -> & Ht & St); [lia|].
  cbn -[py_round2 dict_get].
  destruct (dict_get payment_terms_map pt "Net 30") as [terms|]; [|discriminate].
  destruct (dict_get service_notes_map sc _) as [notes|]; [|discriminate].
  cbn -[py_round2]. rewrite Hd, Ht. cbn. by intros [= <-].
Qed.





(** X14. [save_models] never raises, and the disk changes only when it
    answers [True]: then the file holds the three models and the
    encoders of the instance, and every other file is as before.  On a
    disk that refuses the write, and after a failed training, it
    answers [False]. *)
Theorem save_models_writes_on_success w filename self :
  exists ok p w',
    save_models w filename self = (Ok ok, p, w')
    /\ (if ok then
          models_loaded p = true
          /\ (exists dm tm cm,
                discount_model p = Some dm /\ tax_model p = Some tm
                /\ docs_model p = Some cm
                /\ joblib_load w' filename
                   = Ok {| md_discount_model := Some dm; md_tax_model := Some tm;
                           md_docs_model := Some cm;
                           md_encoders := Some (encoders p) |})
          /\ (forall other, other <> filename ->
                joblib_files w' !! other = joblib_files w !! other)
          /\ csv_files w' = csv_files w
        else w' = w).
Proof.
  assert (forall p, models_loaded p = true ->
            exists ok w',
              match
                discount_model ← from_option Ok (Raise AttributeError) (discount_model p);
                tax_model ← from_option Ok (Raise AttributeError) (tax_model p);
                docs_model ← from_option Ok (Raise AttributeError) (docs_model p);
                joblib_dump w
                  {| md_discount_model := Some discount_model;
                     md_tax_model := Some tax_model;
                     md_docs_model := Some docs_model;
                     md_encoders := Some (encoders p) |} filename
              with
              | Ok w' => (Ok true, p, w')
              | Raise _ => (Ok false, p, w)
              end = (Ok ok, p, w')
              /\ (if ok then
                    models_loaded p = true
                    /\ (exists dm tm cm,
                          discount_model p = Some dm /\ tax_model p = Some tm
                          /\ docs_model p = Some cm
                          /\ joblib_load w' filename
                             = Ok {| md_discount_model := Some dm; md_tax_model := Some tm;
                                     md_docs_model := Some cm;
                                     md_encoders := Some (encoders p) |})
                    /\ (forall other, other <> filename ->
                          joblib_files w' !! other = joblib_files w !! other)
                    /\ csv_files w' = csv_files w
                  else w' = w)) as Hdump.
  { intros p Hp. unfold joblib_dump.
    destruct (discount_model p) as [dm|]; cbn; [|by exists false, w].
    destruct (tax_model p) as [tm|]; cbn; [|by exists false, w].
    destruct (docs_model p) as [cm|]; cbn; [|by exists false, w].
    destruct (read_only w); cbn; [by exists false, w|].
    eexists true, _. split; [reflexivity|]. split; [done|]. split.
    - exists dm, tm, cm. repeat split. unfold joblib_load, read. cbn.
      by rewrite lookup_insert_eq.
    - split; [|done]. intros other Hne. cbn. by rewrite lookup_insert_ne. }
  unfold ITInvoicePredictor.save_models.
  unfold mbind at 1, M_bind at 1, gets at 1. cbv zeta.
  destruct (models_loaded self) eqn:Hl.
  - unfold mret, M_ret. cbv beta iota.
    destruct (Hdump self Hl) as (ok & w' & E & H). by exists ok, self, w'.
  - destruct (train_models_flag fit_regressor fit_classifier w self)
      as (ok & p & E & H).
    cbv beta iota. rewrite E. destruct ok.
    + destruct H as (Hp & _).
      destruct (Hdump p Hp) as (ok & w' & E' & H'). by exists ok, p, w'.
    + by exists false, p, w.
Qed.

End Escapes.

Section BothPredictors.
Import Sklearn World Props Conditions.

Variable py_repr : value -> string.
Variable fit_regressor : list (list value) -> list value -> result regressor.
Variable fit_classifier : list (list value) -> list value -> result classifier.

Local Abbreviation predict := (ITInvoicePredictor.predict py_repr fit_regressor fit_classifier).
Local Abbreviation inference := (Props.inference fit_regressor fit_classifier).

(** The payment terms on the inference path. *)
Lemma inference_bundle_terms sc pt d t n b :
  inference_bundle sc pt d t n = Ok b ->
  hashable pt = true /\ payment_terms b = terms_of pt.
Proof.
  unfold inference_bundle.
  destruct (clamp_round_in_range 20 d) as (vd & vd' & -> & Hd & _); [lia|].
  destruct (clamp_round_in_range 25 t) as (vt & vt' & -> & Ht & _); [lia|].
  cbn -[py_round2 dict_get].
  destruct pt; destruct sc; try discriminate; cbn -[py_round2]; rewrite Hd, Ht; cbn;
    by intros [= <-].
Qed.

(** X15. The predictor of the trainer and the inline predictor of the
    application always suggest the same payment terms, whichever path
    the former takes; and when it takes the rule-based defaults they
    also agree on the tax rate and on the documentation level, and on
    the discount exactly for the amounts that are not above 5000 or
    are above 10000 without being above 20000. *)
Theorem predictors_agree w self app sc ci co pt ta th ns b :
  (predict w sc ci co pt ta th ns self).1 = Ok b ->
  is_number ta = true -> hashable sc = true ->
  let b' := SimpleInvoicePredictor.predict app sc ci co pt ta th ns in
  payment_terms b' = payment_terms b
  /\ (inference w self sc ci co pt ta th ns = None ->
      tax_rate b' = tax_rate b
      /\ documentation_complexity b' = documentation_complexity b
      /\ (discount b' = discount b
          <-> above 20000 ta = false
              /\ (above 10000 ta = true \/ above 5000 ta = false))).
Proof.
  intros Hb Hta Hsc b'. rewrite predict_cases in Hb.
  destruct (inference w self sc ci co pt ta th ns) as [[[d t] n]|].
  - apply inference_bundle_terms in Hb as [Hpt ->].
    destruct (app_predict_numeric app sc ci co pt ta th ns Hta Hpt Hsc)
      as (_ & _ & _ & Hterms).
    split; [done|]. discriminate.
  - destruct (smart_defaults_converts py_repr _ _ _ _ _ Hb) as [Hc Hpt].
    destruct (smart_defaults_numeric py_repr sc ci pt ta Hc Hpt)
      as (b0 & E & Hd & Ht & Hdoc & Hterms & _).
    rewrite Hb in E. injection E as <-.
    destruct (app_predict_numeric app sc ci co pt ta th ns Hta Hpt Hsc)
      as (Hd' & Ht' & Hdoc' & Hterms').
    subst b'. rewrite Hd', Ht', Hdoc', Hterms', Hd, Ht, Hdoc, Hterms.
    split; [done|]. intros _. split; [done|]. split; [done|].
    unfold app_tier, trainer_tier.
    destruct (above 20000 ta) eqn:E2, (above 10000 ta) eqn:E1, (above 5000 ta) eqn:E5;
      split; try done; try (intros [? [?|?]]; done); intros _; auto.
Qed.

End BothPredictors.

Section InlinePredictor.
Import Props SimpleInvoicePredictor.

Lemma app_service_notes (sc : value) (notes : string) :
  dict_get service_notes_map sc
    "Professional IT services delivered to industry standards." = Ok notes ->
  notes <> "" /\ notes <> service_notes ultimate_fallback.
Proof.
  destruct sc as [|s| | |]; simpl; try congruence; try (intros [= <-]; done).
  intros [= <-]. destruct (service_notes_map !! s) eqn:E; [|done].
  unfold service_notes_map in E.
  repeat (apply lookup_insert_Some in E as [[_ <-]|[_ E]]; [done|]).
  by rewrite lookup_empty in E.
Qed.

(** Whatever the [try] of the inline predictor returns. *)
Lemma app_predict_try_fields sc pt ta b :
  predict_try sc pt ta = Ok b ->
  is_number ta = true /\ hashable pt = true /\ hashable sc = true
  /\ well_formed b = true /\ service_notes b <> service_notes ultimate_fallback.
Proof.
  unfold predict_try. destruct (is_number ta) eqn:Hta.
  - rewrite !py_gt_above by done.
    destruct (dict_get payment_terms_map pt "Net 30") as [terms|] eqn:Ept.
    + destruct (dict_get service_notes_map sc _) as [notes|] eqn:Esc.
      * destruct (app_service_notes sc notes Esc) as [Hne Hfb].
        assert (hashable pt = true /\ terms = terms_of pt) as [Hpt ->].
        { destruct pt; try discriminate; cbn in Ept; injection Ept as <-; done. }
        assert (hashable sc = true) as Hsc by (destruct sc; done).
        intros Hb.
        assert (exists d doc,
                  b = {| discount := d; tax_rate := VFloat (Fin 8.5);
                         documentation_complexity := doc;
                         payment_terms := terms_of pt; service_notes := notes |}
                  /\ in_range 0 20 d = true /\ doc ∈ levels) as (dv & doc & -> & Hd & Hdoc).
        { revert Hb.
          destruct (above 10000 ta), (above 5000 ta), (above 15000 ta); cbn;
            intros [= <-]; do 2 eexists; (split; [reflexivity|]);
            (split; [reflexivity|]); unfold levels;
            rewrite !elem_of_cons; auto. }
        repeat split; try done.
        unfold well_formed. cbn -[in_range levels known_payment_terms].
        rewrite Hd, (bool_decide_eq_true_2 _ Hdoc),
          (bool_decide_eq_true_2 _ (terms_of_known pt)).
        cbn. apply negb_true_iff. by apply String.eqb_neq.
      * repeat (destruct (above _ ta); cbn); discriminate.
    + repeat (destruct (above _ ta); cbn); discriminate.
  - by rewrite (py_gt_not_number ta 10000).
Qed.

(** The fields of the suggestion the form works with. *)
Lemma app_predict_fields self sc ci co pt ta th ns :
  let b := predict self sc ci co pt ta th ns in
  well_formed b = true /\ tax_rate b = VFloat (Fin 8.5).
Proof.
  unfold predict. destruct (predict_try sc pt ta) as [b|] eqn:E; [|done].
  split; [by apply app_predict_try_fields in E as (_ & _ & _ & ? & _)|].
  unfold predict_try, mbind, result_bind in E.
  repeat case_match; simplify_eq; done.
Qed.

(** X16. The inline predictor of the application returns a bundle of the
    data model for arguments of every kind: it never raises, and both
    of its branches keep the bounds. *)
Theorem app_predict_well_formed self sc ci co pt ta th ns :
  well_formed (predict self sc ci co pt ta th ns) = true.
Proof.
  unfold predict. destruct (predict_try sc pt ta) as [b|] eqn:E; [|done].
  by apply app_predict_try_fields in E as (_ & _ & _ & ? & _).
Qed.

(** X17. The inline predictor of the application answers with the fixed
    dictionary of its [except] branch (discount 5.0, Medium, Net 30)
    exactly when the amount is not a number or the project type or the
    service category cannot be hashed. *)
Theorem app_predict_falls_back_exactly self sc ci co pt ta th ns :
  predict self sc ci co pt ta th ns = ultimate_fallback
  <-> is_number ta && hashable pt && hashable sc = false.
Proof.
  unfold predict. destruct (predict_try sc pt ta) as [b|] eqn:E.
  - apply app_predict_try_fields in E as (-> & -> & -> & _ & Hne).
    split; [|done]. intros ->. done.
  - split; [|done]. intros _.
    destruct (is_number ta) eqn:Hta; [|done].
    destruct (hashable pt) eqn:Hpt; [|done].
    destruct (hashable sc) eqn:Hsc; [|done].
    exfalso. revert E. unfold predict_try. rewrite !py_gt_above by done.
    destruct pt; try discriminate; destruct sc; try discriminate;
      repeat (destruct (above _ ta); cbn); discriminate.
Qed.

End InlinePredictor.

(** ** The edges of the totals *)

Section TotalsEdges.
Import ProfessionalITInvoiceGenerator Props Conditions.

(** A sum that raised stays raised: the generator expression is left. *)
Lemma foldl_raise {A B} (f : result A -> B -> result A) (l : list B) (e : exn) :
  (forall b e', f (Raise e') b = Raise e') -> foldl f (Raise e) l = Raise e.
Proof.
  intros Hf. induction l as [|b l IH]; [done|]. simpl. by rewrite Hf.
Qed.

Lemma sum_amounts_missing_key services service acc :
  service ∈ services ->
  service !! "hours" = None \/ service !! "hourly_rate" = None ->
  exists e,
    foldl (fun acc service =>
             a ← acc;
             hours ← dict_item service "hours";
             hourly_rate ← dict_item service "hourly_rate";
             amount ← py_mul hours hourly_rate;
             py_add a amount) acc services = Raise e.
Proof.
  intros Hin Hkey. revert acc.
  induction services as [|x rest IH]; intros acc; [by apply elem_of_nil in Hin|].
  simpl. apply elem_of_cons in Hin as [<-|Hin]; [|by apply IH].
  match goal with |- context [foldl ?f ?a rest] =>
    assert (exists e, a = Raise e) as [e ->] end.
  { destruct acc as [a|e]; [|by exists e]. cbn. unfold dict_item.
    destruct Hkey as [-> | Hr]; [by eexists|].
    destruct (service !! "hours"); cbn; [|by eexists]. rewrite Hr. by eexists. }
  exists e. by apply foldl_raise.
Qed.

(** X18. A line item without hours or without an hourly rate, and a discount
    or a tax rate that is not a number, send [calculate_project_totals]
    to its [except] branch: every total is the int 0, the hours too. *)
Theorem totals_fall_back_to_zero services discount tax_rate :
  (exists service,
     service ∈ services
     /\ (service !! "hours" = None \/ service !! "hourly_rate" = None))
  \/ is_number discount = false \/ is_number tax_rate = false ->
  calculate_project_totals services discount tax_rate = zero_totals.
Proof.
  intros H.
  assert (exists e, calculate_project_totals_try services discount tax_rate = Raise e)
    as [e He]; [|unfold calculate_project_totals; by rewrite He].
  unfold calculate_project_totals_try.
  destruct H as [(service & Hin & Hkey) | [Hd | Ht]].
  - unfold sum_amounts at 1.
    destruct (sum_amounts_missing_key services service (Ok (VInt 0)) Hin Hkey) as [e ->].
    by exists e.
  - destruct (sum_amounts services) as [sub|e]; [|by exists e].
    cbn -[py_div py_mul py_sub py_add sum_hours].
    assert (py_div discount (VInt 100) = Raise TypeError) as ->
      by (destruct discount; done).
    by eexists.
  - destruct (sum_amounts services) as [sub|e]; [|by exists e].
    cbn -[py_div py_mul py_sub py_add sum_hours].
    destruct (py_div discount (VInt 100)) as [fd|e]; [|by exists e].
    cbn -[py_div py_mul py_sub py_add sum_hours].
    destruct (py_mul sub fd) as [da|e]; [|by exists e].
    cbn -[py_div py_mul py_sub py_add sum_hours].
    destruct (py_sub sub da) as [taxable|e]; [|by exists e].
    cbn -[py_div py_mul py_sub py_add sum_hours].
    assert (py_div tax_rate (VInt 100) = Raise TypeError) as ->
      by (destruct tax_rate; done).
    by eexists.
Qed.

(** A rounding stays on its side of an int of at most 53 bits. *)
Lemma round64_lower (k : Z) (z r : Q) :
  (Z.abs k <= 2 ^ 53)%Z -> (inject_Z k <= z)%Q -> round64 z = Fin r ->
  (inject_Z k <= r)%Q.
Proof.
  intros Hk Hz Hr. pose proof (round64_mono _ _ Hz) as Hm.
  rewrite round64_int, Hr in Hm by done. by apply fle_Fin.
Qed.

Lemma round64_upper (k : Z) (z r : Q) :
  (Z.abs k <= 2 ^ 53)%Z -> (z <= inject_Z k)%Q -> round64 z = Fin r ->
  (r <= inject_Z k)%Q.
Proof.
  intros Hk Hz Hr. pose proof (round64_mono _ _ Hz) as Hm.
  rewrite round64_int, Hr in Hm by done. by apply fle_Fin.
Qed.

Lemma whole_amounts_nonneg (items : list (Z * Z)) :
  Forall (fun item => 0 <= item.1 /\ 0 <= item.2)%Z items ->
  (0 <= whole_amounts items)%Z.
Proof.
  unfold whole_amounts. induction 1 as [|item items [Hh Hr] _ IH]; simpl; [done|].
  nia.
Qed.

(** X19. For whole line items with non-negative hours and rates, sums
    below 2^53 and a discount and a tax rate of 0 to 100 percent, the
    floats the calculator returns keep the order of the formulas: the
    discount is between 0 and the subtotal, and neither the tax nor
    the total is negative. *)
Theorem totals_within_bounds services items discount tax_rate d t :
  Forall2 line_whole services items ->
  Forall (fun item => 0 <= item.1 /\ 0 <= item.2)%Z items ->
  (amounts_magnitude items <= 2 ^ 53)%Z -> (hours_magnitude items <= 2 ^ 53)%Z ->
  denotes discount d -> denotes tax_rate t ->
  (0 <= d <= 100)%Q -> (0 <= t <= 100)%Q ->
  let r := calculate_project_totals services discount tax_rate in
  let s := inject_Z (whole_amounts items) in
  exists da ta tot,
    denotes (subtotal r) s
    /\ discount_amount r = VFloat (Fin da)
    /\ tax_amount r = VFloat (Fin ta)
    /\ total r = VFloat (Fin tot)
    /\ (0 <= da)%Q /\ (da <= s)%Q /\ (0 <= ta)%Q /\ (0 <= tot)%Q.
Proof.
  intros Hall Hpos Hmag Hhrs Dd Dt Hd Ht r s.
  destruct (totals_whole services items discount tax_rate d t Hall Hmag Hhrs Dd Dt
              Hd Ht)
    as (sub & hrs & p & da & tx & q & ta & tot & _ & Ws & _ & _ & Hr & _ & _ & _
        & Rp & Rda & Rtx & Rq & Rta & Rtot).
  subst r. rewrite Hr. cbn. fold s in Rda, Rtx.
  pose proof (whole_amounts_nonneg items Hpos) as Hs0.
  assert (0 <= s)%Q as Hs
    by (unfold s; change 0%Q with (inject_Z 0); by rewrite <- Zle_Qle).
  pose proof Ws as [Hs53 _].
  assert (0 <= p)%Q as Hp0.
  { apply (round64_lower 0 (d * (1 # 100)) p); [lia| |done].
    change (inject_Z 0) with 0%Q. lra. }
  assert (p <= 1)%Q as Hp1.
  { apply (round64_upper 1 (d * (1 # 100)) p); [lia| |done].
    change (inject_Z 1) with 1%Q. lra. }
  assert (0 <= q)%Q as Hq0.
  { apply (round64_lower 0 (t * (1 # 100)) q); [lia| |done].
    change (inject_Z 0) with 0%Q. lra. }
  assert (0 <= da)%Q as Hda0.
  { apply (round64_lower 0 (s * p) da); [lia| |done].
    change (inject_Z 0) with 0%Q. nra. }
  assert (da <= s)%Q as Hda1.
  { apply (round64_upper _ (s * p) da Hs53); [|done]. fold s. nra. }
  assert (0 <= tx)%Q as Htx0.
  { apply (round64_lower 0 (s + - da) tx); [lia| |done].
    change (inject_Z 0) with 0%Q. lra. }
  assert (0 <= ta)%Q as Hta0.
  { apply (round64_lower 0 (tx * q) ta); [lia| |done].
    change (inject_Z 0) with 0%Q. nra. }
  assert (0 <= tot)%Q as Htot0.
  { apply (round64_lower 0 (tx + ta) tot); [lia| |done].
    change (inject_Z 0) with 0%Q. lra. }
  exists da, ta, tot. split; [by apply whole_denotes|]. done.
Qed.

End TotalsEdges.

(** ** The form of the application *)

Section Form.
Import ProfessionalITInvoiceGenerator Props Conditions InvoiceForm.

Lemma removelast_keeps {A} (P : A -> Prop) (l : list A) :
  Forall P l -> Forall P (removelast l).
Proof.
  induction 1 as [|x l Hx Hl IH]; [done|]. simpl.
  destruct l; [done|]. by constructor.
Qed.

Lemma removelast_nonempty {A} (l : list A) :
  (1 < length l)%nat -> removelast l <> [].
Proof. destruct l as [|x [|y l]]; simpl; [lia | lia | done]. Qed.

Lemma initial_billable : billable (<["description" := VStr "Initial Consultation & Analysis"]>
   (<["details" := VStr "Requirements gathering and system assessment"]>
   (<["hours" := VInt 10]>
   (<["hourly_rate" := VFloat (Fin 150.00)]> ∅)))).
Proof. exists 10%Z, 150.00%Q. repeat split; try done; lia. Qed.

Lemma additional_billable : billable additional_service.
Proof. exists 8%Z, 125.00%Q. repeat split; try done; lia. Qed.

Lemma edit_billable description details hours hourly_rate i service :
  deliverable (Edit i description details hours hourly_rate) = true ->
  billable (edit description details hours hourly_rate service).
Proof.
  destruct hours as [| |h| |]; try done. destruct hourly_rate as [| | |[r| | |]|]; try done.
  simpl. intros H. apply andb_true_iff in H as [Hh Hr].
  apply andb_true_iff in Hh as [Hh Hh'].
  apply Z.leb_le in Hh, Hh'. apply Qle_bool_iff in Hr.
  exists h, r. unfold edit. rewrite lookup_insert_ne by done.
  rewrite !lookup_insert_eq. done.
Qed.

(** Each event leaves a list that is not empty and holds billable
    items only. *)
Lemma handle_keeps services e :
  deliverable e = true -> services <> [] -> Forall billable services ->
  handle services e <> [] /\ Forall billable (handle services e).
Proof.
  intros He Hne Hall. destruct e as [i description details hours hourly_rate| |]; simpl.
  - split.
    + intros Hnil. apply (f_equal length) in Hnil. rewrite length_alter in Hnil.
      by destruct services.
    + apply Forall_alter; [done|]. intros. by eapply edit_billable.
  - split; [by destruct services|].
    apply Forall_app. split; [done|]. constructor; [|done]. apply additional_billable.
  - destruct (1 <? length services)%nat eqn:E; [|done].
    apply Nat.ltb_lt in E. split; [by apply removelast_nonempty|].
    by apply removelast_keeps.
Qed.

Lemma run_keeps events :
  forallb deliverable events = true ->
  run events <> [] /\ Forall billable (run events).
Proof.
  unfold run.
  assert (initial_services <> [] /\ Forall billable initial_services) as Hinit.
  { split; [done|]. constructor; [apply initial_billable | done]. }
  revert Hinit. generalize initial_services.
  induction events as [|e events IH]; intros services [Hne Hall] Hev; [done|].
  simpl in Hev. apply andb_true_iff in Hev as [He Hev]. simpl.
  apply IH; [|done]. by apply handle_keeps.
Qed.

(** A float of at least 50: finite, or the positive infinity. *)
Lemma round64_at_least_50 (z : Q) : (50 <= z)%Q -> fle (Fin 50) (round64 z) = true.
Proof.
  intros Hz. change (Fin 50) with (Fin (inject_Z 50)).
  rewrite <- (round64_int 50) by lia. by apply round64_mono.
Qed.

Lemma at_least_50_cases (x : float) :
  fle (Fin 50) x = true -> x = PosInf \/ exists q, x = Fin q /\ (50 <= q)%Q.
Proof.
  destruct x as [q| | |]; try done; [|by left].
  intros H. right. exists q. split; [done|]. by apply fle_Fin.
Qed.

(** The amount of a billable item. *)
Lemma billable_amount (service : gmap string value) :
  billable service ->
  exists (h : Z) x,
    dict_item service "hours" = Ok (VInt h) /\ (1 <= h)%Z
    /\ (hours ← dict_item service "hours";
        hourly_rate ← dict_item service "hourly_rate";
        py_mul hours hourly_rate) = Ok (VFloat x)
    /\ fle (Fin 50) x = true.
Proof.
  intros (h & r & Hh & [Hh1 Hh53] & Hr & Hr50).
  exists h, (round64 (inject_Z h * r)). unfold dict_item. rewrite Hh, Hr.
  split; [done|]. split; [done|]. split.
  - cbn -[py_mul]. unfold py_mul, to_float, float_of_int.
    rewrite (round64_int h) by lia. reflexivity.
  - apply round64_at_least_50.
    assert (1 <= inject_Z h)%Q
      by (change 1%Q with (inject_Z 1); rewrite <- Zle_Qle; lia).
    nra.
Qed.

(** Adding an amount of at least 50 to the sum so far. *)
Lemma add_at_least_50 (acc : value) (x : float) :
  acc = VInt 0 \/ (exists a, acc = VFloat a /\ fle (Fin 50) a = true) ->
  fle (Fin 50) x = true ->
  exists y, py_add acc (VFloat x) = Ok (VFloat y) /\ fle (Fin 50) y = true.
Proof.
  intros Hacc Hx. apply at_least_50_cases in Hx as [->|(q & -> & Hq)];
    destruct Hacc as [->|(a & -> & Ha)];
    try (apply at_least_50_cases in Ha as [->|(a' & -> & Ha')]);
    try (eexists; split; [reflexivity|done]).
  - eexists. split; [reflexivity|]. apply round64_at_least_50.
    change (inject_Z 0) with 0%Q. lra.
  - eexists. split; [reflexivity|]. apply round64_at_least_50. lra.
Qed.

Lemma sum_amounts_billable services acc :
  Forall billable services ->
  acc = VInt 0 /\ services <> []
  \/ (exists a, acc = VFloat a /\ fle (Fin 50) a = true) ->
  exists x,
    foldl (fun acc service =>
             a ← acc;
             hours ← dict_item service "hours";
             hourly_rate ← dict_item service "hourly_rate";
             amount ← py_mul hours hourly_rate;
             py_add a amount) (Ok acc) services = Ok (VFloat x)
    /\ fle (Fin 50) x = true.
Proof.
  intros Hall. revert acc.
  induction Hall as [|service services Hb _ IH]; intros acc Hacc.
  - destruct Hacc as [[_ ?]|(a & -> & Ha)]; [done|]. by exists a.
  - destruct (billable_amount service Hb) as (h & x & Eh & _ & Ex & Hx).
    assert (acc = VInt 0 \/ (exists a, acc = VFloat a /\ fle (Fin 50) a = true))
      as Hacc' by (destruct Hacc as [[-> _]|?]; auto).
    destruct (add_at_least_50 acc x Hacc' Hx) as (y & Ey & Hy).
    destruct (IH (VFloat y)) as (z & Ez & Hz); [right; by exists y|].
    exists z. split; [|done]. simpl.
    match goal with
    | |- foldl ?f ?a services = _ =>
        assert (a = Ok (VFloat y)) as ->; [|exact Ez]
    end.
    cbn -[py_mul py_add dict_item]. 
    destruct (dict_item service "hours") as [hours|] eqn:E1; [|discriminate].
    cbn -[py_mul py_add dict_item] in Ex |- *.
    destruct (dict_item service "hourly_rate") as [rate|]; [|discriminate].
    cbn -[py_mul py_add] in Ex |- *. rewrite Ex. cbn -[py_add]. exact Ey.
Qed.

Lemma sum_hours_billable services (a : Z) :
  Forall billable services ->
  exists total_hours : Z,
    foldl (fun acc service =>
             a ← acc;
             hours ← dict_item service "hours";
             py_add a hours) (Ok (VInt a)) services = Ok (VInt total_hours)
    /\ (a + Z.of_nat (length services) <= total_hours)%Z.
Proof.
  intros Hall. revert a.
  induction Hall as [|service services Hb _ IH]; intros a.
  - exists a. split; [done|]. simpl. lia.
  - destruct (billable_amount service Hb) as (h & x & Eh & Hh & _).
    destruct (IH (a + h)%Z) as (total & E & Hle).
    exists total. split; [|simpl length; lia].
    simpl. rewrite Eh. exact E.
Qed.

(** X20. However the form was edited, the list of services is not empty
    and the amount is a float of at least 50, the positive infinity
    when the products exceed the doubles; it passes the test
    [total_amount > 0], so the branch that asks for service items is
    never taken.  The hours are an int, at least one per item. *)
Theorem form_amount_is_positive events :
  forallb deliverable events = true ->
  exists total_amount total_hours n,
    project_metrics (run events) = Ok (VFloat total_amount, VInt total_hours, VInt n)
    /\ (1 <= n <= total_hours)%Z
    /\ fle (Fin 50) total_amount = true
    /\ py_gt (VFloat total_amount) (VInt 0) = Ok true.
Proof.
  intros Hev. destruct (run_keeps events Hev) as [Hne Hall].
  destruct (sum_amounts_billable (run events) (VInt 0) Hall) as (x & Ex & Hx);
    [by left|].
  destruct (sum_hours_billable (run events) 0 Hall) as (h & Eh & Hh).
  exists x, h, (Z.of_nat (length (run events))).
  unfold project_metrics, sum_amounts, sum_hours. rewrite Ex, Eh.
  split; [done|]. split; [|split; [done|]].
  - split; [|lia]. destruct (run events); [done|]. simpl. lia.
  - apply at_least_50_cases in Hx as [->|(q & -> & Hq)]; [done|].
    unfold py_gt, py_lt. cbn. f_equal. apply Qltb_lt.
    change (inject_Z 0) with 0%Q. lra.
Qed.

Lemma preselects (b : bundle) :
  well_formed b = true ->
  preselected_payment_terms b = Some (payment_terms b)
  /\ preselected_doc_complexity b = Some (documentation_complexity b)
  /\ in_range 0 20 (discount b) = true /\ in_range 0 25 (tax_rate b) = true.
Proof.
  unfold well_formed. intros H.
  repeat (apply andb_true_iff in H as [H ?]).
  repeat match goal with
         | H : bool_decide _ = true |- _ => apply bool_decide_eq_true in H
         end.
  unfold preselected_payment_terms, preselected_doc_complexity.
  match goal with
  | Ht : payment_terms b ∈ known_payment_terms,
    Hd : documentation_complexity b ∈ levels |- _ =>
      unfold known_payment_terms in Ht; unfold levels in Hd;
      rewrite !elem_of_cons, elem_of_nil in Ht;
      rewrite !elem_of_cons, elem_of_nil in Hd;
      destruct Ht as [->|[->|[->|[->|[]]]]]; destruct Hd as [->|[->|[->|[]]]]
  end; done.
Qed.

(** X21. The widgets of the recommendations start from the suggestion of the
    inline predictor, for arguments of every kind: both select boxes
    show the suggested payment terms and documentation level (the
    positional fallbacks 0 and 1 are never needed), and the two sliders
    get values inside their ranges 0 to 20 and 0 to 25. *)
Theorem form_starts_from_suggestion self sc ci co pt ta th ns :
  let b := SimpleInvoicePredictor.predict self sc ci co pt ta th ns in
  preselected_payment_terms b = Some (payment_terms b)
  /\ preselected_doc_complexity b = Some (documentation_complexity b)
  /\ in_range 0 20 (discount b) = true /\ in_range 0 25 (tax_rate b) = true.
Proof. apply preselects, app_predict_fields. Qed.

Lemma in_range_denotes (lo hi : Q) (v : value) :
  in_range lo hi v = true -> exists q, denotes v q /\ (lo <= q)%Q /\ (q <= hi)%Q.
Proof.
  unfold in_range, denotes. destruct (as_float v) as [[q| | |]|]; try done.
  rewrite andb_true_iff, !Qle_bool_iff. intros [? ?]. exists q.
  split; [by exists q | done].
Qed.

Lemma whole_amounts_billable services (items : list (Z * Z)) :
  Forall2 line_whole services items -> Forall billable services ->
  (50 * Z.of_nat (length services) <= whole_amounts items)%Z.
Proof.
  unfold whole_amounts.
  induction 1 as [|service item services items (h & r & Hh & Hr & Wh & Wr) _ IH];
    intros Hb; [done|].
  apply Forall_cons in Hb as [(h' & r' & Hh' & [Hh1 _] & Hr' & Hr50) Hb].
  specialize (IH Hb). simpl sum_over. simpl length.
  rewrite Hh in Hh'. rewrite Hr in Hr'. simplify_eq.
  assert (item.1 = h') as E1.
  { destruct Wh as [_ [[= ->]|(? & ? & _)]]; done. }
  assert (50 <= item.2)%Z as E2.
  { destruct Wr as [_ [?|(q & [= <-] & Hq)]]; [done|].
    rewrite Hq in Hr50. change 50%Q with (inject_Z 50) in Hr50.
    by rewrite <- Zle_Qle in Hr50. }
  nia.
Qed.

(** X22. The project summary of the form, before a slider is moved, when
    the services are whole amounts with sums below 2^53: the totals
    are computed from the services with the suggested discount [d]
    and the tax rate 8.5, by the formula and not by the all-zero
    fallback; the subtotal is the amount handed to the predictor, the
    total due is the float of the formula, up to the rounding of the
    float operations, and it is positive. *)
Theorem form_summary_follows_the_formula events items self sc ci co pt :
  forallb deliverable events = true ->
  Forall2 line_whole (run events) items ->
  (amounts_magnitude items <= 2 ^ 53)%Z -> (hours_magnitude items <= 2 ^ 53)%Z ->
  exists total_amount total_hours n d tot,
    project_metrics (run events) = Ok (total_amount, total_hours, VInt n)
    /\ let b := SimpleInvoicePredictor.predict self sc ci co pt
                  total_amount total_hours (VInt n) in
       let r := calculate_project_totals (run events) (discount b) (tax_rate b) in
       let q := inject_Z (whole_amounts items) in
       denotes total_amount q /\ denotes (discount b) d
       /\ (0 <= d)%Q /\ (d <= 20)%Q
       /\ subtotal r = total_amount
       /\ total r = VFloat (Fin tot)
       /\ (Qabs (tot - (q - q * d / 100 + (q - q * d / 100) * 8.5 / 100))
           <= totals_tolerance (whole_amounts items))%Q
       /\ (0 < tot)%Q.
Proof.
  intros Hev Hlines Hmag Hhrs. destruct (run_keeps events Hev) as [Hne Hall].
  pose proof (whole_amounts_billable _ _ Hlines Hall) as Hsum.
  assert (50 <= whole_amounts items)%Z as Hs50.
  { destruct (run events); [done|]. simpl length in Hsum. lia. }
  destruct (sum_amounts_whole (run events) items _ 0 Hlines whole_zero Hmag)
    as (a & Ea & Wa).
  destruct (sum_hours_whole (run events) items _ 0 Hlines whole_zero Hhrs)
    as (h & Eh & Wh).
  rewrite Z.add_0_l in Wa, Wh.
  set (n := Z.of_nat (length (run events))).
  set (b := SimpleInvoicePredictor.predict self sc ci co pt a h (VInt n)).
  destruct (app_predict_fields self sc ci co pt a h (VInt n)) as [Hwf Htax].
  fold b in Hwf, Htax. destruct (preselects b Hwf) as (_ & _ & Hd & _).
  destruct (in_range_denotes _ _ _ Hd) as (d & Dd & Hd0 & Hd20).
  assert (denotes (tax_rate b) 8.5) as Dt.
  { rewrite Htax. by exists 8.5%Q. }
  destruct (totals_whole (run events) items (discount b) (tax_rate b) d 8.5
              Hlines Hmag Hhrs Dd Dt ltac:(split; lra) ltac:(split; lra))
    as (sub & hrs & p & da & tx & q & ta & tot & Es & _ & _ & _ & Hr & _ & _ & Btot & _).
  exists a, h, n, d, tot.
  unfold project_metrics, sum_amounts, sum_hours. rewrite Ea, Eh.
  split; [done|]. cbv zeta. fold b. rewrite Hr. cbn.
  unfold sum_amounts in Es. rewrite Ea in Es. injection Es as <-.
  split; [by apply whole_denotes|]. split; [done|]. split; [done|]. split; [done|].
  split; [done|]. split; [done|]. split; [done|].
  assert (50 <= inject_Z (whole_amounts items))%Q as HsQ
    by (change 50%Q with (inject_Z 50); by rewrite <- Zle_Qle).
  revert Btot HsQ. unfold totals_tolerance.
  assert (Qabs (inject_Z (whole_amounts items)) == inject_Z (whole_amounts items))%Q
    as -> by (apply Qabs_pos; change 0%Q with (inject_Z 0); rewrite <- Zle_Qle; lia).
  generalize (inject_Z (whole_amounts items)). intros s Btot HsQ.
  apply Qabs_Qle_condition in Btot as [Blo _]. revert Blo.
  unfold Qdiv, u53. change (/ 100)%Q with (1 # 100)%Q. intros Blo.
  assert (0 <= s * d)%Q by nra. assert (s * d <= 20 * s)%Q by nra.
  lra.
Qed.

End Form.

(** ** The records of the generator *)

Section RoundingBelow.
Import Props.

(** Rounding to hundredths stays between integer bounds. *)
Lemma Qround2_between (q : Q) (lo hi : Z) :
  (inject_Z lo <= q)%Q -> (q <= inject_Z hi)%Q ->
  in_range (inject_Z lo) (inject_Z hi) (VFloat (Fin (Qround2 q))) = true.
Proof.
  intros Hlo Hhi. unfold in_range, Qround2. simpl.
  assert (lo * 100 <= round_half_even (q * 100))%Z.
  { apply round_half_even_ge. rewrite inject_Z_mult.
    change (inject_Z 100) with 100%Q. lra. }
  assert (round_half_even (q * 100) <= hi * 100)%Z.
  { apply round_half_even_le. rewrite inject_Z_mult.
    change (inject_Z 100) with 100%Q. lra. }
  apply andb_true_iff. rewrite !Qle_bool_iff. unfold Qle. simpl. lia.
Qed.

Lemma in_range_widen (lo lo' hi hi' : Q) (v : value) :
  (lo' <= lo)%Q -> (hi <= hi')%Q -> in_range lo hi v = true -> in_range lo' hi' v = true.
Proof.
  unfold in_range. destruct (as_float v) as [[q| | |]|]; try done.
  rewrite !andb_true_iff, !Qle_bool_iff. intros ? ? [? ?]. split; lra.
Qed.

End RoundingBelow.

Section Generator.
Import Props Conditions.

Variable draws : nat -> nat.

Local Abbreviation choice := (Synth.choice draws).
Local Abbreviation randint := (Synth.randint draws).
Local Abbreviation uniform := (Synth.uniform draws).
Local Abbreviation sample_items := (Synth.sample_items draws).
Local Abbreviation generate_record := (Synth.generate_record draws).
Local Abbreviation generate_from := (Synth.generate_from draws).
Local Abbreviation generate_it_invoice_data := (Synth.generate_it_invoice_data draws).

Lemma bind_returns {A B} (m : Synth.G A) (k : A -> Synth.G B) pos a pos' :
  m pos = (Ok a, pos') -> (x ← m; k x) pos = k a pos'.
Proof. intros H. unfold mbind, Synth.G_bind. by rewrite H. Qed.

(** [random.choice] on a list that is not empty. *)
Lemma choice_returns {A} (seq : list A) pos :
  seq <> [] -> exists x, choice seq pos = (Ok x, S pos) /\ x ∈ seq.
Proof.
  intros Hne. unfold Synth.choice, Synth.next, Synth.glift, mbind, Synth.G_bind.
  destruct (lookup_lt_is_Some_2 seq (draws pos mod length seq)) as [x Hx].
  { apply Nat.mod_upper_bound. by destruct seq. }
  exists x. rewrite Hx. split; [done|]. by eapply list_elem_of_lookup_2.
Qed.

Lemma randint_returns (a b : Z) pos :
  (a <= b)%Z -> exists v, randint a b pos = (Ok v, S pos) /\ (a <= v <= b)%Z.
Proof.
  intros Hab. unfold Synth.randint, Synth.next, mbind, Synth.G_bind, mret, Synth.G_ret.
  eexists. split; [reflexivity|].
  pose proof (Z.mod_pos_bound (Z.of_nat (draws pos)) (b - a + 1) ltac:(lia)). lia.
Qed.

Lemma uniform_returns (a b : Z) pos :
  (a <= b)%Z ->
  exists q, uniform a b pos = (Ok (Fin q), S pos)
            /\ (inject_Z a <= q)%Q /\ (q <= inject_Z b)%Q.
Proof.
  intros Hab. unfold Synth.uniform, Synth.next, mbind, Synth.G_bind, mret, Synth.G_ret.
  eexists. split; [reflexivity|].
  pose proof (Z.mod_pos_bound (Z.of_nat (draws pos)) (2 ^ 53) ltac:(lia)) as Hm.
  set (m := (Z.of_nat (draws pos) mod 2 ^ 53)%Z) in *.
  assert (0 < inject_Z (2 ^ 53))%Q as Hc.
  { change 0%Q with (inject_Z 0). rewrite <- Zlt_Qlt. lia. }
  assert (0 <= inject_Z m / inject_Z (2 ^ 53))%Q as H0.
  { apply Qle_shift_div_l; [done|]. rewrite Qmult_0_l.
    change 0%Q with (inject_Z 0). rewrite <- Zle_Qle. lia. }
  assert (inject_Z m / inject_Z (2 ^ 53) <= 1)%Q as H1.
  { apply Qle_shift_div_r; [done|]. rewrite Qmult_1_l. rewrite <- Zle_Qle. lia. }
  assert (0 <= inject_Z (b - a))%Q as Hba.
  { change 0%Q with (inject_Z 0). rewrite <- Zle_Qle. lia. }
  assert (inject_Z b == inject_Z a + inject_Z (b - a))%Q as Hb.
  { rewrite <- inject_Z_plus. f_equiv. lia. }
  revert H0 H1. generalize (inject_Z m / inject_Z (2 ^ 53))%Q. intros r H0 H1.
  split; [nra|]. rewrite Hb. nra.
Qed.

(** Every catalogue the inner loop can draw from is not empty and has
    its rates between 100 and 300. *)
Lemma available_services_rates (service_category : string) :
  let available_services :=
    default [("General IT Consulting", 100, 150)%Z]
      (Synth.service_items !! service_category) in
  available_services <> []
  /\ Forall (fun item : string * Z * Z =>
               (100 <= item.1.2)%Z /\ (item.1.2 <= item.2)%Z /\ (item.2 <= 300)%Z)
       available_services.
Proof.
  cbv zeta. destruct (Synth.service_items !! service_category) as [l|] eqn:E; simpl.
  - unfold Synth.service_items in E.
    repeat (apply lookup_insert_Some in E as [[_ <-]|[_ E]];
            [split; [done|]; repeat constructor; simpl; lia|]).
    by rewrite lookup_empty in E.
  - split; [done|]. repeat constructor; simpl; lia.
Qed.

(** The inner loop: it returns, and each item adds 10 to 100 hours at
    100 to 300 per hour. *)
Lemma sample_items_returns available_services (n : nat) (total_hours total_amount : Z) pos :
  available_services <> [] ->
  Forall (fun item : string * Z * Z =>
            (100 <= item.1.2)%Z /\ (item.1.2 <= item.2)%Z /\ (item.2 <= 300)%Z)
    available_services ->
  exists hours amount pos',
    sample_items available_services n total_hours total_amount pos
    = (Ok (hours, amount), pos')
    /\ (total_hours + 10 * Z.of_nat n <= hours <= total_hours + 100 * Z.of_nat n)%Z
    /\ (100 * (hours - total_hours) <= amount - total_amount
                                    <= 300 * (hours - total_hours))%Z.
Proof.
  intros Hne Hrates. revert total_hours total_amount pos.
  induction n as [|n IH]; intros total_hours total_amount pos.
  - exists total_hours, total_amount, pos. split; [done|]. lia.
  - cbn [Synth.sample_items].
    destruct (choice_returns available_services pos Hne) as (item & E1 & Hin).
    rewrite (bind_returns _ _ _ _ _ E1).
    destruct (randint_returns 10 100 (S pos)) as (h & E2 & Hh); [lia|].
    rewrite (bind_returns _ _ _ _ _ E2).
    rewrite Forall_forall in Hrates. destruct (Hrates item Hin) as (Hlo & Hmid & Hhi).
    destruct (randint_returns item.1.2 item.2 (S (S pos))) as (r & E3 & Hr); [done|].
    rewrite (bind_returns _ _ _ _ _ E3). cbv zeta.
    destruct (IH (total_hours + h)%Z (total_amount + h * r)%Z (S (S (S pos))))
      as (hours & amount & pos' & E & Hhours & Hamount).
    exists hours, amount, pos'. split; [done|]. split; [lia|]. nia.
Qed.

(** One turn of the outer loop: it returns a record, whatever the
    draws are, with these properties. *)
Lemma generate_record_returns (i : nat) pos :
  exists r pos',
    generate_record i pos = (Ok r, pos')
    /\ Synth.invoice_id r = "IT-" ++ digits (2023000 + Z.of_nat i)
    /\ drawn_from_lists r /\ sizes_in_bounds r /\ labels_in_range r.
Proof.
  unfold Synth.generate_record.
  destruct (choice_returns Synth.service_categories pos) as (sc & E1 & Hsc); [done|].
  rewrite (bind_returns _ _ _ _ _ E1).
  destruct (choice_returns Synth.client_industries (S pos)) as (ci & E2 & Hci); [done|].
  rewrite (bind_returns _ _ _ _ _ E2).
  destruct (choice_returns Synth.countries (S (S pos))) as (co & E3 & Hco); [done|].
  rewrite (bind_returns _ _ _ _ _ E3).
  destruct (choice_returns Synth.project_types (S (S (S pos)))) as (pt & E4 & Hpt);
    [done|].
  rewrite (bind_returns _ _ _ _ _ E4).
  destruct (randint_returns 1 6 (S (S (S (S pos))))) as (ns & E5 & Hns); [lia|].
  rewrite (bind_returns _ _ _ _ _ E5). cbv zeta.
  destruct (available_services_rates sc) as [Hne Hrates].
  destruct (sample_items_returns _ (Z.to_nat ns) 0 0 (S (S (S (S (S pos))))) Hne Hrates)
    as (hours & amount & pos1 & E6 & Hhours & Hamount).
  rewrite Z2Nat.id in Hhours by lia.
  rewrite (bind_returns _ _ _ _ _ E6). cbn [fst snd].
  assert (exists dv pos2,
            (if (20000 <? amount)%Z then
               u ← uniform 8 15; Synth.glift (py_round2 (VFloat u))
             else if (10000 <? amount)%Z
                     && bool_decide (ci ∈ ["Finance"; "Healthcare"]) then
               u ← uniform 5 12; Synth.glift (py_round2 (VFloat u))
             else mret (VInt 0)) pos1 = (Ok dv, pos2)
            /\ in_range 0 15 dv = true
            /\ ((amount <= 10000)%Z -> dv = VInt 0)
            /\ ((20000 < amount)%Z -> in_range 8 15 dv = true))
    as (dv & pos2 & E7 & Hd1 & Hd2 & Hd3).
  { destruct (20000 <? amount)%Z eqn:C1.
    - apply Z.ltb_lt in C1.
      destruct (uniform_returns 8 15 pos1) as (q & E & Hlo & Hhi); [lia|].
      rewrite (bind_returns _ _ _ _ _ E). unfold Synth.glift. simpl.
      pose proof (Qround2_between q 8 15 Hlo Hhi) as Hin.
      do 2 eexists. split; [reflexivity|]. split; [|split; [lia|done]].
      eapply in_range_widen; [| |exact Hin]; unfold Qle; simpl; lia.
    - apply Z.ltb_ge in C1.
      destruct ((10000 <? amount)%Z && bool_decide (ci ∈ ["Finance"; "Healthcare"]))
        eqn:C2.
      + apply andb_true_iff in C2 as [C2 _]. apply Z.ltb_lt in C2.
        destruct (uniform_returns 5 12 pos1) as (q & E & Hlo & Hhi); [lia|].
        rewrite (bind_returns _ _ _ _ _ E). unfold Synth.glift. simpl.
        pose proof (Qround2_between q 5 12 Hlo Hhi) as Hin.
        do 2 eexists. split; [reflexivity|]. split; [|split; lia].
        eapply in_range_widen; [| |exact Hin]; unfold Qle; simpl; lia.
      + do 2 eexists. split; [reflexivity|]. split; [done|]. split; [done|lia]. }
  rewrite (bind_returns _ _ _ _ _ E7).
  assert (exists q, Synth.tax_rates !! co = Some q
                    /\ in_range 7 20 (VFloat (Fin q)) = true) as (q & Etax & Htax).
  { unfold Synth.countries in Hco. rewrite !elem_of_cons, elem_of_nil in Hco.
    destruct Hco as [->|[->|[->|[->|[->|[->|[]]]]]]]; eexists; split; reflexivity. }
  assert (Synth.glift (dict_item Synth.tax_rates co) pos2 = (Ok q, pos2)) as E8.
  { unfold Synth.glift, dict_item. by rewrite Etax. }
  rewrite (bind_returns _ _ _ _ _ E8).
  destruct (randint_returns 1 365 pos2) as (days & E9 & Hdays); [lia|].
  rewrite (bind_returns _ _ _ _ _ E9).
  do 2 eexists. split; [reflexivity|]. split; [reflexivity|].
  split; [done|]. split.
  - unfold sizes_in_bounds. cbn. repeat split; lia.
  - unfold labels_in_range. cbn -[in_range levels synthesizer_terms].
    split; [done|]. split; [done|]. split; [done|]. split; [done|].
    split; [by rewrite Etax|]. split.
    { unfold levels. repeat case_match; rewrite !elem_of_cons; auto. }
    split.
    { intros H. apply Z.ltb_lt in H. by rewrite H. }
    split.
    { destruct (_ || _); [done|].
      destruct (8000 <? amount)%Z eqn:C; [done|]. by apply Z.ltb_ge in C. }
    split; [done|].
    repeat case_match; done.
Qed.

Lemma generate_from_returns (n i : nat) pos :
  exists rs pos',
    generate_from i n pos = (Ok rs, pos')
    /\ length rs = n
    /\ forall (j : nat) r,
         rs !! j = Some r ->
         Synth.invoice_id r = "IT-" ++ digits (2023000 + Z.of_nat (i + j))
         /\ drawn_from_lists r /\ sizes_in_bounds r /\ labels_in_range r.
Proof.
  revert i pos. induction n as [|n IH]; intros i pos.
  - exists [], pos. split; [done|]. split; [done|]. intros j r Hj. done.
  - cbn [Synth.generate_from].
    destruct (generate_record_returns i pos) as (r & pos1 & E1 & Hid & Hr).
    rewrite (bind_returns _ _ _ _ _ E1).
    destruct (IH (S i) pos1) as (rs & pos2 & E2 & Hlen & Hrs).
    rewrite (bind_returns _ _ _ _ _ E2).
    exists (r :: rs), pos2. split; [done|]. split; [by rewrite <- Hlen|].
    intros [|j] r' Hj; simpl in Hj.
    + injection Hj as <-. by rewrite Nat.add_0_r.
    + destruct (Hrs j r' Hj) as [Hid' Hr']. split; [|done].
      rewrite Hid'. do 3 f_equal. lia.
Qed.

(** X23. For every source of randomness the generator returns a frame of
    exactly the number of records asked for (none for 0), and the i-th
    record has the identifier IT- followed by 2023000 + i. *)
Theorem generator_returns_requested_records (num_samples : nat) pos :
  exists rs pos',
    generate_it_invoice_data num_samples pos = (Ok rs, pos')
    /\ length rs = num_samples
    /\ forall (j : nat) r,
         rs !! j = Some r ->
         Synth.invoice_id r = "IT-" ++ digits (2023000 + Z.of_nat j).
Proof.
  destruct (generate_from_returns num_samples 0 pos) as (rs & pos' & E & Hlen & H).
  exists rs, pos'. split; [done|]. split; [done|].
  intros j r Hj. by destruct (H j r Hj) as [-> _].
Qed.

(** X24. Every generated record has its four categories from the lists of
    the generator, one to six services, 10 to 100 hours for each of
    them, an amount of 100 to 300 per hour, and a date one to 365 days
    back. *)
Theorem generated_records_in_bounds (num_samples : nat) pos :
  exists rs pos',
    generate_it_invoice_data num_samples pos = (Ok rs, pos')
    /\ Forall (fun r => drawn_from_lists r /\ sizes_in_bounds r) rs.
Proof.
  destruct (generate_from_returns num_samples 0 pos) as (rs & pos' & E & Hlen & H).
  exists rs, pos'. split; [done|].
  apply Forall_lookup. intros j r Hj. by destruct (H j r Hj) as (_ & ? & ? & _).
Qed.

(** X25. The labels of every generated record: a discount of at most 15,
    which is 0 up to an amount of 10000 and at least 8 above 20000; the
    tax rate of the country, between 7 and 20; a documentation level
    that is "High" above 15000 and "Low" only up to 8000; and payment
    terms by the three-way rule on the project type, so never
    "Quarterly in Advance". *)
Theorem generated_labels_in_range (num_samples : nat) pos :
  exists rs pos',
    generate_it_invoice_data num_samples pos = (Ok rs, pos')
    /\ Forall labels_in_range rs.
Proof.
  destruct (generate_from_returns num_samples 0 pos) as (rs & pos' & E & Hlen & H).
  exists rs, pos'. split; [done|].
  apply Forall_lookup. intros j r Hj. by destruct (H j r Hj) as (_ & _ & _ & ?).
Qed.

End Generator.

(** ** Further theorems at concrete inputs *)

Section FurtherExamples.
Import Sklearn World Props Conditions Fixtures.

Local Abbreviation predict :=
  (ITInvoicePredictor.predict plain_repr constant_regressors constant_classifiers).
Local Abbreviation train_models :=
  (ITInvoicePredictor.train_models constant_regressors constant_classifiers).
Local Abbreviation inference := (Props.inference constant_regressors constant_classifiers).

(** 25000 over 150 hours for a client in Finance. *)
Lemma derived_features_witness :
  exists c1 c2 c3 c4 amount_per_hour large enterprise,
    ITInvoicePredictor.prepare_features_for_prediction wild_predictor
      (input_record (VStr "Cloud Services") (VStr "Finance") (VStr "US")
         (VStr "Retainer") (VInt 25000) (VInt 150) (VInt 3))
    = Some [VInt c1; VInt c2; VInt c3; VInt c4; VInt 25000; VInt 150; VInt 3;
            VFloat amount_per_hour; VInt large; VInt enterprise]
    /\ ((150 < 1)%Q -> amount_per_hour = round64 25000)
    /\ ((1 <= 150)%Q -> amount_per_hour = round64 (25000 / 150))
    /\ (large = 1%Z /\ (20000 < 25000)%Q \/ large = 0%Z /\ (25000 <= 20000)%Q)
    /\ (enterprise = 1%Z
          /\ (VStr "Finance" = VStr "Finance" \/ VStr "Finance" = VStr "Healthcare")
        \/ enterprise = 0%Z /\ VStr "Finance" <> VStr "Finance"
           /\ VStr "Finance" <> VStr "Healthcare").
Proof.
  apply (derived_features wild_predictor (VStr "Cloud Services") (VStr "Finance")
           (VStr "US") (VStr "Retainer") (VInt 25000) (VInt 150) (VInt 3)
           25000%Q 150%Q).
  - exists 25000%Q. split; reflexivity.
  - exists 150%Q. split; reflexivity.
  - vm_compute. discriminate.
  - vm_compute. discriminate.
Defined.

(** The amount per hour of that record is the double 166.66666666666666. *)
Lemma amount_per_hour_is_rounded :
  round64 (25000 / 150) = Fin (5864062014805333 # 35184372088832)
  /\ ~ (5864062014805333 # 35184372088832 == 25000 / 150)%Q.
Proof. split; [vm_compute; reflexivity | vm_compute; discriminate]. Qed.

(** "US" is the second class of the country encoder ["UK"; "US"]. *)
Lemma category_codes_witness :
  exists X,
    ITInvoicePredictor.prepare_features_for_prediction wild_predictor
      (input_record (VStr "Cloud Services") (VStr "Finance") (VStr "US")
         (VStr "Retainer") (VInt 25000) (VInt 150) (VInt 3)) = Some X
    /\ X !! 2%nat = Some (VInt 1).
Proof.
  apply (category_codes wild_predictor (VStr "Cloud Services") (VStr "Finance")
           (VStr "US") (VStr "Retainer") (VInt 25000) (VInt 150) (VInt 3)
           2%nat "country" "US");
    reflexivity.
Defined.

(** The frame of the generator has no column amount_per_hour. *)
Lemma training_needs_every_column_witness :
  exists p,
    train_models generated_world ITInvoicePredictor.__init__ = (Ok false, p)
    /\ ITInvoicePredictor.models_loaded p
       = ITInvoicePredictor.models_loaded ITInvoicePredictor.__init__.
Proof.
  apply (training_needs_every_column constant_regressors constant_classifiers
           generated_world ITInvoicePredictor.__init__ generated_frame
           "amount_per_hour").
  - reflexivity.
  - apply (bool_decide_unpack ("amount_per_hour" ∈ training_columns)).
    vm_compute. exact I.
  - reflexivity.
Defined.

Lemma generated_dataset_never_trains_witness :
  (exists p, train_models generated_world ITInvoicePredictor.__init__ = (Ok false, p))
  /\ (ITInvoicePredictor.models_loaded ITInvoicePredictor.__init__ = false ->
      (forall md,
         joblib_load generated_world ITInvoicePredictor.default_models_file <> Ok md) ->
      forall sc ci co pt ta th ns,
        (predict generated_world sc ci co pt ta th ns ITInvoicePredictor.__init__).1
        = ITInvoicePredictor._get_smart_defaults plain_repr sc ci pt ta).
Proof.
  apply (generated_dataset_never_trains plain_repr constant_regressors
           constant_classifiers generated_world ITInvoicePredictor.__init__
           generated_frame).
  - reflexivity.
  - apply (bool_decide_unpack (dom generated_frame ⊆ list_to_set Synth.columns)).
    vm_compute. exact I.
Defined.

(** The country "US" of the first row of the small dataset. *)
Lemma trained_labels_keep_their_codes_witness :
  let p := (train_models training_world ITInvoicePredictor.__init__).2 in
  exists classes codes c,
    fit_transform [VStr "US"; VStr "UK"] = Ok (Fitted classes, codes)
    /\ ITInvoicePredictor.encoders p !! "country" = Some (Fitted classes)
    /\ codes !! 0%nat = Some (VInt c)
    /\ transform (Fitted classes) (VStr "US") = Ok c
    /\ classes !! Z.to_nat c = Some "US".
Proof.
  apply (trained_labels_keep_their_codes constant_regressors constant_classifiers
           training_world ITInvoicePredictor.__init__ _ small_dataset "country"
           [VStr "US"; VStr "UK"] 0%nat "US").
  - vm_compute. reflexivity.
  - reflexivity.
  - apply (bool_decide_unpack ("country" ∈ ITInvoicePredictor.categorical_cols)).
    vm_compute. exact I.
  - reflexivity.
  - reflexivity.
Defined.

(** The wild predictor answers from memory on the empty disk as on the
    disk with the artifact. *)
Lemma predict_in_memory_witness :
  (predict cold_world (VStr "Cloud Services") (VStr "Finance") (VStr "US")
     (VStr "Retainer") (VInt 25000) (VInt 150) (VInt 3) wild_predictor).2
  = wild_predictor
  /\ predict cold_world (VStr "Cloud Services") (VStr "Finance") (VStr "US")
       (VStr "Retainer") (VInt 25000) (VInt 150) (VInt 3) wild_predictor
     = predict warm_world (VStr "Cloud Services") (VStr "Finance") (VStr "US")
         (VStr "Retainer") (VInt 25000) (VInt 150) (VInt 3) wild_predictor.
Proof.
  apply (predict_in_memory plain_repr constant_regressors constant_classifiers
           cold_world warm_world wild_predictor).
  reflexivity.
Defined.

(** The wild artifact answers 33.333 and [nan]: both upper bounds. *)
Lemma inference_saturates_witness :
  exists b,
    (predict cold_world (VStr "Cloud Services") (VStr "Finance") (VStr "US")
       (VStr "Retainer") (VInt 25000) (VInt 150) (VInt 3) wild_predictor).1 = Ok b
    /\ saturates 20 (Fin 33.333) (discount b) /\ saturates 25 NaN (tax_rate b).
Proof.
  eexists. split; [vm_compute; reflexivity|].
  apply (inference_saturates plain_repr constant_regressors constant_classifiers
           cold_world wild_predictor (VStr "Cloud Services") (VStr "Finance")
           (VStr "US") (VStr "Retainer") (VInt 25000) (VInt 150) (VInt 3)
           (Fin 33.333) NaN 1%Z);
    vm_compute; reflexivity.
Defined.

(** At 25000 the trainer's default discount is 10.0 and the inline one
    is 5.0; everything else agrees. *)
Lemma predictors_agree_witness :
  exists b,
    (predict cold_world (VStr "Cloud Services") (VStr "Finance") (VStr "US")
       (VStr "Retainer") (VInt 25000) (VInt 150) (VInt 3)
       ITInvoicePredictor.__init__).1 = Ok b
    /\ let b' := SimpleInvoicePredictor.predict SimpleInvoicePredictor.__init__
                   (VStr "Cloud Services") (VStr "Finance") (VStr "US")
                   (VStr "Retainer") (VInt 25000) (VInt 150) (VInt 3) in
       payment_terms b' = payment_terms b
       /\ (inference cold_world ITInvoicePredictor.__init__ (VStr "Cloud Services")
             (VStr "Finance") (VStr "US") (VStr "Retainer") (VInt 25000) (VInt 150)
             (VInt 3) = None ->
           tax_rate b' = tax_rate b
           /\ documentation_complexity b' = documentation_complexity b
           /\ (discount b' = discount b
               <-> above 20000 (VInt 25000) = false
                   /\ (above 10000 (VInt 25000) = true
                       \/ above 5000 (VInt 25000) = false))).
Proof.
  eexists. split; [vm_compute; reflexivity|].
  apply (predictors_agree plain_repr constant_regressors constant_classifiers
           cold_world ITInvoicePredictor.__init__ SimpleInvoicePredictor.__init__);
    [vm_compute; reflexivity | reflexivity | reflexivity].
Defined.

(** A line item that names its rate "rate". *)
Lemma totals_fall_back_to_zero_witness :
  ProfessionalITInvoiceGenerator.calculate_project_totals
    [<["hours" := VInt 10]> (<["rate" := VInt 150]> ∅)] (VInt 10) (VFloat (Fin 8.5))
  = zero_totals.
Proof.
  apply totals_fall_back_to_zero. left.
  exists (<["hours" := VInt 10]> (<["rate" := VInt 150]> ∅)).
  split; [apply list_elem_of_here | right; reflexivity].
Defined.

Lemma totals_within_bounds_witness :
  let r :=
    ProfessionalITInvoiceGenerator.calculate_project_totals
      [line_item (VInt 10) (VInt 150); line_item (VInt 5) (VInt 200)]
      (VInt 10) (VFloat (Fin 8.5)) in
  let s := inject_Z (whole_amounts [(10, 150); (5, 200)]%Z) in
  exists da ta tot,
    denotes (ProfessionalITInvoiceGenerator.subtotal r) s
    /\ ProfessionalITInvoiceGenerator.discount_amount r = VFloat (Fin da)
    /\ ProfessionalITInvoiceGenerator.tax_amount r = VFloat (Fin ta)
    /\ ProfessionalITInvoiceGenerator.total r = VFloat (Fin tot)
    /\ (0 <= da)%Q /\ (da <= s)%Q /\ (0 <= ta)%Q /\ (0 <= tot)%Q.
Proof.
  apply (totals_within_bounds
           [line_item (VInt 10) (VInt 150); line_item (VInt 5) (VInt 200)]
           [(10, 150); (5, 200)]%Z (VInt 10) (VFloat (Fin 8.5)) 10%Q 8.5%Q).
  - repeat constructor.
    + exists (VInt 10), (VInt 150).
      repeat split; try reflexivity; try (by left); vm_compute; discriminate.
    + exists (VInt 5), (VInt 200).
      repeat split; try reflexivity; try (by left); vm_compute; discriminate.
  - repeat constructor; discriminate.
  - vm_compute. discriminate.
  - vm_compute. discriminate.
  - exists 10%Q. split; reflexivity.
  - exists 8.5%Q. split; reflexivity.
  - split; vm_compute; discriminate.
  - split; vm_compute; discriminate.
Defined.

Lemma form_amount_is_positive_witness :
  exists total_amount total_hours n,
    InvoiceForm.project_metrics (InvoiceForm.run form_events)
    = Ok (VFloat total_amount, VInt total_hours, VInt n)
    /\ (1 <= n <= total_hours)%Z
    /\ fle (Fin 50) total_amount = true
    /\ py_gt (VFloat total_amount) (VInt 0) = Ok true.
Proof. apply (form_amount_is_positive form_events). reflexivity. Defined.

(** The session leaves the initial item, 10 hours at 150. *)
Lemma form_events_leave_the_initial_item :
  Forall2 line_whole (InvoiceForm.run form_events) [(10, 150)%Z].
Proof.
  assert (InvoiceForm.run form_events = InvoiceForm.initial_services) as ->
    by (vm_compute; reflexivity).
  repeat constructor. exists (VInt 10), (VFloat (Fin 150.00)).
  split; [reflexivity|]. split; [reflexivity|]. split.
  - split; [vm_compute; discriminate | by left].
  - split; [vm_compute; discriminate|]. right. eexists. split; reflexivity.
Qed.

Lemma form_summary_follows_the_formula_witness :
  exists total_amount total_hours n d tot,
    InvoiceForm.project_metrics (InvoiceForm.run form_events)
    = Ok (total_amount, total_hours, VInt n)
    /\ let b := SimpleInvoicePredictor.predict SimpleInvoicePredictor.__init__
                  (VStr "Cloud Services") (VStr "Finance") (VStr "US")
                  (VStr "Retainer") total_amount total_hours (VInt n) in
       let r := ProfessionalITInvoiceGenerator.calculate_project_totals
                  (InvoiceForm.run form_events) (discount b) (tax_rate b) in
       let q := inject_Z (whole_amounts [(10, 150)%Z]) in
       denotes total_amount q /\ denotes (discount b) d
       /\ (0 <= d)%Q /\ (d <= 20)%Q
       /\ ProfessionalITInvoiceGenerator.subtotal r = total_amount
       /\ ProfessionalITInvoiceGenerator.total r = VFloat (Fin tot)
       /\ (Qabs (tot - (q - q * d / 100 + (q - q * d / 100) * 8.5 / 100))
           <= totals_tolerance (whole_amounts [(10, 150)%Z]))%Q
       /\ (0 < tot)%Q.
Proof.
  apply (form_summary_follows_the_formula form_events [(10, 150)%Z]
           SimpleInvoicePredictor.__init__).
  - reflexivity.
  - exact form_events_leave_the_initial_item.
  - vm_compute. discriminate.
  - vm_compute. discriminate.
Defined.

Lemma cold_start_always_defaults_witness :
  predict cold_world (VStr "Cloud Services") (VStr "Finance") (VStr "US")
    (VStr "Retainer") (VInt 25000) (VInt 150) (VInt 3) ITInvoicePredictor.__init__
  = (ITInvoicePredictor._get_smart_defaults plain_repr (VStr "Cloud Services")
       (VStr "Finance") (VStr "Retainer") (VInt 25000),
     ITInvoicePredictor.__init__).
Proof.
  apply (cold_start_always_defaults plain_repr constant_regressors
           constant_classifiers cold_world ITInvoicePredictor.__init__).
  - reflexivity.
  - intros md. discriminate.
  - intros df. discriminate.
Defined.

End FurtherExamples.
